(** * Virtio PCI transport: register access, capability discovery, backends,
      device core and interrupt service.

    A shallow embedding of
      - system/dev/bus/virtio/backends/pci_modern.cpp  (PciModernBackend)
      - system/dev/bus/virtio/backends/pci_legacy.cpp  (PciLegacyBackend)
      - the PCI backend base class and the backend interface (backend.h, pci.h)
      - the virtio Device core, in its two generations: the earlier Device
        that embeds the transport logic, and the later Device that owns an
        injected Backend.

    Machine integers are modelled as [Z] with the wrap-around of the C++
    type written out; uintptr_t, size_t and zx_paddr_t are 64 bits wide, as
    on the kernel's targets.  Register accesses go through an abstract [Platform]
    (the hardware behind MMIO and port I/O) and are recorded in a trace, so
    that statements about "which writes, in which order" are statements about
    that trace.  The backend lock (fbl::AutoLock) serialises callers and has
    no effect in this sequential model. *)

From stdpp Require Import base list.
From Stdlib Require Import ZArith Lia.

Local Open Scope Z_scope.

(* ------------------------------------------------------------------ *)
(** ** Machine integers *)

Definition wrap (bits : Z) (v : Z) : Z := v mod 2 ^ bits.

Definition u8  (v : Z) : Z := wrap 8 v.
Definition u16 (v : Z) : Z := wrap 16 v.
Definition u32 (v : Z) : Z := wrap 32 v.
Definition u64 (v : Z) : Z := wrap 64 v.

Definition UINT32_MAX : Z := 0xFFFFFFFF.

(* ------------------------------------------------------------------ *)
(** ** Constants of headers that are not among the sources *)

(** Modelled from the spec: zircon/errors.h and zircon/types.h are not among
    the sources; the status codes and the invalid handle are the kernel ABI's
    values (spec section 7 names the conditions they report). *)
Definition ZX_OK : Z := 0.
Definition ZX_ERR_INVALID_ARGS : Z := -10.
Definition ZX_ERR_BAD_HANDLE : Z := -11.
Definition ZX_ERR_WRONG_TYPE : Z := -12.
Definition ZX_ERR_BAD_STATE : Z := -20.
Definition ZX_HANDLE_INVALID : Z := 0.
Definition ZX_CACHE_POLICY_UNCACHED_DEVICE : Z := 2.
Definition PAGE_SIZE : Z := 4096.

(** ddk/protocol/pci.h: enum pci_resource_ids, pci_header_fields and
    pci_cap_types. *)
Definition PCI_RESOURCE_BAR_0 : Z := 0.
Definition kPciCfgCapabilitiesPtr : Z := 0x34.
Definition kPciCapIdVendor : Z := 0x09.

(** Modelled from the spec: virtio/virtio.h is not among the sources; spec
    section 6 requires the status bits, the ISR bits, the capability
    config-type codes and the register layouts to match the Virtio 1.0 wire
    specification bit-exactly, so its values are used.  The two ISR bits and
    the vendor capability id also appear as literals 0x1, 0x2 and 0x9 in the
    earlier Device. *)
Definition VIRTIO_STATUS_ACKNOWLEDGE : Z := 1.
Definition VIRTIO_STATUS_DRIVER : Z := 2.
Definition VIRTIO_STATUS_DRIVER_OK : Z := 4.

Definition VIRTIO_ISR_QUEUE_INT : Z := 1.
Definition VIRTIO_ISR_DEV_CFG_INT : Z := 2.

Definition VIRTIO_PCI_CAP_COMMON_CFG : Z := 1.
Definition VIRTIO_PCI_CAP_NOTIFY_CFG : Z := 2.
Definition VIRTIO_PCI_CAP_ISR_CFG : Z := 3.
Definition VIRTIO_PCI_CAP_DEVICE_CFG : Z := 4.
Definition VIRTIO_PCI_CAP_PCI_CFG : Z := 5.

(** Modelled from the spec: virtio/virtio.h again, the register offsets of
    the legacy (port I/O) transport from the I/O base. *)
Definition VIRTIO_PCI_QUEUE_PFN : Z := 8.
Definition VIRTIO_PCI_QUEUE_SIZE : Z := 12.
Definition VIRTIO_PCI_QUEUE_SELECT : Z := 14.
Definition VIRTIO_PCI_QUEUE_NOTIFY : Z := 16.
Definition VIRTIO_PCI_DEVICE_STATUS : Z := 18.
Definition VIRTIO_PCI_ISR_STATUS : Z := 19.
Definition VIRTIO_PCI_CONFIG_OFFSET_NOMSIX : Z := 20.
Definition VIRTIO_PCI_CONFIG_OFFSET_NOMSI : Z := 20.

(** Modelled from the spec: virtio/virtio.h again, offsetof(virtio_pci_cap_t,
    field) and sizeof(virtio_pci_cap_t) for the capability layout of the wire
    specification. *)
Definition offsetof_cap_vndr : Z := 0.
Definition offsetof_cap_next : Z := 1.
Definition offsetof_cap_len : Z := 2.
Definition offsetof_cfg_type : Z := 3.
Definition offsetof_bar : Z := 4.
Definition offsetof_offset : Z := 8.
Definition offsetof_length : Z := 12.
Definition sizeof_virtio_pci_cap_t : Z := 16.

(** Modelled from the spec: virtio/virtio.h again,
    offsetof(virtio_pci_common_cfg_t, field) for the common configuration
    layout of the wire specification. *)
Definition offsetof_device_status : Z := 20.
Definition offsetof_queue_select : Z := 22.
Definition offsetof_queue_size : Z := 24.
Definition offsetof_queue_enable : Z := 28.
Definition offsetof_queue_notify_off : Z := 30.
Definition offsetof_queue_desc : Z := 32.
Definition offsetof_queue_avail : Z := 40.
Definition offsetof_queue_used : Z := 48.

(* ------------------------------------------------------------------ *)
(** ** Hardware, traces and the access monad *)

(** Where a register lives: the port I/O space (inp/outp) or mapped memory. *)
Inductive space : Type := Pio | Mmio.

(** What an observer of the driver sees, in program order. *)
Inductive event : Type :=
| EvRead (sp : space) (bits addr val : Z)
| EvWrite (sp : space) (bits addr val : Z)
| EvMapResource (res_id : Z)
| EvInterruptWait
| EvInterruptComplete
| EvIrqRingUpdate
| EvIrqConfigChange.

(** The device behind the registers: a read may change the device (an ISR
    read clears it), a write need not be latched. *)
Record Platform (H : Type) : Type := {
  hw_read : space -> Z -> Z -> H -> Z * H;
  hw_write : space -> Z -> Z -> Z -> H -> H
}.
Arguments hw_read {H} _ _ _ _ _.
Arguments hw_write {H} _ _ _ _ _ _.

Record World (H : Type) : Type := mkWorld {
  hw : H;
  trace : list event
}.
Arguments mkWorld {H} _ _.
Arguments hw {H} _.
Arguments trace {H} _.

(** State and failure: [None] is a failed assertion (abort). *)
Definition M (H A : Type) : Type := World H -> option (A * World H).

Definition ret {H A : Type} (a : A) : M H A := fun w => Some (a, w).

Definition bind {H A B : Type} (m : M H A) (k : A -> M H B) : M H B :=
  fun w => match m w with
           | Some (a, w') => k a w'
           | None => None
           end.

Definition abort {H A : Type} : M H A := fun _ => None.

Definition emit {H : Type} (e : event) : M H unit :=
  fun w => Some (tt, mkWorld (hw w) (trace w ++ [e])).

Notation "x <- m ;; k" := (bind m (fun x => k))
  (at level 100, m at next level, right associativity).
Notation "m ;;; k" := (bind m (fun _ => k))
  (at level 100, right associativity).

Section Access.
Context {H : Type} (P : Platform H).

Definition read (sp : space) (bits addr : Z) : M H Z := fun w =>
  let '(v, h) := hw_read P sp bits addr (hw w) in
  let v := wrap bits v in
  Some (v, mkWorld h (trace w ++ [EvRead sp bits addr v])).

Definition write (sp : space) (bits addr val : Z) : M H unit := fun w =>
  let v := wrap bits val in
  Some (tt, mkWorld (hw_write P sp bits addr v (hw w))
                    (trace w ++ [EvWrite sp bits addr v])).

(** hw/inout.h: the port is a uint16_t. *)
Definition inp (port : Z) : M H Z := read Pio 8 (u16 port).
Definition inpw (port : Z) : M H Z := read Pio 16 (u16 port).
Definition inpd (port : Z) : M H Z := read Pio 32 (u16 port).
Definition outp (port val : Z) : M H unit := write Pio 8 (u16 port) val.
Definition outpw (port val : Z) : M H unit := write Pio 16 (u16 port) val.
Definition outpd (port val : Z) : M H unit := write Pio 32 (u16 port) val.

(** pci_modern.cpp: template <typename T> MmioWrite / MmioRead, [bits] is
    the width of T. *)
Definition MmioWrite (bits addr value : Z) : M H unit :=
  write Mmio bits addr value.

Definition MmioRead (bits addr : Z) : M H Z :=
  read Mmio bits addr.

(** pci_modern.cpp: the uint64_t overloads.  words[0] is the word at
    [addr], words[1] the word at [addr + 4]; the host is little-endian, so
    val[0] is the low half of the result. *)
Definition MmioWrite64 (addr value : Z) : M H unit :=
  write Mmio 32 addr (Z.land value UINT32_MAX) ;;;
  write Mmio 32 (addr + 4) (Z.shiftr value 32).

Definition MmioRead64 (addr : Z) : M H Z :=
  lo <- read Mmio 32 addr ;;
  hi <- read Mmio 32 (addr + 4) ;;
  ret (Z.lor lo (Z.shiftl hi 32)).
End Access.

(* ------------------------------------------------------------------ *)
(** ** The PCI bus protocol (ddk/protocol/pci.h) *)

(** The out-parameters of map_resource together with its status. *)
Record map_result : Type := {
  mr_status : Z;
  mr_vaddr : Z;
  mr_size : Z;
  mr_handle : Z
}.

(** pci_protocol_ops_t: the function pointers the bus driver provides.  The
    configuration space does not change while a driver binds, so the two
    configuration-space operations are functions of their arguments;
    mapping a resource acts on the machine. *)
Record pci_protocol_t (H : Type) : Type := {
  ops_map_resource : Z -> Z -> H -> map_result * H;
  ops_config_read : Z -> Z -> Z;
  ops_get_next_capability : Z -> Z -> Z
}.
Arguments ops_map_resource {H} _ _ _ _.
Arguments ops_config_read {H} _ _ _.
Arguments ops_get_next_capability {H} _ _ _.

Section PciProtocol.
Context {H : Type}.

Definition pci_map_resource (pci : pci_protocol_t H) (res_id cache_policy : Z)
  : M H map_result := fun w =>
  let '(r, h) := ops_map_resource pci (u32 res_id) (u32 cache_policy) (hw w) in
  Some (r, mkWorld h (trace w ++ [EvMapResource (u32 res_id)])).

Definition pci_config_read8 (pci : pci_protocol_t H) (offset : Z) : Z :=
  u8 (Z.land (ops_config_read pci (u8 offset) 8) 0xFF).

Definition pci_config_read32 (pci : pci_protocol_t H) (offset : Z) : Z :=
  u32 (ops_config_read pci (u8 offset) 32).

(** The wrapper hands its two uint8_t arguments to the bus in the order it
    receives them. *)
Definition pci_get_next_capability (pci : pci_protocol_t H) (a1 a2 : Z) : Z :=
  u8 (ops_get_next_capability pci (u8 a1) (u8 a2)).

Definition pci_get_first_capability (pci : pci_protocol_t H) (type : Z) : Z :=
  pci_get_next_capability pci (kPciCfgCapabilitiesPtr - 1) type.
End PciProtocol.

(** virtio_pci_cap_t, as ReadVirtioCap fills it. *)
Record virtio_pci_cap_t : Type := {
  cap_vndr : Z;
  cap_next : Z;
  cap_len : Z;
  cfg_type : Z;
  cap_bar : Z;
  cap_offset : Z;
  cap_length : Z
}.

Definition cap_field (offset field_offset : Z) : Z := u8 (offset + field_offset).

Definition ReadVirtioCap {H : Type} (pci : pci_protocol_t H) (offset : Z)
  : virtio_pci_cap_t :=
  {| cap_vndr := pci_config_read8 pci (cap_field offset offsetof_cap_vndr);
     cap_next := pci_config_read8 pci (cap_field offset offsetof_cap_next);
     cap_len := pci_config_read8 pci (cap_field offset offsetof_cap_len);
     cfg_type := pci_config_read8 pci (cap_field offset offsetof_cfg_type);
     cap_bar := pci_config_read8 pci (cap_field offset offsetof_bar);
     cap_offset := pci_config_read32 pci (cap_field offset offsetof_offset);
     cap_length := pci_config_read32 pci (cap_field offset offsetof_length) |}.

(** struct bar { uintptr_t mmio_base; zx::handle mmio_handle; }. *)
Record bar : Type := mkBar {
  mmio_base : Z;
  mmio_handle : Z
}.

#[global] Instance bar_inhabited : Inhabited bar := populate (mkBar 0 ZX_HANDLE_INVALID).

(* ------------------------------------------------------------------ *)
(** ** PciModernBackend (pci_modern.cpp) *)

Module Modern.

Record PciModernBackend (H : Type) : Type := mkBackend {
  pci_ : pci_protocol_t H;
  bar_ : list bar;
  notify_base_ : Z;
  isr_status_ : Z;
  device_cfg_ : Z;
  common_cfg_ : Z;
  notify_off_mul_ : Z
}.
Arguments mkBackend {H} _ _ _ _ _ _ _.
Arguments pci_ {H} _.
Arguments bar_ {H} _.
Arguments notify_base_ {H} _.
Arguments isr_status_ {H} _.
Arguments device_cfg_ {H} _.
Arguments common_cfg_ {H} _.
Arguments notify_off_mul_ {H} _.

(** countof(bar_): the array is declared bar_[6]. *)
Definition countof_bar_ : Z := 6.

(** The member initialisers of the class (notify_off_mul_ has none; it is
    written before it is read). *)
Definition fresh {H : Type} (pci : pci_protocol_t H) : PciModernBackend H :=
  mkBackend pci (replicate 6 (mkBar 0 ZX_HANDLE_INVALID)) 0 0 0 0 0.

Section WithPlatform.
Context {H : Type} (P : Platform H).

Definition set_bar (i : Z) (s : bar) (b : PciModernBackend H) : PciModernBackend H :=
  mkBackend (pci_ b) (<[Z.to_nat i := s]> (bar_ b)) (notify_base_ b)
            (isr_status_ b) (device_cfg_ b) (common_cfg_ b) (notify_off_mul_ b).
Definition set_notify_base (v : Z) (b : PciModernBackend H) : PciModernBackend H :=
  mkBackend (pci_ b) (bar_ b) v (isr_status_ b) (device_cfg_ b)
            (common_cfg_ b) (notify_off_mul_ b).
Definition set_isr_status (v : Z) (b : PciModernBackend H) : PciModernBackend H :=
  mkBackend (pci_ b) (bar_ b) (notify_base_ b) v (device_cfg_ b)
            (common_cfg_ b) (notify_off_mul_ b).
Definition set_device_cfg (v : Z) (b : PciModernBackend H) : PciModernBackend H :=
  mkBackend (pci_ b) (bar_ b) (notify_base_ b) (isr_status_ b) v
            (common_cfg_ b) (notify_off_mul_ b).
Definition set_common_cfg (v : Z) (b : PciModernBackend H) : PciModernBackend H :=
  mkBackend (pci_ b) (bar_ b) (notify_base_ b) (isr_status_ b)
            (device_cfg_ b) v (notify_off_mul_ b).
Definition set_notify_off_mul (v : Z) (b : PciModernBackend H) : PciModernBackend H :=
  mkBackend (pci_ b) (bar_ b) (notify_base_ b) (isr_status_ b)
            (device_cfg_ b) (common_cfg_ b) v.

Definition bar_at (b : PciModernBackend H) (i : Z) : bar := bar_ b !!! Z.to_nat i.

(** MapBar(uint8_t bar). *)
Definition MapBar (i : Z) (b : PciModernBackend H) : M H (Z * PciModernBackend H) :=
  if countof_bar_ <=? i then ret (ZX_ERR_INVALID_ARGS, b)
  else if negb (mmio_handle (bar_at b i) =? ZX_HANDLE_INVALID) then ret (ZX_OK, b)
  else
    r <- pci_map_resource (pci_ b) (PCI_RESOURCE_BAR_0 + i)
                          ZX_CACHE_POLICY_UNCACHED_DEVICE ;;
    if negb (mr_status r =? ZX_OK) then ret (mr_status r, b)
    else ret (ZX_OK, set_bar i (mkBar (mr_vaddr r) (mr_handle r)) b).

(** bar_[cap.bar].mmio_base + cap.offset, in uintptr_t. *)
Definition cap_address (b : PciModernBackend H) (cap : virtio_pci_cap_t) : Z :=
  u64 (mmio_base (bar_at b (cap_bar cap)) + cap_offset cap).

Definition CommonCfgCallback (cap : virtio_pci_cap_t) (b : PciModernBackend H)
  : M H (PciModernBackend H) :=
  r <- MapBar (cap_bar cap) b ;;
  if negb (fst r =? ZX_OK) then ret (snd r)
  else ret (set_common_cfg (cap_address (snd r) cap) (snd r)).

Definition NotifyCfgCallback (cap : virtio_pci_cap_t) (b : PciModernBackend H)
  : M H (PciModernBackend H) :=
  r <- MapBar (cap_bar cap) b ;;
  if negb (fst r =? ZX_OK) then ret (snd r)
  else ret (set_notify_base (cap_address (snd r) cap) (snd r)).

Definition IsrCfgCallback (cap : virtio_pci_cap_t) (b : PciModernBackend H)
  : M H (PciModernBackend H) :=
  r <- MapBar (cap_bar cap) b ;;
  if negb (fst r =? ZX_OK) then ret (snd r)
  else ret (set_isr_status (cap_address (snd r) cap) (snd r)).

Definition DeviceCfgCallback (cap : virtio_pci_cap_t) (b : PciModernBackend H)
  : M H (PciModernBackend H) :=
  r <- MapBar (cap_bar cap) b ;;
  if negb (fst r =? ZX_OK) then ret (snd r)
  else ret (set_device_cfg (cap_address (snd r) cap) (snd r)).

Definition PciCfgCallback (cap : virtio_pci_cap_t) (b : PciModernBackend H)
  : M H (PciModernBackend H) :=
  ret b.

(** The body of Init's for loop: the switch on cap.cfg_type. *)
Definition Init_body (off : Z) (b : PciModernBackend H) : M H (PciModernBackend H) :=
  let cap := ReadVirtioCap (pci_ b) off in
  if cfg_type cap =? VIRTIO_PCI_CAP_COMMON_CFG then CommonCfgCallback cap b
  else if cfg_type cap =? VIRTIO_PCI_CAP_NOTIFY_CFG then
    NotifyCfgCallback cap
      (set_notify_off_mul
         (pci_config_read32 (pci_ b) (u8 (off + sizeof_virtio_pci_cap_t))) b)
  else if cfg_type cap =? VIRTIO_PCI_CAP_ISR_CFG then IsrCfgCallback cap b
  else if cfg_type cap =? VIRTIO_PCI_CAP_DEVICE_CFG then DeviceCfgCallback cap b
  else if cfg_type cap =? VIRTIO_PCI_CAP_PCI_CFG then PciCfgCallback cap b
  else ret b.

(** Init's for loop.  The loop has no counter of its own; [fuel] bounds
    the number of records visited and [None] means the loop is still
    running when the fuel is spent. *)
Fixpoint Init_loop (fuel : nat) (off : Z) (b : PciModernBackend H) (w : World H)
  : option (PciModernBackend H * World H) :=
  if off =? 0 then Some (b, w)
  else match fuel with
       | O => None
       | S fuel' =>
           match Init_body off b w with
           | Some (b', w') =>
               Init_loop fuel'
                 (pci_get_next_capability (pci_ b') off kPciCapIdVendor) b' w'
           | None => None
           end
       end.

Definition missing_capabilities (b : PciModernBackend H) : bool :=
  (common_cfg_ b =? 0) || (isr_status_ b =? 0)
  || (device_cfg_ b =? 0) || (notify_base_ b =? 0).

Definition Init (fuel : nat) (b : PciModernBackend H) (w : World H)
  : option (Z * PciModernBackend H * World H) :=
  match Init_loop fuel (pci_get_first_capability (pci_ b) kPciCapIdVendor) b w with
  | Some (b', w') =>
      if missing_capabilities b' then Some (ZX_ERR_BAD_STATE, b', w')
      else Some (ZX_OK, b', w')
  | None => None
  end.

Definition GetRingSize (index : Z) (b : PciModernBackend H) : M H Z :=
  MmioWrite P 16 (common_cfg_ b + offsetof_queue_select) index ;;;
  MmioRead P 16 (common_cfg_ b + offsetof_queue_size).

Definition SetRing (index count pa_desc pa_avail pa_used : Z) (b : PciModernBackend H)
  : M H unit :=
  MmioWrite P 16 (common_cfg_ b + offsetof_queue_select) index ;;;
  MmioWrite P 16 (common_cfg_ b + offsetof_queue_size) count ;;;
  MmioWrite64 P (common_cfg_ b + offsetof_queue_desc) pa_desc ;;;
  MmioWrite64 P (common_cfg_ b + offsetof_queue_avail) pa_avail ;;;
  MmioWrite64 P (common_cfg_ b + offsetof_queue_used) pa_used ;;;
  MmioWrite64 P (common_cfg_ b + offsetof_queue_desc) pa_desc ;;;
  MmioWrite P 16 (common_cfg_ b + offsetof_queue_enable) 1.

(** notify_base_ + queue_notify_off * notify_off_mul_: the product of a
    uint16_t and a uint32_t is an unsigned int, the sum a uintptr_t. *)
Definition notify_address (b : PciModernBackend H) (queue_notify_off : Z) : Z :=
  u64 (notify_base_ b + u32 (queue_notify_off * notify_off_mul_ b)).

Definition RingKick (ring_index : Z) (b : PciModernBackend H) : M H unit :=
  queue_notify_off <- MmioRead P 16 (common_cfg_ b + offsetof_queue_notify_off) ;;
  write P Mmio 16 (notify_address b queue_notify_off) ring_index.

Definition DeviceReset (b : PciModernBackend H) : M H unit :=
  MmioWrite P 8 (common_cfg_ b + offsetof_device_status) 0.

Definition DriverStatusOk (b : PciModernBackend H) : M H unit :=
  device_status <- MmioRead P 8 (common_cfg_ b + offsetof_device_status) ;;
  MmioWrite P 8 (common_cfg_ b + offsetof_device_status)
            (Z.lor device_status VIRTIO_STATUS_DRIVER_OK).

Definition DriverStatusAck (b : PciModernBackend H) : M H unit :=
  device_status <- MmioRead P 8 (common_cfg_ b + offsetof_device_status) ;;
  MmioWrite P 8 (common_cfg_ b + offsetof_device_status)
            (Z.lor device_status VIRTIO_STATUS_ACKNOWLEDGE).

Definition IsrStatus (b : PciModernBackend H) : M H Z :=
  v <- read P Mmio 32 (isr_status_ b) ;;
  ret (Z.land v (Z.lor VIRTIO_ISR_QUEUE_INT VIRTIO_ISR_DEV_CFG_INT)).

Definition DeviceConfigRead (bits offset : Z) (b : PciModernBackend H) : M H Z :=
  MmioRead P bits (u64 (device_cfg_ b + u16 offset)).
Definition DeviceConfigRead64 (offset : Z) (b : PciModernBackend H) : M H Z :=
  MmioRead64 P (u64 (device_cfg_ b + u16 offset)).
Definition DeviceConfigWrite (bits offset value : Z) (b : PciModernBackend H) : M H unit :=
  MmioWrite P bits (u64 (device_cfg_ b + u16 offset)) value.
Definition DeviceConfigWrite64 (offset value : Z) (b : PciModernBackend H) : M H unit :=
  MmioWrite64 P (u64 (device_cfg_ b + u16 offset)) value.
End WithPlatform.
End Modern.

(* ------------------------------------------------------------------ *)
(** ** PciLegacyBackend (pci_legacy.cpp) *)

Module Legacy.

Record PciLegacyBackend : Type := mkBackend {
  bar0_base_ : Z;
  device_cfg_offset_ : Z
}.

Section WithPlatform.
Context {H : Type} (P : Platform H).

Definition DeviceConfigRead8 (offset : Z) (b : PciLegacyBackend) : M H Z :=
  inp P (u16 (device_cfg_offset_ b + u16 offset)).
Definition DeviceConfigRead16 (offset : Z) (b : PciLegacyBackend) : M H Z :=
  inpw P (u16 (device_cfg_offset_ b + u16 offset)).
Definition DeviceConfigRead32 (offset : Z) (b : PciLegacyBackend) : M H Z :=
  inpd P (u16 (device_cfg_offset_ b + u16 offset)).
Definition DeviceConfigRead64 (offset : Z) (b : PciLegacyBackend) : M H Z :=
  lo <- inpd P (u16 (device_cfg_offset_ b + u16 offset)) ;;
  hi <- inpd P (u16 (device_cfg_offset_ b + u16 offset + 4)) ;;
  ret (Z.lor lo (Z.shiftl hi 32)).

Definition DeviceConfigWrite8 (offset value : Z) (b : PciLegacyBackend) : M H unit :=
  outp P (u16 (device_cfg_offset_ b + u16 offset)) value.
Definition DeviceConfigWrite16 (offset value : Z) (b : PciLegacyBackend) : M H unit :=
  outpw P (u16 (device_cfg_offset_ b + u16 offset)) value.
Definition DeviceConfigWrite32 (offset value : Z) (b : PciLegacyBackend) : M H unit :=
  outpd P (u16 (device_cfg_offset_ b + u16 offset)) value.

(** The index is not used: the size register of the queue selected last
    is read. *)
Definition GetRingSize (index : Z) (b : PciLegacyBackend) : M H Z :=
  inpw P (u16 (bar0_base_ b + VIRTIO_PCI_QUEUE_SIZE)).

Definition SetRing (index count pa_desc pa_avail pa_used : Z) (b : PciLegacyBackend)
  : M H unit :=
  outpw P (u16 (bar0_base_ b + VIRTIO_PCI_QUEUE_SELECT)) index ;;;
  outpw P (u16 (bar0_base_ b + VIRTIO_PCI_QUEUE_SIZE)) count ;;;
  outpd P (u16 (bar0_base_ b + VIRTIO_PCI_QUEUE_PFN)) (u32 (u64 pa_desc / 4096)).

Definition RingKick (ring_index : Z) (b : PciLegacyBackend) : M H unit :=
  outpw P (u16 (bar0_base_ b + VIRTIO_PCI_QUEUE_NOTIFY)) ring_index.

Definition DeviceReset (b : PciLegacyBackend) : M H unit :=
  outp P (u16 (bar0_base_ b + VIRTIO_PCI_DEVICE_STATUS)) 0.

Definition DriverStatusAck (b : PciLegacyBackend) : M H unit :=
  let addr := u16 (bar0_base_ b + VIRTIO_PCI_DEVICE_STATUS) in
  v <- inp P addr ;;
  outp P addr (Z.lor (Z.lor v VIRTIO_STATUS_ACKNOWLEDGE) VIRTIO_STATUS_DRIVER).

Definition DriverStatusOk (b : PciLegacyBackend) : M H unit :=
  let addr := u16 (bar0_base_ b + VIRTIO_PCI_DEVICE_STATUS) in
  v <- inp P addr ;;
  outp P addr (Z.lor v VIRTIO_STATUS_DRIVER_OK).

(** The closing parenthesis of static_cast<uint16_t>(...) comes before the
    mask, so the mask is an operand of the port expression and the byte
    that inp returns is the result. *)
Definition IsrStatus (b : PciLegacyBackend) : M H Z :=
  inp P (Z.land (u16 (bar0_base_ b + VIRTIO_PCI_ISR_STATUS))
                (Z.lor VIRTIO_ISR_QUEUE_INT VIRTIO_ISR_DEV_CFG_INT)).
End WithPlatform.
End Legacy.

(* ------------------------------------------------------------------ *)
(** ** The Backend interface (backend.h) and the Device that owns one *)

(** class Backend: the virtual methods a Device calls. *)
Class Backend (H : Type) (B : Type) : Type := {
  backend_DriverStatusOk : B -> M H unit;
  backend_DriverStatusAck : B -> M H unit;
  backend_DeviceReset : B -> M H unit;
  backend_DeviceConfigRead8 : Z -> B -> M H Z;
  backend_GetRingSize : Z -> B -> M H Z;
  backend_SetRing : Z -> Z -> Z -> Z -> Z -> B -> M H unit;
  backend_RingKick : Z -> B -> M H unit;
  backend_IsrStatus : B -> M H Z
}.

Definition PciLegacy_Backend {H : Type} (P : Platform H)
  : Backend H Legacy.PciLegacyBackend :=
  {| backend_DriverStatusOk := Legacy.DriverStatusOk P;
     backend_DriverStatusAck := Legacy.DriverStatusAck P;
     backend_DeviceReset := Legacy.DeviceReset P;
     backend_DeviceConfigRead8 := Legacy.DeviceConfigRead8 P;
     backend_GetRingSize := Legacy.GetRingSize P;
     backend_SetRing := Legacy.SetRing P;
     backend_RingKick := Legacy.RingKick P;
     backend_IsrStatus := Legacy.IsrStatus P |}.

Definition PciModern_Backend {H : Type} (P : Platform H)
  : Backend H (Modern.PciModernBackend H) :=
  {| backend_DriverStatusOk := Modern.DriverStatusOk P;
     backend_DriverStatusAck := Modern.DriverStatusAck P;
     backend_DeviceReset := Modern.DeviceReset P;
     backend_DeviceConfigRead8 := Modern.DeviceConfigRead P 8;
     backend_GetRingSize := Modern.GetRingSize P;
     backend_SetRing := Modern.SetRing P;
     backend_RingKick := Modern.RingKick P;
     backend_IsrStatus := Modern.IsrStatus P |}.

(** The Device of the later generation: every register access goes through
    the Backend it was constructed with. *)
Module Device.
Section WithBackend.
Context {H B : Type} (ops : Backend H B).

Definition GetRingSize (index : Z) (backend_ : B) : M H Z :=
  backend_GetRingSize index backend_.
Definition SetRing (index count pa_desc pa_avail pa_used : Z) (backend_ : B)
  : M H unit :=
  backend_SetRing index count pa_desc pa_avail pa_used backend_.
Definition RingKick (ring_index : Z) (backend_ : B) : M H unit :=
  backend_RingKick ring_index backend_.
Definition DeviceReset (backend_ : B) : M H unit := backend_DeviceReset backend_.
Definition DriverStatusAck (backend_ : B) : M H unit :=
  backend_DriverStatusAck backend_.
Definition DriverStatusOk (backend_ : B) : M H unit :=
  backend_DriverStatusOk backend_.
Definition IsrStatus (backend_ : B) : M H Z := backend_IsrStatus backend_.

(** One pass through the body of IrqWorker's while loop.  [wait_rc] and
    [complete_rc] are what zx_interrupt_wait and zx_interrupt_complete
    return in this pass; IrqRingUpdate and IrqConfigChange are the
    virtual callbacks of the derived driver and appear as events.  Each
    [ret tt] before the end is a continue. *)
Definition IrqWorker_iteration (wait_rc complete_rc : Z) (backend_ : B)
  : M H unit :=
  emit EvInterruptWait ;;;
  if negb (wait_rc =? ZX_OK) then ret tt
  else
    irq_status <- IsrStatus backend_ ;;
    emit EvInterruptComplete ;;;
    if negb (complete_rc =? ZX_OK) then ret tt
    else if irq_status =? 0 then ret tt
    else
      (if negb (Z.land irq_status VIRTIO_ISR_QUEUE_INT =? 0)
       then emit EvIrqRingUpdate else ret tt) ;;;
      (if negb (Z.land irq_status VIRTIO_ISR_DEV_CFG_INT =? 0)
       then emit EvIrqConfigChange else ret tt).

(** IrqWorker, for as many passes as the kernel answers in [script]: one
    pair of return codes per pass. *)
Fixpoint IrqWorker (script : list (Z * Z)) (backend_ : B) : M H unit :=
  match script with
  | [] => ret tt
  | (wait_rc, complete_rc) :: rest =>
      IrqWorker_iteration wait_rc complete_rc backend_ ;;;
      IrqWorker rest backend_
  end.
End WithBackend.
End Device.

(* ------------------------------------------------------------------ *)
(** ** The Device of the earlier generation (transport logic embedded) *)

Module EarlierDevice.

(** Modelled from the spec: the PCI configuration header pci_config_t is
    not among the sources; the status word, its capability-list bit and the
    capabilities pointer sit where the PCI bus specification puts them. *)
Definition offsetof_status : Z := 0x06.
Definition offsetof_capabilities_ptr : Z := 0x34.
Definition PCI_STATUS_NEW_CAPS : Z := 0x10.
(** Modelled from the spec: virtio/virtio.h again,
    offsetof(virtio_pci_notify_cap, notify_off_multiplier). *)
Definition offsetof_notify_off_multiplier : Z := 16.

Record mmio_regs : Type := mkRegs {
  common_config : Z;
  notify_base : Z;
  isr_status : Z;
  device_config : Z;
  notify_mul : Z
}.

Record Device (H : Type) : Type := mkDevice {
  pci_ : pci_protocol_t H;
  bar_ : list bar;
  mmio_regs_ : mmio_regs;
  bar0_pio_base_ : Z
}.
Arguments mkDevice {H} _ _ _ _.
Arguments pci_ {H} _.
Arguments bar_ {H} _.
Arguments mmio_regs_ {H} _.
Arguments bar0_pio_base_ {H} _.

(** The configuration header the bus hands to Bind, byte by byte; fields
    wider than a byte are little-endian. *)
Definition config_byte (pci_config : Z -> Z) (a : Z) : Z := u8 (pci_config a).
Definition config_half (pci_config : Z -> Z) (a : Z) : Z :=
  config_byte pci_config a + 2 ^ 8 * config_byte pci_config (a + 1).
Definition config_word (pci_config : Z -> Z) (a : Z) : Z :=
  config_half pci_config a + 2 ^ 16 * config_half pci_config (a + 2).

(** How the capability walk of Bind ends: it leaves the loop and Bind goes
    on, or Bind returns a status from inside the loop. *)
Inductive walk_exit : Type :=
| LoopLeft
| Returned (status : Z).

Section WithPlatform.
Context {H : Type} (P : Platform H).

Definition set_bar (i : Z) (s : bar) (d : Device H) : Device H :=
  mkDevice (pci_ d) (<[Z.to_nat i := s]> (bar_ d)) (mmio_regs_ d) (bar0_pio_base_ d).
Definition set_regs (r : mmio_regs) (d : Device H) : Device H :=
  mkDevice (pci_ d) (bar_ d) r (bar0_pio_base_ d).

(** MapBar(uint8_t i) indexes bar_[6] without a range check; an index
    outside the array has no defined behaviour and aborts here.  When the
    mapping fails the slot is left as it was. *)
Definition MapBar (i : Z) (d : Device H) : M H (Z * Device H) :=
  match bar_ d !! Z.to_nat i with
  | None => abort
  | Some slot =>
      if negb (mmio_handle slot =? ZX_HANDLE_INVALID) then ret (ZX_OK, d)
      else
        r <- pci_map_resource (pci_ d) (PCI_RESOURCE_BAR_0 + i)
                              ZX_CACHE_POLICY_UNCACHED_DEVICE ;;
        if negb (mr_status r =? ZX_OK) then ret (mr_status r, d)
        else ret (ZX_OK, set_bar i (mkBar (mr_vaddr r) (mr_handle r)) d)
  end.

(** (uintptr_t)bar_[cap->bar].mmio_base + cap->offset, read after MapBar. *)
Definition cap_target (pci_config : Z -> Z) (off : Z) (d : Device H) : Z :=
  u64 (mmio_base (bar_ d !!! Z.to_nat (config_byte pci_config (off + offsetof_bar)))
       + config_word pci_config (off + offsetof_offset)).

(** The switch on cap->cfg_type inside the vendor-capability test. *)
Definition Bind_cap (pci_config : Z -> Z) (off : Z) (d : Device H)
  : M H (Device H) :=
  let type := config_byte pci_config (off + offsetof_cfg_type) in
  let i := config_byte pci_config (off + offsetof_bar) in
  let regs := fun d : Device H => mmio_regs_ d in
  if type =? VIRTIO_PCI_CAP_COMMON_CFG then
    r <- MapBar i d ;;
    let d := snd r in
    ret (set_regs (mkRegs (cap_target pci_config off d) (notify_base (regs d))
                          (isr_status (regs d)) (device_config (regs d))
                          (notify_mul (regs d))) d)
  else if type =? VIRTIO_PCI_CAP_NOTIFY_CFG then
    r <- MapBar i d ;;
    let d := snd r in
    ret (set_regs (mkRegs (common_config (regs d)) (cap_target pci_config off d)
                          (isr_status (regs d)) (device_config (regs d))
                          (config_word pci_config
                             (off + offsetof_notify_off_multiplier))) d)
  else if type =? VIRTIO_PCI_CAP_ISR_CFG then
    r <- MapBar i d ;;
    let d := snd r in
    ret (set_regs (mkRegs (common_config (regs d)) (notify_base (regs d))
                          (cap_target pci_config off d) (device_config (regs d))
                          (notify_mul (regs d))) d)
  else if type =? VIRTIO_PCI_CAP_DEVICE_CFG then
    r <- MapBar i d ;;
    let d := snd r in
    ret (set_regs (mkRegs (common_config (regs d)) (notify_base (regs d))
                          (isr_status (regs d)) (cap_target pci_config off d)
                          (notify_mul (regs d))) d)
  else ret d.

(** for (int i = 0; i < 64; i++): [remaining] is 64 - i.  The number in
    the result counts the passes through the loop body. *)
Fixpoint Bind_caps_loop (pci_config : Z -> Z) (remaining : nat) (off : Z)
  (d : Device H) : M H (walk_exit * nat * Device H) :=
  match remaining with
  | O => ret (LoopLeft, 0%nat, d)
  | S remaining' =>
      if PAGE_SIZE <? off then ret (Returned ZX_ERR_INVALID_ARGS, 1%nat, d)
      else
        d' <- (if config_byte pci_config (off + offsetof_cap_vndr) =? 0x9
               then Bind_cap pci_config off d else ret d) ;;
        let next := config_byte pci_config (off + offsetof_cap_next) in
        if next =? 0 then ret (LoopLeft, 1%nat, d')
        else
          r <- Bind_caps_loop pci_config remaining' next d' ;;
          ret (fst (fst r), S (snd (fst r)), snd r)
  end.

(** The "try to parse capabilities" block of Bind. *)
Definition Bind_parse_capabilities (pci_config : Z -> Z) (d : Device H)
  : M H (walk_exit * nat * Device H) :=
  if negb (Z.land (config_half pci_config offsetof_status) PCI_STATUS_NEW_CAPS =? 0)
  then Bind_caps_loop pci_config 64 (config_byte pci_config offsetof_capabilities_ptr) d
  else ret (LoopLeft, 0%nat, d).

(** mmiowrite<uint32_t> and mmiowrite<uint64_t>. *)
Definition mmiowrite32 (ptr val : Z) : M H unit := write P Mmio 32 ptr val.

Definition mmiowrite64 (ptr val : Z) : M H unit :=
  mmiowrite32 ptr (Z.land val UINT32_MAX) ;;;
  mmiowrite32 (ptr + 4) (Z.shiftr val 32).

(** ReadConfigBar<T> and WriteConfigBar<T>; [bits] is the width of T. *)
Definition ReadConfigBar (bits offset : Z) (d : Device H) : M H Z :=
  if negb (bar0_pio_base_ d =? 0) then
    read P Pio bits (Z.land (bar0_pio_base_ d + u16 offset) 0xffff)
  else if negb (mmio_base (bar_ d !!! 0%nat) =? 0) then
    read P Mmio bits (mmio_base (bar_ d !!! 0%nat) + u16 offset)
  else abort.

Definition WriteConfigBar (bits offset val : Z) (d : Device H) : M H unit :=
  if negb (bar0_pio_base_ d =? 0) then
    write P Pio bits (Z.land (bar0_pio_base_ d + u16 offset) 0xffff) val
  else if negb (mmio_base (bar_ d !!! 0%nat) =? 0) then
    write P Mmio bits (mmio_base (bar_ d !!! 0%nat) + u16 offset) val
  else abort.

Definition SetRing (index count pa_desc pa_avail pa_used : Z) (d : Device H)
  : M H unit :=
  let cc := common_config (mmio_regs_ d) in
  if cc =? 0 then
    if negb (bar0_pio_base_ d =? 0) then
      outpw P (Z.land (bar0_pio_base_ d + VIRTIO_PCI_QUEUE_SELECT) 0xffff) index ;;;
      outpw P (Z.land (bar0_pio_base_ d + VIRTIO_PCI_QUEUE_SIZE) 0xffff) count ;;;
      outpd P (Z.land (bar0_pio_base_ d + VIRTIO_PCI_QUEUE_PFN) 0xffff)
            (u32 (u64 pa_desc / PAGE_SIZE))
    else if negb (mmio_base (bar_ d !!! 0%nat) =? 0) then
      let base := mmio_base (bar_ d !!! 0%nat) in
      write P Mmio 16 (base + VIRTIO_PCI_QUEUE_SELECT) index ;;;
      write P Mmio 16 (base + VIRTIO_PCI_QUEUE_SIZE) count ;;;
      write P Mmio 32 (base + VIRTIO_PCI_QUEUE_PFN) (u32 (u64 pa_desc / PAGE_SIZE))
    else abort
  else
    write P Mmio 16 (cc + offsetof_queue_select) index ;;;
    write P Mmio 16 (cc + offsetof_queue_size) count ;;;
    mmiowrite64 (cc + offsetof_queue_desc) pa_desc ;;;
    mmiowrite64 (cc + offsetof_queue_avail) pa_avail ;;;
    mmiowrite64 (cc + offsetof_queue_used) pa_used ;;;
    write P Mmio 16 (cc + offsetof_queue_enable) 1.

(** Reset: write 0, then poll until the status reads 0.  [fuel] bounds
    the polls; [None] also stands for a device that never reads 0. *)
Fixpoint Reset_poll (fuel : nat) (rd : M H Z) : M H unit :=
  match fuel with
  | O => abort
  | S fuel' => v <- rd ;; if v =? 0 then ret tt else Reset_poll fuel' rd
  end.

Definition Reset (fuel : nat) (d : Device H) : M H unit :=
  let cc := common_config (mmio_regs_ d) in
  if cc =? 0 then
    WriteConfigBar 8 VIRTIO_PCI_DEVICE_STATUS 0 d ;;;
    Reset_poll fuel (ReadConfigBar 8 VIRTIO_PCI_DEVICE_STATUS d)
  else
    write P Mmio 8 (cc + offsetof_device_status) 0 ;;;
    Reset_poll fuel (read P Mmio 8 (cc + offsetof_device_status)).

Definition StatusAcknowledgeDriver (d : Device H) : M H unit :=
  let cc := common_config (mmio_regs_ d) in
  if cc =? 0 then
    val <- ReadConfigBar 8 VIRTIO_PCI_DEVICE_STATUS d ;;
    WriteConfigBar 8 VIRTIO_PCI_DEVICE_STATUS
      (Z.lor val (Z.lor VIRTIO_STATUS_ACKNOWLEDGE VIRTIO_STATUS_DRIVER)) d
  else
    val <- read P Mmio 8 (cc + offsetof_device_status) ;;
    write P Mmio 8 (cc + offsetof_device_status)
          (Z.lor val (Z.lor VIRTIO_STATUS_ACKNOWLEDGE VIRTIO_STATUS_DRIVER)).


Definition StatusDriverOK (d : Device H) : M H unit :=
  let cc := common_config (mmio_regs_ d) in
  if cc =? 0 then
    val <- ReadConfigBar 8 VIRTIO_PCI_DEVICE_STATUS d ;;
    WriteConfigBar 8 VIRTIO_PCI_DEVICE_STATUS
      (Z.lor val VIRTIO_STATUS_DRIVER_OK) d
  else
    val <- read P Mmio 8 (cc + offsetof_device_status) ;;
    write P Mmio 8 (cc + offsetof_device_status)
          (Z.lor val VIRTIO_STATUS_DRIVER_OK).

End WithPlatform.
End EarlierDevice.

(* ------------------------------------------------------------------ *)
(** ** A simulated machine: byte-addressed register files and a PCI bus *)

Module Sim.

(** Little-endian load and store of [n] bytes in a byte-addressed space. *)
Fixpoint load (n : nat) (addr : Z) (m : Z -> Z) : Z :=
  match n with
  | O => 0
  | S n' => u8 (m addr) + 2 ^ 8 * load n' (addr + 1) m
  end.

Fixpoint store (n : nat) (addr val : Z) (m : Z -> Z) : Z -> Z :=
  match n with
  | O => m
  | S n' => store n' (addr + 1) (val / 2 ^ 8)
                  (fun a => if a =? addr then u8 val else m a)
  end.

Definition bytes_of (bits : Z) : nat := Z.to_nat (bits / 8).

Definition space_eqb (a b : space) : bool :=
  match a, b with
  | Pio, Pio | Mmio, Mmio => true
  | _, _ => false
  end.

(** The machine: what the registers of either space hold, and how many
    resources the bus has mapped so far. *)
Record state : Type := mkState {
  cells : space -> Z -> Z;
  mapped : nat
}.

Definition sim_read (sp : space) (bits addr : Z) (h : state) : Z * state :=
  (load (bytes_of bits) addr (cells h sp), h).

Definition sim_write (sp : space) (bits addr val : Z) (h : state) : state :=
  mkState (fun s => if space_eqb s sp
                    then store (bytes_of bits) addr val (cells h s)
                    else cells h s)
          (mapped h).

(** Registers that hold what was written to them last. *)
Definition platform : Platform state :=
  {| hw_read := sim_read; hw_write := sim_write |}.


(** An interrupt status register that clears when it is read, as the wire
    specification has it: a read of [reg] in space [sp] returns what the
    register holds and leaves 0 there. *)
Definition clear_on_read_platform (sp : space) (reg : Z) : Platform state :=
  {| hw_read := fun s bits addr h =>
       if space_eqb s sp && (addr =? reg)
       then (fst (sim_read s bits addr h), sim_write s bits addr 0 h)
       else sim_read s bits addr h;
     hw_write := sim_write |}.

(** The bus's capability walk over a configuration space [cfg]: starting
    from the next pointer, look at no more than [limit] records for one
    whose id is [type]. *)
Fixpoint find_capability (cfg : Z -> Z) (limit : nat) (ptr type : Z) : Z :=
  match limit with
  | O => 0
  | S limit' =>
      if ptr =? 0 then 0
      else if u8 (cfg ptr) =? type then ptr
      else find_capability cfg limit' (u8 (cfg (ptr + 1))) type
  end.

(** A bus over the configuration space [cfg] that maps every resource:
    BAR n at (n + 1) * 0x10000000, each mapping with a fresh handle. *)
Definition pci (cfg : Z -> Z) : pci_protocol_t state :=
  {| ops_map_resource := fun res_id _ h =>
       ({| mr_status := ZX_OK;
           mr_vaddr := (res_id + 1) * 0x10000000;
           mr_size := 0x4000;
           mr_handle := 0x100 + Z.of_nat (mapped h) |},
        mkState (cells h) (S (mapped h)));
     ops_config_read := fun offset width => load (bytes_of width) offset cfg;
     ops_get_next_capability := fun offset type =>
       find_capability cfg 64 (u8 (cfg (offset + 1))) type |}.

(** A configuration space given by the bytes stored at some offsets. *)
Fixpoint config_of (bytes : list (Z * Z)) (a : Z) : Z :=
  match bytes with
  | [] => 0
  | (k, v) :: rest => if a =? k then v else config_of rest a
  end.

(** One vendor capability record at [at_]: id, next, length, config type,
    BAR, and the 32-bit offset in the BAR (a single byte is enough here). *)
Definition cap_record (at_ next type bar_index bar_offset : Z) : list (Z * Z) :=
  [(at_, kPciCapIdVendor); (at_ + 1, next); (at_ + 2, 16); (at_ + 3, type);
   (at_ + 4, bar_index); (at_ + 9, bar_offset)].

Definition header (first : Z) : list (Z * Z) :=
  [(0x06, 0x10); (kPciCfgCapabilitiesPtr, first)].

(** A well-formed modern device: common at BAR 4 + 0, ISR at BAR 4 + 0x100,
    device at BAR 4 + 0x200, notify at BAR 4 + 0x300 with multiplier 4. *)
Definition modern_cfg : Z -> Z :=
  config_of (header 0x40
             ++ cap_record 0x40 0x50 VIRTIO_PCI_CAP_COMMON_CFG 4 0
             ++ cap_record 0x50 0x60 VIRTIO_PCI_CAP_ISR_CFG 4 1
             ++ cap_record 0x60 0x70 VIRTIO_PCI_CAP_DEVICE_CFG 4 2
             ++ cap_record 0x70 0 VIRTIO_PCI_CAP_NOTIFY_CFG 4 3
             ++ [(0x80, 4)]).

(** A cyclic list: the record at 0x50 points back to the record at 0x40. *)
Definition cyclic_cfg : Z -> Z :=
  config_of (header 0x40
             ++ cap_record 0x40 0x50 VIRTIO_PCI_CAP_COMMON_CFG 4 0
             ++ cap_record 0x50 0x40 VIRTIO_PCI_CAP_ISR_CFG 4 1).

(** All registers hold [v] in every byte; nothing mapped yet. *)
Definition filled (v : Z) : state := mkState (fun _ _ => v) 0.

Definition start (h : state) : World state := mkWorld h [].

(** The registers of [h] with the bytes [bytes] placed in space [sp]. *)
Definition with_bytes (sp : space) (bytes : list (Z * Z)) (h : state) : state :=
  mkState (fun s a => if space_eqb s sp
                      then (if existsb (fun kv => fst kv =? a) bytes
                            then config_of bytes a else cells h s a)
                      else cells h s a)
          (mapped h).
(** Fixtures.  A modern backend as Init leaves it on [modern_cfg], with the
    notify multiplier [mul]; a legacy backend at I/O base 0xC000; the
    earlier Device before Bind, bound to port I/O, and bound to the modern
    register blocks. *)
Definition unmapped : bar := mkBar 0 ZX_HANDLE_INVALID.

Definition modern_backend (mul : Z) : Modern.PciModernBackend state :=
  Modern.mkBackend (pci modern_cfg)
    [unmapped; unmapped; unmapped; unmapped; mkBar 0x50000000 0x100; unmapped]
    0x50000300 0x50000100 0x50000200 0x50000000 mul.

Definition legacy_backend : Legacy.PciLegacyBackend :=
  Legacy.mkBackend 0xC000 0xC014.

Definition unbound_device (cfg : Z -> Z) : EarlierDevice.Device state :=
  EarlierDevice.mkDevice (pci cfg) (replicate 6 unmapped)
    (EarlierDevice.mkRegs 0 0 0 0 0) 0.

Definition pio_device : EarlierDevice.Device state :=
  EarlierDevice.mkDevice (pci modern_cfg) (replicate 6 unmapped)
    (EarlierDevice.mkRegs 0 0 0 0 0) 0xC000.

Definition mmio_device : EarlierDevice.Device state :=
  EarlierDevice.mkDevice (pci modern_cfg)
    [unmapped; unmapped; unmapped; unmapped; mkBar 0x50000000 0x100; unmapped]
    (EarlierDevice.mkRegs 0x50000000 0x50000300 0x50000100 0x50000200 4) 0.
End Sim.

(* ------------------------------------------------------------------ *)
(** ** The later Device: CopyDeviceConfig *)

Module DeviceCopy.

(** Where a run of CopyDeviceConfig's loop stands: it has left the loop with
    the buffer filled, it has stored past the end of the caller's buffer (no
    defined behaviour), the backend's read did not return, or it is still in
    the loop after the passes it was given, with its counter, the buffer and
    the machine as they are then. *)
Inductive copy_outcome (H : Type) : Type :=
| CopyDone (buf : list Z) (w : World H)
| CopyOverrun
| CopyReadAbort
| CopyRunning (i : Z) (buf : list Z) (w : World H).
Arguments CopyDone {H} _ _.
Arguments CopyOverrun {H}.
Arguments CopyReadAbort {H}.
Arguments CopyRunning {H} _ _ _.

Section WithBackend.
Context {H B : Type} (ops : Backend H B).

(** for (uint16_t i = 0; i < len; i++)
      backend_->DeviceConfigRead(i, static_cast<uint8_t*>(_buf) + i);
    The counter is a uint16_t and [len] a size_t.  [buf] is the caller's
    buffer.  [fuel] is the number of passes looked at. *)
Fixpoint CopyDeviceConfig_loop (fuel : nat) (i len : Z) (buf : list Z) (backend_ : B)
  (w : World H) : copy_outcome H :=
  if i <? len then
    match fuel with
    | O => CopyRunning i buf w
    | S fuel' =>
        match buf !! Z.to_nat i with
        | None => CopyOverrun
        | Some _ =>
            match backend_DeviceConfigRead8 i backend_ w with
            | Some (v, w') =>
                CopyDeviceConfig_loop fuel' (u16 (i + 1)) len
                  (<[Z.to_nat i := v]> buf) backend_ w'
            | None => CopyReadAbort
            end
        end
    end
  else CopyDone buf w.

(** CopyDeviceConfig(void* _buf, size_t len); [_buf] is [None] for a null
    pointer, on which assert(_buf) fails.  The call returns, with ZX_OK, when
    the loop is left. *)
Definition CopyDeviceConfig (fuel : nat) (_buf : option (list Z)) (len : Z)
  (backend_ : B) (w : World H) : option (Z * list Z * World H) :=
  match _buf with
  | None => None
  | Some buf =>
      match CopyDeviceConfig_loop fuel 0 (u64 len) buf backend_ w with
      | CopyDone buf' w' => Some (ZX_OK, buf', w')
      | _ => None
      end
  end.
End WithBackend.
End DeviceCopy.

(* ------------------------------------------------------------------ *)
(** ** The earlier Device: the remaining register operations *)

Module EarlierRest.

(** Modelled from the spec: virtio/virtio.h again, the feature registers at
    the head of virtio_pci_common_cfg_t in the layout of the wire
    specification. *)
Definition offsetof_device_feature_select : Z := 0.
Definition offsetof_device_feature : Z := 4.
Definition offsetof_driver_feature_select : Z := 8.
Definition offsetof_driver_feature : Z := 12.

Section WithPlatform.
Context {H : Type} (P : Platform H).
Implicit Types d : EarlierDevice.Device H.

(** One pass through the body of the earlier IrqWorker's while loop, with the
    return codes of zx_interrupt_wait and zx_interrupt_complete as in
    [Device.IrqWorker_iteration].  The status is used as it is read. *)
Definition IrqWorker_iteration (wait_rc complete_rc : Z) d : M H unit :=
  emit EvInterruptWait ;;;
  if wait_rc <? 0 then ret tt
  else
    irq_status <-
      (if negb (EarlierDevice.isr_status (EarlierDevice.mmio_regs_ d) =? 0)
       then read P Mmio 32 (EarlierDevice.isr_status (EarlierDevice.mmio_regs_ d))
       else inp P (Z.land (EarlierDevice.bar0_pio_base_ d + VIRTIO_PCI_ISR_STATUS) 0xffff)) ;;
    emit EvInterruptComplete ;;;
    if complete_rc <? 0 then ret tt
    else if irq_status =? 0 then ret tt
    else
      (if negb (Z.land irq_status 0x1 =? 0) then emit EvIrqRingUpdate else ret tt) ;;;
      (if negb (Z.land irq_status 0x2 =? 0) then emit EvIrqConfigChange else ret tt).

Definition GetRingSize (index : Z) d : M H Z :=
  let cc := EarlierDevice.common_config (EarlierDevice.mmio_regs_ d) in
  if cc =? 0 then
    if negb (EarlierDevice.bar0_pio_base_ d =? 0) then
      inpw P (Z.land (EarlierDevice.bar0_pio_base_ d + VIRTIO_PCI_QUEUE_SIZE) 0xffff)
    else if negb (mmio_base (EarlierDevice.bar_ d !!! 0%nat) =? 0) then
      read P Mmio 16 (mmio_base (EarlierDevice.bar_ d !!! 0%nat) + VIRTIO_PCI_QUEUE_SIZE)
    else abort
  else
    write P Mmio 16 (cc + offsetof_queue_select) index ;;;
    read P Mmio 16 (cc + offsetof_queue_size).

(** notify_base is a volatile uint16_t*: the element index is
    ring_index * notify_mul / sizeof(uint16_t), the product an unsigned int. *)
Definition RingKick (ring_index : Z) d : M H unit :=
  let nb := EarlierDevice.notify_base (EarlierDevice.mmio_regs_ d) in
  if nb =? 0 then
    if negb (EarlierDevice.bar0_pio_base_ d =? 0) then
      outpw P (Z.land (EarlierDevice.bar0_pio_base_ d + VIRTIO_PCI_QUEUE_NOTIFY) 0xffff)
            ring_index
    else abort
  else
    write P Mmio 16
      (nb + 2 * (u32 (u16 ring_index * EarlierDevice.notify_mul (EarlierDevice.mmio_regs_ d))
                 / 2))
      ring_index.

(** CopyDeviceConfig: for (size_t i = 0; i < len; i++), one byte per pass;
    [n] is len - i.  The bytes read are returned in order: they are what the
    buffer holds from its start when the call returns. *)
Fixpoint CopyDeviceConfig_loop (n : nat) (i : Z) d : M H (list Z) :=
  match n with
  | O => ret []
  | S n' =>
      v <- (if negb (EarlierDevice.device_config (EarlierDevice.mmio_regs_ d) =? 0)
            then read P Mmio 8 (EarlierDevice.device_config (EarlierDevice.mmio_regs_ d) + i)
            else EarlierDevice.ReadConfigBar P 8
                   (Z.land (VIRTIO_PCI_CONFIG_OFFSET_NOMSI + i) 0xffff) d) ;;
      rest <- CopyDeviceConfig_loop n' (i + 1) d ;;
      ret (v :: rest)
  end.

Definition CopyDeviceConfig (len : Z) d : M H (Z * list Z) :=
  bytes <- CopyDeviceConfig_loop (Z.to_nat (u64 len)) 0 d ;;
  ret (ZX_OK, bytes).

(** WriteDeviceConfig<T>: config[offset] on a volatile T* is the element at
    offset * sizeof(T); the port I/O path adds the offset in bytes. *)
Definition WriteDeviceConfig (bits offset val : Z) d : M H unit :=
  let dc := EarlierDevice.device_config (EarlierDevice.mmio_regs_ d) in
  if negb (dc =? 0) then write P Mmio bits (dc + u16 offset * (bits / 8)) val
  else EarlierDevice.WriteConfigBar P bits
         (Z.land (u16 offset + VIRTIO_PCI_CONFIG_OFFSET_NOMSI) 0xffff) val d.

(** IsFeatureSupported(size_t bit) and AcknowledgeFeature(size_t bit):
    word_size is 32, assert(mmio_regs_.common_config) comes first. *)
Definition IsFeatureSupported (bit : Z) d : M H bool :=
  let cc := EarlierDevice.common_config (EarlierDevice.mmio_regs_ d) in
  if cc =? 0 then abort
  else
    write P Mmio 32 (cc + offsetof_device_feature_select) (u32 (u64 bit / 32)) ;;;
    v <- read P Mmio 32 (cc + offsetof_device_feature) ;;
    ret (negb (Z.land (Z.shiftr v (u64 bit mod 32)) 1 =? 0)).

Definition AcknowledgeFeature (bit : Z) d : M H unit :=
  let cc := EarlierDevice.common_config (EarlierDevice.mmio_regs_ d) in
  if cc =? 0 then abort
  else
    write P Mmio 32 (cc + offsetof_driver_feature_select) (u32 (u64 bit / 32)) ;;;
    v <- read P Mmio 32 (cc + offsetof_driver_feature) ;;
    write P Mmio 32 (cc + offsetof_driver_feature)
          (Z.lor v (u32 (Z.shiftl 1 (u64 bit mod 32)))).
End WithPlatform.
End EarlierRest.

(* ------------------------------------------------------------------ *)
(** ** PciBackend::Bind and PciLegacyBackend::Init *)

Module PciBind.

(** zx_pci_resource_t, the fields that Init reads. *)
Record zx_pci_resource_t : Type := {
  res_type : Z;
  pio_addr : Z
}.

(** The function pointers of pci_protocol_ops_t that binding uses. *)
Record pci_bind_ops (H : Type) : Type := {
  ops_enable_bus_master : bool -> H -> Z * H;
  ops_set_irq_mode : Z -> Z -> H -> Z * H;
  ops_map_interrupt : Z -> H -> (Z * Z) * H;
  ops_get_resource : Z -> H -> (Z * zx_pci_resource_t) * H
}.
Arguments ops_enable_bus_master {H} _ _ _.
Arguments ops_set_irq_mode {H} _ _ _ _.
Arguments ops_map_interrupt {H} _ _ _.
Arguments ops_get_resource {H} _ _ _.

(** The calls that Bind makes, in order. *)
Inductive bind_call : Type :=
| CallEnableBusMaster (enable : bool)
| CallSetIrqMode (mode requested_irq_count : Z)
| CallMapInterrupt (which_irq : Z)
| CallInit.

(** What Bind leaves behind: its status, irq_handle_, the backend as Init
    left it, and the calls made. *)
Record bound (B : Type) : Type := mkBound {
  bind_status : Z;
  irq_handle_ : Z;
  bound_backend : B;
  bind_calls : list bind_call
}.
Arguments mkBound {B} _ _ _ _.
Arguments bind_status {B} _.
Arguments irq_handle_ {B} _.
Arguments bound_backend {B} _.
Arguments bind_calls {B} _.

Section WithBus.
Context {H : Type}.
(** The interrupt modes and the port I/O resource type are constants of
    zircon/syscalls/pci.h, which is not among the sources. *)
Context (ZX_PCIE_IRQ_MODE_MSI ZX_PCIE_IRQ_MODE_LEGACY PCI_RESOURCE_TYPE_PIO : Z).
Context (bus : pci_bind_ops H).

(** PciBackend::Bind.  [Init] is the backend's virtual Init, [None] when it
    does not return; [irq_handle_] is ZX_HANDLE_INVALID until the interrupt
    is mapped. *)
Definition Bind {B : Type} (Init : B -> World H -> option (Z * B * World H))
  (backend : B) (w : World H) : option (bound B * World H) :=
  let '(r, h1) := ops_enable_bus_master bus true (hw w) in
  let calls1 := [CallEnableBusMaster true] in
  if negb (r =? ZX_OK)
  then Some (mkBound r ZX_HANDLE_INVALID backend calls1, mkWorld h1 (trace w))
  else
    let '(msi, h2) := ops_set_irq_mode bus ZX_PCIE_IRQ_MODE_MSI 1 h1 in
    let calls2 := calls1 ++ [CallSetIrqMode ZX_PCIE_IRQ_MODE_MSI 1] in
    let '(legacy, h3, calls3) :=
      if negb (msi =? 0)
      then let '(l, h) := ops_set_irq_mode bus ZX_PCIE_IRQ_MODE_LEGACY 1 h2 in
           (l, h, calls2 ++ [CallSetIrqMode ZX_PCIE_IRQ_MODE_LEGACY 1])
      else (0, h2, calls2) in
    if negb (legacy =? 0)
    then Some (mkBound (-1) ZX_HANDLE_INVALID backend calls3, mkWorld h3 (trace w))
    else
      let '(rh, h4) := ops_map_interrupt bus 0 h3 in
      let calls4 := calls3 ++ [CallMapInterrupt 0] in
      if negb (fst rh =? ZX_OK)
      then Some (mkBound (fst rh) ZX_HANDLE_INVALID backend calls4, mkWorld h4 (trace w))
      else
        match Init backend (mkWorld h4 (trace w)) with
        | Some (status, backend', w') =>
            Some (mkBound status (snd rh) backend' (calls4 ++ [CallInit]), w')
        | None => None
        end.

(** PciLegacyBackend::Init. *)
Definition LegacyInit (b : Legacy.PciLegacyBackend) (w : World H)
  : Z * Legacy.PciLegacyBackend * World H :=
  let '(r, h1) := ops_get_resource bus PCI_RESOURCE_BAR_0 (hw w) in
  let w1 := mkWorld h1 (trace w) in
  if negb (fst r =? ZX_OK) then (fst r, b, w1)
  else if negb (res_type (snd r) =? PCI_RESOURCE_TYPE_PIO) then (ZX_ERR_WRONG_TYPE, b, w1)
  else
    let bar0_base := u16 (Z.land (pio_addr (snd r)) 0xffff) in
    (ZX_OK,
     Legacy.mkBackend bar0_base (u16 (bar0_base + VIRTIO_PCI_CONFIG_OFFSET_NOMSIX)),
     w1).
End WithBus.
End PciBind.

(* ------------------------------------------------------------------ *)
(** ** The PL061 GPIO driver (pl061.c) *)

Module Pl061.

Definition GPIODATA (mask : Z) : Z := Z.shiftl mask 2.
Definition GPIODIR : Z := 0x400.
Definition GPIOIS : Z := 0x404.
Definition GPIOIBE : Z := 0x408.
Definition GPIOIEV : Z := 0x40C.
Definition GPIOIE : Z := 0x410.
Definition GPIORIS : Z := 0x414.
Definition GPIOMIS : Z := 0x418.
Definition GPIOIC : Z := 0x41C.
Definition GPIOS_PER_PAGE : Z := 8.

(** pl061_gpios_t, the fields that the register operations use:
    io_buffer_virt(&gpios->buffer) and gpio_start. *)
Record pl061_gpios_t : Type := {
  buffer_virt : Z;
  gpio_start : Z
}.

(** The flag constants of ddk/protocol/gpio.h, which is not among the
    sources. *)
Record gpio_flags : Type := {
  GPIO_DIR_MASK : Z;
  GPIO_DIR_OUT : Z;
  GPIO_TRIGGER_MASK : Z;
  GPIO_TRIGGER_LEVEL : Z;
  GPIO_TRIGGER_EDGE : Z;
  GPIO_TRIGGER_RISING : Z;
  GPIO_TRIGGER_FALLING : Z
}.

(** pin -= gpios->gpio_start, on unsigned. *)
Definition local_pin (gpios : pl061_gpios_t) (pin : Z) : Z :=
  u32 (u32 pin - u32 (gpio_start gpios)).

(** io_buffer_virt(&gpios->buffer) + PAGE_SIZE * (pin / GPIOS_PER_PAGE). *)
Definition regs_of (gpios : pl061_gpios_t) (pin : Z) : Z :=
  buffer_virt gpios + PAGE_SIZE * (pin / GPIOS_PER_PAGE).

(** uint8_t bit = 1 << (pin % GPIOS_PER_PAGE). *)
Definition bit_of (pin : Z) : Z := u8 (Z.shiftl 1 (pin mod GPIOS_PER_PAGE)).

(** zx_object_signal(event_handle, GPIO_SIGNAL_LOW, GPIO_SIGNAL_HIGH) reports
    a high pin, zx_object_signal(event_handle, GPIO_SIGNAL_HIGH,
    GPIO_SIGNAL_LOW) a low one. *)
Inductive gpio_signal : Type :=
| SignalHigh
| SignalLow.

Section WithPlatform.
Context {H : Type} (P : Platform H).

(** hw/reg.h: readb and writeb. *)
Definition readb (addr : Z) : M H Z := read P Mmio 8 addr.
Definition writeb (v addr : Z) : M H unit := write P Mmio 8 addr v.

Definition pl061_gpio_config (F : gpio_flags) (gpios : pl061_gpios_t) (pin flags : Z)
  : M H Z :=
  let pin := local_pin gpios pin in
  let regs := regs_of gpios pin in
  let bit := bit_of pin in
  let edge := Z.land flags (GPIO_TRIGGER_MASK F) =? GPIO_TRIGGER_EDGE F in
  let rising := negb (Z.land flags (GPIO_TRIGGER_RISING F) =? 0) in
  let falling := negb (Z.land flags (GPIO_TRIGGER_FALLING F) =? 0) in
  dir <- readb (regs + GPIODIR) ;;
  writeb (if Z.land flags (GPIO_DIR_MASK F) =? GPIO_DIR_OUT F
          then Z.lor dir bit else Z.land dir (Z.lnot bit)) (regs + GPIODIR) ;;;
  trigger <- readb (regs + GPIOIS) ;;
  writeb (if Z.land flags (GPIO_TRIGGER_MASK F) =? GPIO_TRIGGER_LEVEL F
          then Z.lor trigger bit else Z.land trigger (Z.lnot bit)) (regs + GPIOIS) ;;;
  be <- readb (regs + GPIOIBE) ;;
  iev <- readb (regs + GPIOIEV) ;;
  writeb (if edge && rising && falling
          then Z.lor be bit else Z.land be (Z.lnot bit)) (regs + GPIOIBE) ;;;
  writeb (if edge && rising && negb falling
          then Z.lor iev bit else Z.land iev (Z.lnot bit)) (regs + GPIOIEV) ;;;
  ret ZX_OK.

(** *out_value = !!(readb(regs + GPIODATA(bit)) & bit). *)
Definition pl061_gpio_read (gpios : pl061_gpios_t) (pin : Z) : M H (Z * Z) :=
  let pin := local_pin gpios pin in
  let regs := regs_of gpios pin in
  let bit := bit_of pin in
  v <- readb (regs + GPIODATA bit) ;;
  ret (ZX_OK, if Z.land v bit =? 0 then 0 else 1).

Definition pl061_gpio_write (gpios : pl061_gpios_t) (pin value : Z) : M H Z :=
  let pin := local_pin gpios pin in
  let regs := regs_of gpios pin in
  let bit := bit_of pin in
  writeb (if u32 value =? 0 then 0 else bit) (regs + GPIODATA bit) ;;;
  ret ZX_OK.

Definition pl061_gpio_int_enable_locked (regs pin : Z) (enable : bool) : M H unit :=
  let bit := bit_of pin in
  ie <- readb (regs + GPIOIE) ;;
  writeb (if enable then Z.lor ie bit else Z.land ie (Z.lnot bit)) (regs + GPIOIE).

(** pl061_irq_thread, one pass of its while loop after zx_interrupt_wait has
    returned ZX_OK.  The for loop runs over the eight pins of the page;
    [n] is GPIOS_PER_PAGE - i.  Each zx_object_signal on the thread's
    event handle is recorded with the level it reports; the result carries
    the final value of ic. *)
Fixpoint pl061_irq_scan (n : nat) (i regs mis ic : Z) : M H (Z * list gpio_signal) :=
  match n with
  | O => ret (ic, [])
  | S n' =>
      let bit := bit_of i in
      r <- (if negb (Z.land mis bit =? 0) then
              v <- readb (regs + GPIODATA bit) ;;
              ret (u8 (Z.lor ic bit),
                   [if negb (Z.land v bit =? 0) then SignalHigh else SignalLow])
            else ret (ic, [])) ;;
      writeb (fst r) (regs + GPIOIC) ;;;
      rest <- pl061_irq_scan n' (i + 1) regs mis (fst r) ;;
      ret (fst rest, snd r ++ snd rest)
  end.

Definition pl061_irq_wake (regs : Z) : M H (Z * list gpio_signal) :=
  mis <- readb (regs + GPIOMIS) ;;
  pl061_irq_scan (Z.to_nat GPIOS_PER_PAGE) 0 regs mis 0.
End WithPlatform.
End Pl061.

(* ------------------------------------------------------------------ *)
(** ** More simulated hardware *)

Module Bench.


(** A bus over [cfg] whose mapping primitive fails with [status]. *)
Definition failing_pci (cfg : Z -> Z) (status : Z) : pci_protocol_t Sim.state :=
  {| ops_map_resource := fun _ _ h =>
       ({| mr_status := status; mr_vaddr := 0; mr_size := 0;
           mr_handle := ZX_HANDLE_INVALID |}, h);
     ops_config_read := ops_config_read (Sim.pci cfg);
     ops_get_next_capability := ops_get_next_capability (Sim.pci cfg) |}.

(** A bus for binding: bus mastering succeeds, MSI is refused with
    [msi_status], line interrupts answer [legacy_status], the interrupt maps
    to handle 0x77, and BAR 0 is a port I/O window at [pio]. *)
Definition bind_bus (msi_status legacy_status pio : Z) : PciBind.pci_bind_ops Sim.state :=
  {| PciBind.ops_enable_bus_master := fun _ h => (ZX_OK, h);
     PciBind.ops_set_irq_mode := fun mode _ h =>
       (if mode =? 2 then msi_status else legacy_status, h);
     PciBind.ops_map_interrupt := fun _ h => ((ZX_OK, 0x77), h);
     PciBind.ops_get_resource := fun _ h =>
       ((ZX_OK, {| PciBind.res_type := 1; PciBind.pio_addr := pio |}), h) |}.
End Bench.

(* ------------------------------------------------------------------ *)
(** ** Notions used to state the properties *)

(** The length of the bus's list of vendor capabilities from [off] on, when
    it ends within [fuel] records. *)
Fixpoint capability_count {H : Type} (pci : pci_protocol_t H) (fuel : nat) (off : Z)
  : option nat :=
  if off =? 0 then Some 0%nat
  else match fuel with
       | O => None
       | S fuel' =>
           option_map S (capability_count pci fuel'
                           (pci_get_next_capability pci off kPciCapIdVendor))
       end.

(** Every virtio capability that the earlier Device's walk visits names a BAR
    inside bar_[6]. *)
Fixpoint bars_in_range (pci_config : Z -> Z) (remaining : nat) (off : Z) : bool :=
  match remaining with
  | O => true
  | S remaining' =>
      let type := EarlierDevice.config_byte pci_config (off + offsetof_cfg_type) in
      let vendor := EarlierDevice.config_byte pci_config (off + offsetof_cap_vndr) =? 0x9 in
      let maps := vendor && (VIRTIO_PCI_CAP_COMMON_CFG <=? type)
                  && (type <=? VIRTIO_PCI_CAP_DEVICE_CFG) in
      let next := EarlierDevice.config_byte pci_config (off + offsetof_cap_next) in
      (negb maps || (EarlierDevice.config_byte pci_config (off + offsetof_bar) <? 6))
      && ((next =? 0) || bars_in_range pci_config remaining' next)
  end.

(** The events a run adds to the trace. *)
Definition added {H : Type} (w w' : World H) (evs : list event) : Prop :=
  trace w' = trace w ++ evs.

Definition is_callback (e : event) : bool :=
  match e with
  | EvIrqRingUpdate | EvIrqConfigChange => true
  | _ => false
  end.

Definition count_event (p : event -> bool) (evs : list event) : nat :=
  length (filter (fun e => p e = true) evs).

Definition is_ring_update (e : event) : bool :=
  match e with EvIrqRingUpdate => true | _ => false end.

Definition is_config_change (e : event) : bool :=
  match e with EvIrqConfigChange => true | _ => false end.




(* ------------------------------------------------------------------ *)
(** ** Notions for the further properties *)

(** The four register addresses that Init has to resolve. *)
Definition addresses {H : Type} (b : Modern.PciModernBackend H) : Z * Z * Z * Z :=
  (Modern.common_cfg_ b, Modern.isr_status_ b, Modern.device_cfg_ b,
   Modern.notify_base_ b).

(** The resource ids handed to the bus's mapping primitive among some
    events, in order. *)
Definition map_calls (evs : list event) : list Z :=
  omap (fun e => match e with
                 | EvMapResource res_id => Some res_id
                 | _ => None
                 end) evs.

(** A register write, of any width, in either space. *)
Definition is_write (e : event) : bool :=
  match e with
  | EvWrite _ _ _ _ => true
  | _ => false
  end.

(** The register writes among some events, as address and value, in order. *)
Definition writes_of (evs : list event) : list (Z * Z) :=
  omap (fun e => match e with
                 | EvWrite _ _ addr val => Some (addr, val)
                 | _ => None
                 end) evs.

(** A register read, of any width, in either space. *)
Definition is_read (e : event) : bool :=
  match e with
  | EvRead _ _ _ _ => true
  | _ => false
  end.

(** Reading [n] bytes one after the other from offset [i] on through the
    backend's 8-bit DeviceConfigRead. *)
Fixpoint read_bytes {H B : Type} (ops : Backend H B) (n : nat) (i : Z) (backend_ : B)
  : M H (list Z) :=
  match n with
  | O => ret []
  | S n' =>
      v <- backend_DeviceConfigRead8 i backend_ ;;
      rest <- read_bytes ops n' (i + 1) backend_ ;;
      ret (v :: rest)
  end.

(** What a [bits]-wide read at [addr] in space [sp] returns on the simulated
    registers in state [h]. *)
Definition peek (sp : space) (bits addr : Z) (h : Sim.state) : Z :=
  wrap bits (Sim.load (Sim.bytes_of bits) addr (Sim.cells h sp)).

(** The widths of the register accesses. *)
Definition register_width (bits : Z) : Prop := bits = 8 \/ bits = 16 \/ bits = 32.

(* ------------------------------------------------------------------ *)
(** ** Machine integers: basic facts *)

Lemma wrap_range (bits v : Z) : 0 <= bits -> 0 <= wrap bits v < 2 ^ bits.
Proof.
  intros Hb. unfold wrap. apply Z.mod_pos_bound. apply Z.pow_pos_nonneg; lia.
Qed.

Lemma wrap_small (bits v : Z) : 0 <= v < 2 ^ bits -> wrap bits v = v.
Proof. intros Hv. unfold wrap. apply Z.mod_small. exact Hv. Qed.

Lemma wrap_idem (bits v : Z) : wrap bits (wrap bits v) = wrap bits v.
Proof. unfold wrap. apply Z.mod_mod_divide. apply Z.divide_refl. Qed.

Lemma u16_idem (v : Z) : u16 (u16 v) = u16 v.
Proof. apply wrap_idem. Qed.

Lemma u8_range (v : Z) : 0 <= u8 v < 256.
Proof. apply (wrap_range 8 v). lia. Qed.

Lemma u16_range (v : Z) : 0 <= u16 v < 65536.
Proof. apply (wrap_range 16 v). lia. Qed.

(* ------------------------------------------------------------------ *)
(** ** Capability discovery *)

Section InitFacts.
Context {H : Type}.
Implicit Types (b : Modern.PciModernBackend H) (w : World H).

Lemma MapBar_returns i b w :
  exists s b' w', Modern.MapBar i b w = Some (s, b', w')
                  /\ Modern.pci_ b' = Modern.pci_ b.
Proof.
  unfold Modern.MapBar.
  destruct (Modern.countof_bar_ <=? i); [by eauto |].
  destruct (negb _); [by eauto |].
  unfold bind, pci_map_resource.
  destruct (ops_map_resource _ _ _ _) as [r h]; simpl.
  destruct (negb _); simpl; eauto.
Qed.

Lemma Init_body_returns off b w :
  exists b' w', Modern.Init_body off b w = Some (b', w')
                /\ Modern.pci_ b' = Modern.pci_ b.
Proof.
  unfold Modern.Init_body, Modern.CommonCfgCallback, Modern.NotifyCfgCallback,
    Modern.IsrCfgCallback, Modern.DeviceCfgCallback, Modern.PciCfgCallback.
  repeat match goal with
         | |- context [if ?c then _ else _] =>
             match c with
             | (cfg_type _ =? _) => destruct c
             end
         end;
    try (by eexists _, _; split; [reflexivity | reflexivity]);
    unfold bind;
    match goal with
    | |- context [Modern.MapBar ?i ?b0 ?w0] =>
        destruct (MapBar_returns i b0 w0) as (s & b1 & w1 & -> & Hp)
    end; simpl; destruct (negb _); simpl; eauto.
Qed.

(** The loop of Init is still running after [fuel] records exactly when
    the bus's capability list has not ended by then. *)
Lemma Init_loop_runs fuel : forall off b w,
  Modern.Init_loop fuel off b w = None
  <-> capability_count (Modern.pci_ b) fuel off = None.
Proof.
  induction fuel as [| fuel IH]; intros off b w; simpl.
  - destruct (off =? 0); [split; discriminate | tauto].
  - destruct (off =? 0); [split; discriminate |].
    destruct (Init_body_returns off b w) as (b' & w' & -> & Hp).
    rewrite (IH _ b' w'), Hp.
    destruct (capability_count _ _ _); simpl; split; congruence.
Qed.

Lemma Init_runs fuel b w :
  Modern.Init fuel b w = None
  <-> capability_count (Modern.pci_ b) fuel
        (pci_get_first_capability (Modern.pci_ b) kPciCapIdVendor) = None.
Proof.
  unfold Modern.Init. rewrite <- (Init_loop_runs fuel _ b w).
  destruct (Modern.Init_loop _ _ _ _) as [[b' w'] |].
  - destruct (Modern.missing_capabilities b'); split; discriminate.
  - tauto.
Qed.
End InitFacts.

Section BindFacts.
Context {H : Type}.
Implicit Types (d : EarlierDevice.Device H) (w : World H).

Lemma config_byte_range (pci_config : Z -> Z) (a : Z) :
  0 <= EarlierDevice.config_byte pci_config a < 256.
Proof. apply u8_range. Qed.

Lemma Earlier_MapBar_returns i d w :
  0 <= i < 6 -> length (EarlierDevice.bar_ d) = 6%nat ->
  exists s d' w', EarlierDevice.MapBar i d w = Some (s, d', w')
                  /\ length (EarlierDevice.bar_ d') = 6%nat.
Proof.
  intros Hi Hlen. unfold EarlierDevice.MapBar.
  destruct (lookup_lt_is_Some_2 (EarlierDevice.bar_ d) (Z.to_nat i)) as [slot ->];
    [lia |].
  destruct (negb _); [by eauto |].
  unfold bind, pci_map_resource.
  destruct (ops_map_resource _ _ _ _) as [r h]; simpl.
  destruct (negb _); simpl; [by eauto |].
  eexists _, _, _; split; [reflexivity |].
  simpl. by rewrite length_insert.
Qed.

Lemma Bind_cap_returns (pci_config : Z -> Z) off d w :
  length (EarlierDevice.bar_ d) = 6%nat ->
  (VIRTIO_PCI_CAP_COMMON_CFG
     <= EarlierDevice.config_byte pci_config (off + offsetof_cfg_type)
     <= VIRTIO_PCI_CAP_DEVICE_CFG ->
   EarlierDevice.config_byte pci_config (off + offsetof_bar) < 6) ->
  exists d' w', EarlierDevice.Bind_cap pci_config off d w = Some (d', w')
                /\ length (EarlierDevice.bar_ d') = 6%nat.
Proof.
  intros Hlen Hbar. unfold EarlierDevice.Bind_cap. cbv zeta.
  pose proof (config_byte_range pci_config (off + offsetof_bar)) as Hrange.
  set (type := EarlierDevice.config_byte pci_config (off + offsetof_cfg_type)) in *.
  assert (Hmap : VIRTIO_PCI_CAP_COMMON_CFG <= type <= VIRTIO_PCI_CAP_DEVICE_CFG ->
                 exists s d1 w1,
                   EarlierDevice.MapBar
                     (EarlierDevice.config_byte pci_config (off + offsetof_bar)) d w
                   = Some (s, d1, w1)
                   /\ length (EarlierDevice.bar_ d1) = 6%nat).
  { intros Htype. apply Earlier_MapBar_returns; [| exact Hlen].
    split; [lia | by apply Hbar]. }
  destruct (Z.eqb_spec type VIRTIO_PCI_CAP_COMMON_CFG) as [Heq | _];
    [| destruct (Z.eqb_spec type VIRTIO_PCI_CAP_NOTIFY_CFG) as [Heq | _];
       [| destruct (Z.eqb_spec type VIRTIO_PCI_CAP_ISR_CFG) as [Heq | _];
          [| destruct (Z.eqb_spec type VIRTIO_PCI_CAP_DEVICE_CFG) as [Heq | _];
             [| by eexists _, _; split; [reflexivity | exact Hlen] ]]]];
    (destruct Hmap as (s & d1 & w1 & Hm & Hlen1); [rewrite Heq; by vm_compute |]);
    unfold bind; rewrite Hm; simpl;
    eexists _, _; (split; [reflexivity | exact Hlen1]).
Qed.

Lemma bars_in_range_step (pci_config : Z -> Z) remaining off :
  bars_in_range pci_config (S remaining) off = true ->
  (EarlierDevice.config_byte pci_config (off + offsetof_cap_vndr) = 0x9 ->
   VIRTIO_PCI_CAP_COMMON_CFG
     <= EarlierDevice.config_byte pci_config (off + offsetof_cfg_type)
     <= VIRTIO_PCI_CAP_DEVICE_CFG ->
   EarlierDevice.config_byte pci_config (off + offsetof_bar) < 6)
  /\ (EarlierDevice.config_byte pci_config (off + offsetof_cap_next) <> 0 ->
      bars_in_range pci_config remaining
        (EarlierDevice.config_byte pci_config (off + offsetof_cap_next)) = true).
Proof.
  simpl. intros Hr. apply andb_prop in Hr as [Hmaps Hnext]. split.
  - intros Hv [Hlo Hhi]. rewrite Hv in Hmaps. simpl in Hmaps.
    apply Z.leb_le in Hlo, Hhi. rewrite Hlo, Hhi in Hmaps. simpl in Hmaps.
    by apply Z.ltb_lt.
  - intros Hne. apply orb_prop in Hnext as [Hz | Hrec]; [| exact Hrec].
    apply Z.eqb_eq in Hz. contradiction.
Qed.

(** The walk of the earlier Device makes no more passes than its counter
    allows and always leaves the loop when it ends. *)
Lemma Bind_caps_loop_returns (pci_config : Z -> Z) remaining :
  forall off d w,
    0 <= off < 256 ->
    length (EarlierDevice.bar_ d) = 6%nat ->
    bars_in_range pci_config remaining off = true ->
    exists n d' w',
      EarlierDevice.Bind_caps_loop pci_config remaining off d w
      = Some (EarlierDevice.LoopLeft, n, d', w')
      /\ (n <= remaining)%nat.
Proof.
  induction remaining as [| remaining IH]; intros off d w Hoff Hlen Hr.
  - simpl. eexists _, _, _; split; [reflexivity | lia].
  - apply bars_in_range_step in Hr as [Hbar Hnext].
    cbn [EarlierDevice.Bind_caps_loop].
    destruct (Z.ltb_spec PAGE_SIZE off) as [Hbig | _];
      [unfold PAGE_SIZE in Hbig; lia |].
    unfold bind.
    assert (exists d1 w1,
               (if EarlierDevice.config_byte pci_config (off + offsetof_cap_vndr) =? 0x9
                then EarlierDevice.Bind_cap pci_config off d else ret d) w
               = Some (d1, w1) /\ length (EarlierDevice.bar_ d1) = 6%nat)
      as (d1 & w1 & -> & Hlen1).
    { destruct (Z.eqb_spec (EarlierDevice.config_byte pci_config
                              (off + offsetof_cap_vndr)) 0x9) as [Hv | _].
      - apply Bind_cap_returns; [exact Hlen | by apply Hbar].
      - eexists _, _; split; [reflexivity | exact Hlen]. }
    destruct (Z.eqb_spec (EarlierDevice.config_byte pci_config
                            (off + offsetof_cap_next)) 0) as [_ | Hne].
    + eexists _, _, _; split; [reflexivity | lia].
    + destruct (IH _ d1 w1 (config_byte_range pci_config _) Hlen1 (Hnext Hne))
        as (n & d2 & w2 & -> & Hn).
      simpl. eexists _, _, _; split; [reflexivity | lia].
Qed.
End BindFacts.

Lemma capability_count_step {H : Type} (pci : pci_protocol_t H) fuel off :
  off <> 0 ->
  capability_count pci (S fuel) off
  = option_map S (capability_count pci fuel
                    (pci_get_next_capability pci off kPciCapIdVendor)).
Proof.
  intros Hne. simpl. destruct (Z.eqb_spec off 0); [contradiction | reflexivity].
Qed.

(** On the cyclic list the bus's walk alternates between the two records. *)
Lemma cyclic_list_has_no_end fuel :
  capability_count (Sim.pci Sim.cyclic_cfg) fuel 0x40 = None
  /\ capability_count (Sim.pci Sim.cyclic_cfg) fuel 0x50 = None.
Proof.
  induction fuel as [| fuel [IH40 IH50]]; [split; reflexivity |].
  rewrite !capability_count_step by lia.
  change (pci_get_next_capability (Sim.pci Sim.cyclic_cfg) 0x40 kPciCapIdVendor)
    with 0x50.
  change (pci_get_next_capability (Sim.pci Sim.cyclic_cfg) 0x50 kPciCapIdVendor)
    with 0x40.
  rewrite IH40, IH50. split; reflexivity.
Qed.

(** C1, as stated, fails: on a list whose second record points back to the
    first, the loop of PciModernBackend::Init is still running after any
    number of records, and the earlier Device's walk stops after 64 passes by
    leaving the loop, without returning a failure. *)
Lemma C1_cyclic_list_counterexample :
  (forall fuel : nat,
      Modern.Init fuel (Modern.fresh (Sim.pci Sim.cyclic_cfg))
                  (Sim.start (Sim.filled 0)) = None)
  /\ match EarlierDevice.Bind_parse_capabilities Sim.cyclic_cfg
             (Sim.unbound_device Sim.cyclic_cfg)
             (Sim.start (Sim.filled 0)) with
     | Some (exit, passes, _, _) =>
         exit = EarlierDevice.LoopLeft /\ passes = 64%nat
     | None => False
     end.
Proof.
  split.
  - intros fuel. apply Init_runs. exact (proj1 (cyclic_list_has_no_end fuel)).
  - vm_compute. split; reflexivity.
Qed.

(** C1, amended.  The earlier Device's capability walk in Bind makes at most
    64 passes on every list whose virtio capabilities name a BAR of bar_[6],
    cyclic lists included, and ends by leaving the loop: reaching the limit
    returns no status.  The loop of PciModernBackend::Init has no limit of its
    own: it ends, and Init returns, whenever the bus's list of vendor
    capabilities ends. *)
Theorem C1_capability_walk_bounds :
  (forall (H : Type) (pci_config : Z -> Z) (d : EarlierDevice.Device H) (w : World H),
      length (EarlierDevice.bar_ d) = 6%nat ->
      bars_in_range pci_config 64
        (EarlierDevice.config_byte pci_config EarlierDevice.offsetof_capabilities_ptr)
      = true ->
      exists n d' w',
        EarlierDevice.Bind_parse_capabilities pci_config d w
        = Some (EarlierDevice.LoopLeft, n, d', w')
        /\ (n <= 64)%nat)
  /\ (forall (H : Type) (fuel : nat) (b : Modern.PciModernBackend H) (w : World H)
             (n : nat),
         capability_count (Modern.pci_ b) fuel
           (pci_get_first_capability (Modern.pci_ b) kPciCapIdVendor) = Some n ->
         exists r, Modern.Init fuel b w = Some r).
Proof.
  split.
  - intros H pci_config d w Hlen Hbars. unfold EarlierDevice.Bind_parse_capabilities.
    destruct (negb _).
    + apply Bind_caps_loop_returns; [apply config_byte_range | exact Hlen | exact Hbars].
    + eexists _, _, _; split; [reflexivity | lia].
  - intros H fuel b w n Hcount. pose proof (Init_runs fuel b w) as Hruns.
    destruct (Modern.Init fuel b w) as [r |]; [by exists r |].
    destruct Hruns as [Hruns _]. rewrite Hcount in Hruns.
    discriminate Hruns; reflexivity.
Qed.

Lemma C1_capability_walk_bounds_witness :
  (exists n d' w',
      EarlierDevice.Bind_parse_capabilities Sim.cyclic_cfg
        (Sim.unbound_device Sim.cyclic_cfg)
        (Sim.start (Sim.filled 0))
      = Some (EarlierDevice.LoopLeft, n, d', w')
      /\ (n <= 64)%nat)
  /\ (exists r,
         Modern.Init 4 (Modern.fresh (Sim.pci Sim.modern_cfg)) (Sim.start (Sim.filled 0))
         = Some r).
Proof.
  split.
  - apply (proj1 C1_capability_walk_bounds); vm_compute; reflexivity.
  - apply (proj2 C1_capability_walk_bounds Sim.state 4%nat
             (Modern.fresh (Sim.pci Sim.modern_cfg)) (Sim.start (Sim.filled 0)) 4%nat).
    vm_compute. reflexivity.
Defined.

(* ------------------------------------------------------------------ *)
(** ** The status that Init returns *)

Lemma missing_capabilities_spec {H : Type} (b : Modern.PciModernBackend H) :
  Modern.missing_capabilities b = true
  <-> (Modern.common_cfg_ b = 0 \/ Modern.isr_status_ b = 0
       \/ Modern.device_cfg_ b = 0 \/ Modern.notify_base_ b = 0).
Proof.
  unfold Modern.missing_capabilities.
  rewrite !orb_true_iff, !Z.eqb_eq. tauto.
Qed.

(** C2.  Once the capability list is exhausted, Init returns
    ZX_ERR_BAD_STATE if one of common_cfg_, isr_status_, device_cfg_ and
    notify_base_ is still unresolved (null), and ZX_OK only when all four are
    resolved. *)
Theorem C2_Init_needs_all_four_capabilities
  (H : Type) (fuel : nat) (b : Modern.PciModernBackend H) (w : World H) (n : nat) :
  capability_count (Modern.pci_ b) fuel
    (pci_get_first_capability (Modern.pci_ b) kPciCapIdVendor) = Some n ->
  exists status b' w',
    Modern.Init fuel b w = Some (status, b', w')
    /\ (status = ZX_ERR_BAD_STATE
        <-> (Modern.common_cfg_ b' = 0 \/ Modern.isr_status_ b' = 0
             \/ Modern.device_cfg_ b' = 0 \/ Modern.notify_base_ b' = 0))
    /\ (status = ZX_OK
        <-> (Modern.common_cfg_ b' <> 0 /\ Modern.isr_status_ b' <> 0
             /\ Modern.device_cfg_ b' <> 0 /\ Modern.notify_base_ b' <> 0)).
Proof.
  intros Hcount.
  pose proof (Init_runs fuel b w) as Hruns. rewrite Hcount in Hruns.
  unfold Modern.Init in *.
  destruct (Modern.Init_loop _ _ _ _) as [[b' w'] |];
    [| destruct Hruns as [Hruns _]; discriminate Hruns; reflexivity].
  pose proof (missing_capabilities_spec b') as Hmiss.
  destruct (Modern.missing_capabilities b').
  - exists ZX_ERR_BAD_STATE, b', w'. split; [reflexivity |]. split.
    + split; [intros _; by apply Hmiss | reflexivity].
    + split; [discriminate | intros Hall; exfalso].
      destruct Hmiss as [Hmiss _]. specialize (Hmiss eq_refl). tauto.
  - exists ZX_OK, b', w'. split; [reflexivity |]. split.
    + split; [discriminate | intros Hany].
      destruct Hmiss as [_ Hmiss]. discriminate (Hmiss Hany).
    + split; [intros _ | reflexivity].
      repeat split; intros Hz; destruct Hmiss as [_ Hmiss];
        discriminate Hmiss; tauto.
Qed.

Lemma C2_Init_needs_all_four_capabilities_witness :
  exists status b' w',
    Modern.Init 4 (Modern.fresh (Sim.pci Sim.modern_cfg)) (Sim.start (Sim.filled 0))
    = Some (status, b', w')
    /\ (status = ZX_ERR_BAD_STATE
        <-> (Modern.common_cfg_ b' = 0 \/ Modern.isr_status_ b' = 0
             \/ Modern.device_cfg_ b' = 0 \/ Modern.notify_base_ b' = 0))
    /\ (status = ZX_OK
        <-> (Modern.common_cfg_ b' <> 0 /\ Modern.isr_status_ b' <> 0
             /\ Modern.device_cfg_ b' <> 0 /\ Modern.notify_base_ b' <> 0)).
Proof.
  apply (C2_Init_needs_all_four_capabilities _ 4 _ _ 4).
  vm_compute. reflexivity.
Defined.

(* ------------------------------------------------------------------ *)
(** ** Register access: the 64-bit primitives *)

Lemma store_elsewhere (n : nat) : forall addr val m a,
  a < addr \/ addr + Z.of_nat n <= a -> Sim.store n addr val m a = m a.
Proof.
  induction n as [| n IH]; intros addr val m a Ha; cbn [Sim.store]; [reflexivity |].
  rewrite IH by lia.
  destruct (Z.eqb_spec a addr); [lia | reflexivity].
Qed.

Lemma load_store_same (n : nat) : forall addr val m,
  Sim.load n addr (Sim.store n addr val m) = val mod 2 ^ (8 * Z.of_nat n).
Proof.
  induction n as [| n IH]; intros addr val m; cbn [Sim.load Sim.store].
  - change (2 ^ (8 * Z.of_nat 0)) with 1. by rewrite Z.mod_1_r.
  - rewrite IH, store_elsewhere by lia. rewrite Z.eqb_refl.
    unfold u8. rewrite wrap_idem. unfold wrap.
    replace (8 * Z.of_nat (S n)) with (8 + 8 * Z.of_nat n) by lia.
    rewrite Z.pow_add_r by lia.
    rewrite Z.rem_mul_r; [reflexivity | lia | apply Z.pow_pos_nonneg; lia].
Qed.

Lemma load_store_apart (n : nat) : forall a k b val m,
  a + Z.of_nat n <= b \/ b + Z.of_nat k <= a ->
  Sim.load n a (Sim.store k b val m) = Sim.load n a m.
Proof.
  induction n as [| n IH]; intros a k b val m Hapart; cbn [Sim.load]; [reflexivity |].
  rewrite IH by lia. by rewrite store_elsewhere by lia.
Qed.

Lemma halves_combine (v : Z) :
  0 <= v -> Z.lor (v mod 2 ^ 32) (Z.shiftl (v / 2 ^ 32) 32) = v.
Proof.
  intros Hv. apply Z.bits_inj'. intros n Hn.
  rewrite Z.lor_spec, Z.testbit_mod_pow2, Z.shiftl_spec by lia.
  rewrite <- Z.shiftr_div_pow2 by lia.
  destruct (Z.ltb_spec n 32) as [Hlow | Hhigh]; simpl.
  - rewrite (Z.testbit_neg_r _ (n - 32)) by lia. apply orb_false_r.
  - rewrite Z.shiftr_spec by lia. f_equal. lia.
Qed.

Lemma low_half (v : Z) : wrap 32 (Z.land v UINT32_MAX) = v mod 2 ^ 32.
Proof.
  change UINT32_MAX with (Z.ones 32). rewrite Z.land_ones by lia.
  apply wrap_idem.
Qed.

Lemma high_half (v : Z) : 0 <= v < 2 ^ 64 -> wrap 32 (Z.shiftr v 32) = v / 2 ^ 32.
Proof.
  intros Hv. rewrite Z.shiftr_div_pow2 by lia. apply wrap_small. split.
  - apply Z.div_pos; lia.
  - apply Z.div_lt_upper_bound; lia.
Qed.

Section AccessFacts.
Context {H : Type} (P : Platform H).

Lemma MmioWrite64_run (addr value : Z) (w : World H) :
  MmioWrite64 P addr value w
  = Some (tt, mkWorld
                (hw_write P Mmio 32 (addr + 4) (wrap 32 (Z.shiftr value 32))
                   (hw_write P Mmio 32 addr (wrap 32 (Z.land value UINT32_MAX)) (hw w)))
                (trace w ++ [EvWrite Mmio 32 addr (wrap 32 (Z.land value UINT32_MAX));
                             EvWrite Mmio 32 (addr + 4) (wrap 32 (Z.shiftr value 32))])).
Proof.
  unfold MmioWrite64, bind, write. simpl. by rewrite <- app_assoc.
Qed.

Lemma mmiowrite64_same (addr value : Z) (w : World H) :
  EarlierDevice.mmiowrite64 P addr value w = MmioWrite64 P addr value w.
Proof. reflexivity. Qed.
End AccessFacts.

(** C3.  The split 64-bit write is two 32-bit writes, the low 32 bits to the
    word at the lower address first and then the high 32 bits to the next
    word, in the backend and in the earlier Device alike; on registers that
    hold what was written, the split 64-bit read of the same location then
    yields the value, by two 32-bit reads in the same order. *)
Theorem C3_split_64bit_write_then_read (v : Z) :
  0 <= v < 2 ^ 64 ->
  (forall (H : Type) (P : Platform H) (addr : Z) (w : World H),
      exists w1,
        MmioWrite64 P addr v w = Some (tt, w1)
        /\ EarlierDevice.mmiowrite64 P addr v w = Some (tt, w1)
        /\ added w w1 [EvWrite Mmio 32 addr (v mod 2 ^ 32);
                       EvWrite Mmio 32 (addr + 4) (v / 2 ^ 32)])
  /\ (forall (addr : Z) (w : World Sim.state),
         exists w1 w2,
           MmioWrite64 Sim.platform addr v w = Some (tt, w1)
           /\ MmioRead64 Sim.platform addr w1 = Some (v, w2)
           /\ added w1 w2 [EvRead Mmio 32 addr (v mod 2 ^ 32);
                           EvRead Mmio 32 (addr + 4) (v / 2 ^ 32)]).
Proof.
  intros Hv. split.
  - intros H P addr w. eexists.
    change (EarlierDevice.mmiowrite64 P addr v w) with (MmioWrite64 P addr v w).
    rewrite MmioWrite64_run.
    split; [reflexivity |]. split; [reflexivity |].
    unfold added; cbn [trace]. by rewrite low_half, high_half.
  - intros addr w. eexists _, _. rewrite MmioWrite64_run.
    split; [reflexivity |].
    unfold MmioRead64, bind, read, ret.
    cbn [hw trace hw_read hw_write Sim.platform Sim.sim_read Sim.sim_write
         Sim.cells Sim.space_eqb].
    change (Sim.bytes_of 32) with 4%nat.
    rewrite load_store_apart by lia.
    rewrite !load_store_same.
    change (2 ^ (8 * Z.of_nat 4)) with (2 ^ 32).
    fold (wrap 32 (wrap 32 (Z.land v UINT32_MAX))).
    fold (wrap 32 (wrap 32 (Z.shiftr v 32))).
    rewrite !wrap_idem, low_half, high_half by exact Hv.
    rewrite halves_combine by lia.
    split; [reflexivity |].
    unfold added; cbn [trace]. by rewrite <- app_assoc.
Qed.

Lemma C3_split_64bit_write_then_read_witness :
  (exists w1 w2,
      MmioWrite64 Sim.platform 0x1000 0x0000000100000002 (Sim.start (Sim.filled 0xFF))
      = Some (tt, w1)
      /\ MmioRead64 Sim.platform 0x1000 w1 = Some (0x0000000100000002, w2)
      /\ added w1 w2 [EvRead Mmio 32 0x1000 (0x0000000100000002 mod 2 ^ 32);
                      EvRead Mmio 32 (0x1000 + 4) (0x0000000100000002 / 2 ^ 32)])
  /\ (exists w1 w2,
         MmioWrite64 Sim.platform 0x1000 0 (Sim.start (Sim.filled 0xFF)) = Some (tt, w1)
         /\ MmioRead64 Sim.platform 0x1000 w1 = Some (0, w2)
         /\ added w1 w2 [EvRead Mmio 32 0x1000 (0 mod 2 ^ 32);
                         EvRead Mmio 32 (0x1000 + 4) (0 / 2 ^ 32)])
  /\ (exists w1 w2,
         MmioWrite64 Sim.platform 0x1000 0xFFFFFFFFFFFFFFFF (Sim.start (Sim.filled 0))
         = Some (tt, w1)
         /\ MmioRead64 Sim.platform 0x1000 w1 = Some (0xFFFFFFFFFFFFFFFF, w2)
         /\ added w1 w2 [EvRead Mmio 32 0x1000 (0xFFFFFFFFFFFFFFFF mod 2 ^ 32);
                         EvRead Mmio 32 (0x1000 + 4) (0xFFFFFFFFFFFFFFFF / 2 ^ 32)]).
Proof.
  split; [| split].
  - apply (proj2 (C3_split_64bit_write_then_read 0x0000000100000002 ltac:(lia))).
  - apply (proj2 (C3_split_64bit_write_then_read 0 ltac:(lia))).
  - apply (proj2 (C3_split_64bit_write_then_read 0xFFFFFFFFFFFFFFFF ltac:(lia))).
Defined.

(* ------------------------------------------------------------------ *)
(** ** Ring setup and ring kick on the modern backend *)

Section ModernRingFacts.
Context {H : Type} (P : Platform H).

Lemma read_run (sp : space) (bits addr raw : Z) (h' : H) (w : World H) :
  hw_read P sp bits addr (hw w) = (raw, h') ->
  read P sp bits addr w
  = Some (wrap bits raw, mkWorld h' (trace w ++ [EvRead sp bits addr (wrap bits raw)])).
Proof. intros Hread. unfold read. by rewrite Hread. Qed.

Lemma read_returns (sp : space) (bits addr : Z) (w : World H) :
  exists v w', read P sp bits addr w = Some (v, w')
               /\ v = wrap bits (fst (hw_read P sp bits addr (hw w)))
               /\ added w w' [EvRead sp bits addr v].
Proof.
  unfold read. destruct (hw_read P sp bits addr (hw w)) as [raw h'].
  eexists _, _. split; [reflexivity |]. split; reflexivity.
Qed.

Lemma write_returns (sp : space) (bits addr val : Z) (w : World H) :
  exists w', write P sp bits addr val w = Some (tt, w')
             /\ added w w' [EvWrite sp bits addr (wrap bits val)].
Proof. eexists. split; reflexivity. Qed.
End ModernRingFacts.

(** C4, as stated, fails: the product queue_notify_off * notify_off_mul_ is
    formed in 32 bits.  With queue_notify_off = 2 and a multiplier of
    0x80000000 the product wraps to 0 and RingKick(7) writes at notify_base
    itself, not at notify_base + 2 * 0x80000000. *)
Lemma C4_notify_product_wraps_counterexample :
  exists w',
    Modern.RingKick Sim.platform 7 (Sim.modern_backend 0x80000000)
      (Sim.start (Sim.with_bytes Mmio [(0x5000001E, 2)] (Sim.filled 0)))
    = Some (tt, w')
    /\ trace w' = [EvRead Mmio 16 0x5000001E 2; EvWrite Mmio 16 0x50000300 7]
    /\ 0x50000300
       <> Modern.notify_base_ (Sim.modern_backend 0x80000000)
          + 2 * Modern.notify_off_mul_ (Sim.modern_backend 0x80000000).
Proof.
  eexists. split; [reflexivity |]. split; [reflexivity |].
  vm_compute. discriminate.
Qed.

(** C4, amended.  RingKick reads the 16-bit queue_notify_off register of the
    common-config block and writes the 16-bit ring index at
    notify_base + (queue_notify_off * notify_off_multiplier mod 2^32), the
    sum taken as a 64-bit address.  Whenever the product is below 2^32 and
    the sum below 2^64 that address is
    notify_base + queue_notify_off * notify_off_multiplier; so with a
    register value of 5 and a multiplier of 4, RingKick(2) writes 2 at
    notify_base + 20. *)
Theorem C4_RingKick_notify_address
  (H : Type) (P : Platform H) (b : Modern.PciModernBackend H)
  (ring_index : Z) (w : World H) (raw : Z) (h' : H) :
  hw_read P Mmio 16 (Modern.common_cfg_ b + offsetof_queue_notify_off) (hw w) = (raw, h') ->
  let queue_notify_off := wrap 16 raw in
  let address :=
    u64 (Modern.notify_base_ b + u32 (queue_notify_off * Modern.notify_off_mul_ b)) in
  (exists w',
      Modern.RingKick P ring_index b w = Some (tt, w')
      /\ added w w'
           [EvRead Mmio 16 (Modern.common_cfg_ b + offsetof_queue_notify_off)
                   queue_notify_off;
            EvWrite Mmio 16 address (u16 ring_index)])
  /\ (0 <= Modern.notify_base_ b ->
      0 <= Modern.notify_off_mul_ b ->
      queue_notify_off * Modern.notify_off_mul_ b < 2 ^ 32 ->
      Modern.notify_base_ b + queue_notify_off * Modern.notify_off_mul_ b < 2 ^ 64 ->
      address = Modern.notify_base_ b + queue_notify_off * Modern.notify_off_mul_ b).
Proof.
  intros Hread queue_notify_off address. split.
  - unfold Modern.RingKick, MmioRead, bind.
    rewrite (read_run P _ _ _ _ _ _ Hread).
    eexists. split; [reflexivity |].
    unfold added; cbn [trace]. by rewrite <- app_assoc.
  - intros Hbase Hmul Hprod Hsum. unfold address, u64, u32.
    assert (0 <= queue_notify_off) by (apply (wrap_range 16 raw); lia).
    rewrite (wrap_small 32) by nia.
    apply wrap_small. nia.
Qed.

Lemma C4_RingKick_notify_address_witness :
  (exists w',
      Modern.RingKick Sim.platform 2 (Sim.modern_backend 4)
        (Sim.start (Sim.with_bytes Mmio [(0x5000001E, 5)] (Sim.filled 0)))
      = Some (tt, w')
      /\ added (Sim.start (Sim.with_bytes Mmio [(0x5000001E, 5)] (Sim.filled 0))) w'
           [EvRead Mmio 16 0x5000001E 5;
            EvWrite Mmio 16 (Modern.notify_base_ (Sim.modern_backend 4) + 20) 2])
  /\ u64 (Modern.notify_base_ (Sim.modern_backend 4) + u32 (5 * 4))
     = Modern.notify_base_ (Sim.modern_backend 4) + 5 * 4.
Proof.
  pose proof (C4_RingKick_notify_address Sim.state Sim.platform (Sim.modern_backend 4) 2
                (Sim.start (Sim.with_bytes Mmio [(0x5000001E, 5)] (Sim.filled 0)))
                5 _ eq_refl) as [Hkick Haddress].
  split.
  - exact Hkick.
  - apply Haddress; by vm_compute.
Defined.

(** The modern path of the earlier Device's SetRing: queue-select,
    queue-size, the three ring addresses, queue-enable, and nothing else. *)
Lemma Earlier_SetRing_write_sequence
  (H : Type) (P : Platform H) (d : EarlierDevice.Device H)
  (index count pa_desc pa_avail pa_used : Z) (w : World H) :
  let cc := EarlierDevice.common_config (EarlierDevice.mmio_regs_ d) in
  cc <> 0 ->
  exists w',
    EarlierDevice.SetRing P index count pa_desc pa_avail pa_used d w = Some (tt, w')
    /\ added w w'
         [EvWrite Mmio 16 (cc + offsetof_queue_select) (u16 index);
          EvWrite Mmio 16 (cc + offsetof_queue_size) (u16 count);
          EvWrite Mmio 32 (cc + offsetof_queue_desc) (u32 (Z.land pa_desc UINT32_MAX));
          EvWrite Mmio 32 (cc + offsetof_queue_desc + 4) (u32 (Z.shiftr pa_desc 32));
          EvWrite Mmio 32 (cc + offsetof_queue_avail) (u32 (Z.land pa_avail UINT32_MAX));
          EvWrite Mmio 32 (cc + offsetof_queue_avail + 4) (u32 (Z.shiftr pa_avail 32));
          EvWrite Mmio 32 (cc + offsetof_queue_used) (u32 (Z.land pa_used UINT32_MAX));
          EvWrite Mmio 32 (cc + offsetof_queue_used + 4) (u32 (Z.shiftr pa_used 32));
          EvWrite Mmio 16 (cc + offsetof_queue_enable) 1].
Proof.
  intros cc Hcc. unfold EarlierDevice.SetRing. fold cc.
  destruct (Z.eqb_spec cc 0) as [Hz | _]; [contradiction |].
  eexists. split; [reflexivity |].
  unfold added; cbn [trace]. by rewrite <- !app_assoc.
Qed.

(** C5 against the code.  PciModernBackend::SetRing writes queue-select,
    queue-size, the descriptor, available and used addresses, and then the
    descriptor address a second time before it writes 1 to queue-enable:
    two 32-bit writes stand between the used address and queue-enable. *)
Theorem C5_Modern_SetRing_write_sequence
  (H : Type) (P : Platform H) (b : Modern.PciModernBackend H)
  (index count pa_desc pa_avail pa_used : Z) (w : World H) :
  let cc := Modern.common_cfg_ b in
  exists w',
    Modern.SetRing P index count pa_desc pa_avail pa_used b w = Some (tt, w')
    /\ added w w'
         [EvWrite Mmio 16 (cc + offsetof_queue_select) (u16 index);
          EvWrite Mmio 16 (cc + offsetof_queue_size) (u16 count);
          EvWrite Mmio 32 (cc + offsetof_queue_desc) (u32 (Z.land pa_desc UINT32_MAX));
          EvWrite Mmio 32 (cc + offsetof_queue_desc + 4) (u32 (Z.shiftr pa_desc 32));
          EvWrite Mmio 32 (cc + offsetof_queue_avail) (u32 (Z.land pa_avail UINT32_MAX));
          EvWrite Mmio 32 (cc + offsetof_queue_avail + 4) (u32 (Z.shiftr pa_avail 32));
          EvWrite Mmio 32 (cc + offsetof_queue_used) (u32 (Z.land pa_used UINT32_MAX));
          EvWrite Mmio 32 (cc + offsetof_queue_used + 4) (u32 (Z.shiftr pa_used 32));
          EvWrite Mmio 32 (cc + offsetof_queue_desc) (u32 (Z.land pa_desc UINT32_MAX));
          EvWrite Mmio 32 (cc + offsetof_queue_desc + 4) (u32 (Z.shiftr pa_desc 32));
          EvWrite Mmio 16 (cc + offsetof_queue_enable) 1].
Proof.
  intros cc. eexists. split; [reflexivity |].
  unfold added; cbn [trace]. by rewrite <- !app_assoc.
Qed.

(** The same call on both generations: SetRing(3, 256, 0x10000, 0x20000,
    0x30000) issues eleven writes on the modern backend and nine on the
    earlier Device. *)
Lemma SetRing_generations_differ :
  (exists w',
      Modern.SetRing Sim.platform 3 256 0x10000 0x20000 0x30000 (Sim.modern_backend 4)
        (Sim.start (Sim.filled 0)) = Some (tt, w')
      /\ trace w'
         = [EvWrite Mmio 16 0x50000016 3; EvWrite Mmio 16 0x50000018 256;
            EvWrite Mmio 32 0x50000020 0x10000; EvWrite Mmio 32 0x50000024 0;
            EvWrite Mmio 32 0x50000028 0x20000; EvWrite Mmio 32 0x5000002C 0;
            EvWrite Mmio 32 0x50000030 0x30000; EvWrite Mmio 32 0x50000034 0;
            EvWrite Mmio 32 0x50000020 0x10000; EvWrite Mmio 32 0x50000024 0;
            EvWrite Mmio 16 0x5000001C 1])
  /\ (exists w',
         EarlierDevice.SetRing Sim.platform 3 256 0x10000 0x20000 0x30000 Sim.mmio_device
           (Sim.start (Sim.filled 0)) = Some (tt, w')
         /\ trace w'
            = [EvWrite Mmio 16 0x50000016 3; EvWrite Mmio 16 0x50000018 256;
               EvWrite Mmio 32 0x50000020 0x10000; EvWrite Mmio 32 0x50000024 0;
               EvWrite Mmio 32 0x50000028 0x20000; EvWrite Mmio 32 0x5000002C 0;
               EvWrite Mmio 32 0x50000030 0x30000; EvWrite Mmio 32 0x50000034 0;
               EvWrite Mmio 16 0x5000001C 1]).
Proof.
  split; eexists; (split; [reflexivity | reflexivity]).
Qed.

(* ------------------------------------------------------------------ *)
(** ** Device status and interrupt status *)

Lemma lor_fits (bits a b : Z) :
  0 <= bits -> 0 <= a < 2 ^ bits -> 0 <= b < 2 ^ bits ->
  wrap bits (Z.lor a b) = Z.lor a b.
Proof.
  intros Hbits Ha Hb. unfold wrap. apply Z.bits_inj'. intros n Hn.
  rewrite Z.testbit_mod_pow2 by lia.
  destruct (Z.ltb_spec n bits) as [Hlow | Hhigh]; [reflexivity |].
  rewrite Z.lor_spec.
  rewrite <- (Z.mod_small a (2 ^ bits)), <- (Z.mod_small b (2 ^ bits)) by lia.
  by rewrite !Z.mod_pow2_bits_high by lia.
Qed.

Lemma masked_has_no_other_bit (v mask : Z) : Z.land (Z.land v mask) (Z.lnot mask) = 0.
Proof. by rewrite <- Z.land_assoc, Z.land_lnot_diag, Z.land_0_r. Qed.

Lemma masked_port (port : Z) :
  u16 (Z.land (u16 port) (Z.lor VIRTIO_ISR_QUEUE_INT VIRTIO_ISR_DEV_CFG_INT))
  = Z.land (u16 port) (Z.lor VIRTIO_ISR_QUEUE_INT VIRTIO_ISR_DEV_CFG_INT).
Proof.
  apply wrap_small.
  change (Z.lor VIRTIO_ISR_QUEUE_INT VIRTIO_ISR_DEV_CFG_INT) with (Z.ones 2).
  rewrite Z.land_ones by lia.
  pose proof (Z.mod_pos_bound (u16 port) (2 ^ 2)). lia.
Qed.

(** C6 against the code.  PciLegacyBackend::DriverStatusAck writes back the
    status it read with ACKNOWLEDGE and DRIVER set; PciModernBackend's writes
    it back with ACKNOWLEDGE alone.  After a reset, on registers that hold
    what was written, the status reads 3 on the legacy backend and on both
    paths of the earlier Device's StatusAcknowledgeDriver, and 1 on the
    modern backend: there the DRIVER bit is clear. *)
Theorem C6_DriverStatusAck_bits :
  (forall (H : Type) (P : Platform H) (b : Legacy.PciLegacyBackend) (w : World H),
      exists v w',
        Legacy.DriverStatusAck P b w = Some (tt, w')
        /\ added w w'
             [EvRead Pio 8 (u16 (Legacy.bar0_base_ b + VIRTIO_PCI_DEVICE_STATUS)) v;
              EvWrite Pio 8 (u16 (Legacy.bar0_base_ b + VIRTIO_PCI_DEVICE_STATUS))
                      (Z.lor (Z.lor v VIRTIO_STATUS_ACKNOWLEDGE) VIRTIO_STATUS_DRIVER)])
  /\ (forall (H : Type) (P : Platform H) (b : Modern.PciModernBackend H) (w : World H),
         exists v w',
           Modern.DriverStatusAck P b w = Some (tt, w')
           /\ added w w'
                [EvRead Mmio 8 (Modern.common_cfg_ b + offsetof_device_status) v;
                 EvWrite Mmio 8 (Modern.common_cfg_ b + offsetof_device_status)
                         (Z.lor v VIRTIO_STATUS_ACKNOWLEDGE)])
  /\ (exists w',
         (Legacy.DeviceReset Sim.platform Sim.legacy_backend ;;;
          Legacy.DriverStatusAck Sim.platform Sim.legacy_backend ;;;
          inp Sim.platform 0xC012) (Sim.start (Sim.filled 0xFF))
         = Some (Z.lor VIRTIO_STATUS_ACKNOWLEDGE VIRTIO_STATUS_DRIVER, w'))
  /\ (exists w',
         (EarlierDevice.Reset Sim.platform 4 Sim.pio_device ;;;
          EarlierDevice.StatusAcknowledgeDriver Sim.platform Sim.pio_device ;;;
          inp Sim.platform 0xC012) (Sim.start (Sim.filled 0xFF))
         = Some (Z.lor VIRTIO_STATUS_ACKNOWLEDGE VIRTIO_STATUS_DRIVER, w'))
  /\ (exists w',
         (EarlierDevice.Reset Sim.platform 4 Sim.mmio_device ;;;
          EarlierDevice.StatusAcknowledgeDriver Sim.platform Sim.mmio_device ;;;
          MmioRead Sim.platform 8 0x50000014) (Sim.start (Sim.filled 0xFF))
         = Some (Z.lor VIRTIO_STATUS_ACKNOWLEDGE VIRTIO_STATUS_DRIVER, w'))
  /\ (exists w',
         (Modern.DeviceReset Sim.platform (Sim.modern_backend 4) ;;;
          Modern.DriverStatusAck Sim.platform (Sim.modern_backend 4) ;;;
          MmioRead Sim.platform 8 0x50000014) (Sim.start (Sim.filled 0xFF))
         = Some (VIRTIO_STATUS_ACKNOWLEDGE, w')
         /\ Z.land VIRTIO_STATUS_ACKNOWLEDGE VIRTIO_STATUS_DRIVER = 0).
Proof.
  split; [| split; [| split; [| split; [| split]]]].
  - intros H P b w. unfold Legacy.DriverStatusAck, inp, outp, bind.
    rewrite !u16_idem.
    destruct (read_returns P Pio 8 (u16 (Legacy.bar0_base_ b + VIRTIO_PCI_DEVICE_STATUS)) w)
      as (v & w1 & -> & Hv & Hadd).
    eexists v, _. split; [reflexivity |].
    unfold added in *; cbn [trace]. rewrite Hadd, <- app_assoc.
    assert (Hbyte : 0 <= v < 2 ^ 8) by (subst v; apply wrap_range; lia).
    assert (Hack : 0 <= Z.lor v VIRTIO_STATUS_ACKNOWLEDGE < 2 ^ 8).
    { rewrite <- (lor_fits 8 v VIRTIO_STATUS_ACKNOWLEDGE) by (by vm_compute || lia).
      apply wrap_range; lia. }
    by rewrite lor_fits by (by vm_compute || lia).
  - intros H P b w. unfold Modern.DriverStatusAck, MmioRead, MmioWrite, bind.
    destruct (read_returns P Mmio 8 (Modern.common_cfg_ b + offsetof_device_status) w)
      as (v & w1 & -> & Hv & Hadd).
    eexists v, _. split; [reflexivity |].
    unfold added in *; cbn [trace]. rewrite Hadd, <- app_assoc.
    assert (Hbyte : 0 <= v < 2 ^ 8) by (subst v; apply wrap_range; lia).
    by rewrite lor_fits by (by vm_compute || lia).
  - eexists. reflexivity.
  - eexists. reflexivity.
  - eexists. reflexivity.
  - eexists. split; reflexivity.
Qed.

(** C10 against the code.  PciModernBackend::IsrStatus masks the register
    value: what it returns has no bit outside QUEUE_INT | DEV_CFG_INT.
    PciLegacyBackend::IsrStatus applies the mask to the port number instead
    and returns the byte it reads there as it is: with the I/O base at 0xC000
    it reads port 3, not the ISR register at 0xC013, and returns the 0xFF
    found there. *)
Theorem C10_IsrStatus_mask :
  (forall (H : Type) (P : Platform H) (b : Modern.PciModernBackend H) (w : World H),
      exists v w',
        Modern.IsrStatus P b w = Some (v, w')
        /\ Z.land v (Z.lnot (Z.lor VIRTIO_ISR_QUEUE_INT VIRTIO_ISR_DEV_CFG_INT)) = 0)
  /\ (forall (H : Type) (P : Platform H) (b : Legacy.PciLegacyBackend) (w : World H),
         exists v w',
           Legacy.IsrStatus P b w = Some (v, w')
           /\ added w w'
                [EvRead Pio 8
                   (Z.land (u16 (Legacy.bar0_base_ b + VIRTIO_PCI_ISR_STATUS))
                           (Z.lor VIRTIO_ISR_QUEUE_INT VIRTIO_ISR_DEV_CFG_INT)) v])
  /\ (exists w',
         Legacy.IsrStatus Sim.platform Sim.legacy_backend
           (Sim.start (Sim.with_bytes Pio [(0xC013, 1)] (Sim.filled 0xFF)))
         = Some (0xFF, w')
         /\ trace w' = [EvRead Pio 8 3 0xFF]
         /\ Z.land 0xFF (Z.lnot (Z.lor VIRTIO_ISR_QUEUE_INT VIRTIO_ISR_DEV_CFG_INT)) = 0xFC).
Proof.
  split; [| split].
  - intros H P b w. unfold Modern.IsrStatus, bind.
    destruct (read_returns P Mmio 32 (Modern.isr_status_ b) w) as (v & w1 & -> & _ & _).
    eexists _, _. split; [reflexivity |]. apply masked_has_no_other_bit.
  - intros H P b w. unfold Legacy.IsrStatus, inp.
    rewrite masked_port.
    destruct (read_returns P Pio 8
                (Z.land (u16 (Legacy.bar0_base_ b + VIRTIO_PCI_ISR_STATUS))
                        (Z.lor VIRTIO_ISR_QUEUE_INT VIRTIO_ISR_DEV_CFG_INT)) w)
      as (v & w1 & Hrun & _ & Hadd).
    by exists v, w1.
  - eexists. split; [reflexivity |]. split; reflexivity.
Qed.

(* ------------------------------------------------------------------ *)
(** ** FEATURES_OK and the end of bring-up *)

Section StatusFacts.
Context {H : Type} (P : Platform H).




End StatusFacts.



(* ------------------------------------------------------------------ *)
(** ** Interrupt service *)

(** C8, as stated, fails: a wake whose status has both bits set invokes no
    callback when zx_interrupt_complete fails, because the loop continues
    before it looks at the status. *)
Lemma C8_failed_completion_counterexample :
  exists w',
    Device.IrqWorker_iteration (PciModern_Backend Sim.platform) ZX_OK ZX_ERR_BAD_HANDLE
      (Sim.modern_backend 4)
      (Sim.start (Sim.with_bytes Mmio [(0x50000100, 3)] (Sim.filled 0)))
    = Some (tt, w')
    /\ trace w' = [EvInterruptWait; EvRead Mmio 32 0x50000100 3; EvInterruptComplete]
    /\ count_event is_ring_update (trace w') = 0%nat
    /\ count_event is_config_change (trace w') = 0%nat.
Proof.
  eexists. split; [reflexivity |]. repeat split.
Qed.

(** C8, amended.  In one pass of IrqWorker after a successful wait, every
    access that IsrStatus makes comes before the interrupt is completed.  If
    the completion succeeds and the status has the queue-interrupt and the
    config-change bit set, IrqRingUpdate and then IrqConfigChange are invoked,
    once each; if the status is zero, or if the completion fails, neither is
    invoked. *)
Theorem C8_IrqWorker_iteration_callbacks
  (H B : Type) (ops : Backend H B) (backend_ : B) (wait_rc complete_rc : Z)
  (w w1 : World H) (irq_status : Z) :
  wait_rc = ZX_OK ->
  Device.IsrStatus ops backend_ (mkWorld (hw w) (trace w ++ [EvInterruptWait]))
  = Some (irq_status, w1) ->
  exists w' callbacks,
    Device.IrqWorker_iteration ops wait_rc complete_rc backend_ w = Some (tt, w')
    /\ hw w' = hw w1
    /\ trace w' = trace w1 ++ EvInterruptComplete :: callbacks
    /\ (complete_rc = ZX_OK ->
        Z.land irq_status VIRTIO_ISR_QUEUE_INT <> 0 ->
        Z.land irq_status VIRTIO_ISR_DEV_CFG_INT <> 0 ->
        callbacks = [EvIrqRingUpdate; EvIrqConfigChange])
    /\ (irq_status = 0 -> callbacks = [])
    /\ (complete_rc <> ZX_OK -> callbacks = []).
Proof.
  intros -> Hisr.
  unfold Device.IrqWorker_iteration, bind, emit. cbn [negb Z.eqb ZX_OK].
  rewrite Hisr. cbn [hw trace].
  destruct (Z.eqb_spec complete_rc ZX_OK) as [Hok | Hbad]; cbn [negb].
  - destruct (Z.eqb_spec irq_status 0) as [Hzero | Hnonzero].
    + exists (mkWorld (hw w1) (trace w1 ++ [EvInterruptComplete])), [].
      split; [reflexivity |]. split; [reflexivity |]. split; [reflexivity |].
      split; [| split; reflexivity].
      intros _ Hq. subst irq_status. by vm_compute in Hq.
    + destruct (Z.eqb_spec (Z.land irq_status VIRTIO_ISR_QUEUE_INT) 0) as [Hq | Hq];
        destruct (Z.eqb_spec (Z.land irq_status VIRTIO_ISR_DEV_CFG_INT) 0) as [Hc | Hc];
        cbn [negb ret hw trace];
        eexists _, _; (split; [reflexivity |]); cbn [hw trace];
        (split; [reflexivity |]);
        rewrite <- ?app_assoc; (split; [reflexivity |]);
        (split; [intros _ Hq' Hc'; first [contradiction | reflexivity] |]);
        (split; [intros Hz; contradiction | intros Hne; contradiction]).
  - exists (mkWorld (hw w1) (trace w1 ++ [EvInterruptComplete])), [].
    split; [reflexivity |]. split; [reflexivity |]. split; [reflexivity |].
    split; [intros Hok; contradiction | split; reflexivity].
Qed.

Lemma C8_IrqWorker_iteration_callbacks_witness :
  exists (w' : World Sim.state) (callbacks : list event),
    Device.IrqWorker_iteration (PciModern_Backend Sim.platform) ZX_OK ZX_OK
      (Sim.modern_backend 4)
      (Sim.start (Sim.with_bytes Mmio [(0x50000100, 3)] (Sim.filled 0)))
    = Some (tt, w')
    /\ trace w'
       = [EvInterruptWait; EvRead Mmio 32 0x50000100 3]
         ++ EvInterruptComplete :: callbacks
    /\ callbacks = [EvIrqRingUpdate; EvIrqConfigChange].
Proof.
  destruct (C8_IrqWorker_iteration_callbacks Sim.state _
              (PciModern_Backend Sim.platform) (Sim.modern_backend 4) ZX_OK ZX_OK
              (Sim.start (Sim.with_bytes Mmio [(0x50000100, 3)] (Sim.filled 0)))
              (mkWorld (Sim.with_bytes Mmio [(0x50000100, 3)] (Sim.filled 0))
                       [EvInterruptWait; EvRead Mmio 32 0x50000100 3])
              3 eq_refl eq_refl)
    as (w' & callbacks & Hrun & _ & Htrace & Hboth & _).
  exists w', callbacks.
  split; [exact Hrun |]. split; [exact Htrace |].
  apply Hboth; by vm_compute.
Defined.

(** Two wakes in a row on a status register that clears when read: the
    first, with both bits pending, runs both callbacks once; the second finds
    the status zero and runs neither. *)
Example interrupt_scenario :
  exists w',
    Device.IrqWorker (PciModern_Backend (Sim.clear_on_read_platform Mmio 0x50000100))
      [(ZX_OK, ZX_OK); (ZX_OK, ZX_OK)] (Sim.modern_backend 4)
      (Sim.start (Sim.with_bytes Mmio [(0x50000100, 3)] (Sim.filled 0)))
    = Some (tt, w')
    /\ trace w'
       = [EvInterruptWait; EvRead Mmio 32 0x50000100 3; EvInterruptComplete;
          EvIrqRingUpdate; EvIrqConfigChange;
          EvInterruptWait; EvRead Mmio 32 0x50000100 0; EvInterruptComplete].
Proof.
  eexists. split; reflexivity.
Qed.

(* ------------------------------------------------------------------ *)
(** ** Mapping a BAR *)

(** C9.  For a BAR index in 0..5 and a bus whose mapping primitive hands out
    a valid handle whenever it returns ZX_OK: after MapBar has returned ZX_OK,
    a second MapBar with the same index returns ZX_OK and leaves the backend,
    with the stored base address, and the machine, with the record of calls to
    pci_map_resource, as they were. *)
Theorem C9_MapBar_idempotent
  (H : Type) (b b1 : Modern.PciModernBackend H) (i : Z) (w w1 : World H) :
  0 <= i <= 5 ->
  length (Modern.bar_ b) = 6%nat ->
  (forall res_id cache_policy h,
      mr_status (fst (ops_map_resource (Modern.pci_ b) res_id cache_policy h)) = ZX_OK ->
      mr_handle (fst (ops_map_resource (Modern.pci_ b) res_id cache_policy h))
      <> ZX_HANDLE_INVALID) ->
  Modern.MapBar i b w = Some (ZX_OK, b1, w1) ->
  Modern.MapBar i b1 w1 = Some (ZX_OK, b1, w1).
Proof.
  intros Hi Hlen Hvalid. unfold Modern.MapBar at 1.
  destruct (Z.leb_spec Modern.countof_bar_ i) as [Hout | _];
    [unfold Modern.countof_bar_ in Hout; lia |].
  destruct (Z.eqb_spec (mmio_handle (Modern.bar_at b i)) ZX_HANDLE_INVALID)
    as [Hunmapped | Hmapped]; cbn [negb].
  - unfold bind, pci_map_resource.
    pose proof (Hvalid (u32 (PCI_RESOURCE_BAR_0 + i))
                  (u32 ZX_CACHE_POLICY_UNCACHED_DEVICE) (hw w)) as Hhandle.
    destruct (ops_map_resource _ _ _ _) as [r h]. cbn [fst] in Hhandle.
    destruct (Z.eqb_spec (mr_status r) ZX_OK) as [Hok | Hfail]; cbn [negb ret].
    + intros [= <- <-]. unfold Modern.MapBar.
      destruct (Z.leb_spec Modern.countof_bar_ i) as [Hout | _];
        [unfold Modern.countof_bar_ in Hout; lia |].
      unfold Modern.bar_at, Modern.set_bar; cbn [Modern.bar_].
      rewrite list_lookup_total_insert_eq by lia. cbn [mmio_handle].
      destruct (Z.eqb_spec (mr_handle r) ZX_HANDLE_INVALID) as [Hz | _];
        [by apply Hhandle in Hz |].
      reflexivity.
    + intros [= Hst _ _]. contradiction.
  - intros [= <- <-]. unfold Modern.MapBar.
    destruct (Z.leb_spec Modern.countof_bar_ i) as [Hout | _];
      [unfold Modern.countof_bar_ in Hout; lia |].
    destruct (Z.eqb_spec (mmio_handle (Modern.bar_at b i)) ZX_HANDLE_INVALID)
      as [Hz | _]; [contradiction | reflexivity].
Qed.

Lemma C9_MapBar_idempotent_witness :
  exists b1 w1,
    Modern.MapBar 4 (Modern.fresh (Sim.pci Sim.modern_cfg)) (Sim.start (Sim.filled 0))
    = Some (ZX_OK, b1, w1)
    /\ trace w1 = [EvMapResource 4]
    /\ mmio_base (Modern.bar_at b1 4) = 0x50000000
    /\ Modern.MapBar 4 b1 w1 = Some (ZX_OK, b1, w1).
Proof.
  eexists _, _. split; [reflexivity |]. split; [reflexivity |]. split; [reflexivity |].
  apply (C9_MapBar_idempotent Sim.state (Modern.fresh (Sim.pci Sim.modern_cfg)) _ 4
           (Sim.start (Sim.filled 0))).
  - lia.
  - reflexivity.
  - intros res_id cache_policy h _. cbn. unfold ZX_HANDLE_INVALID. lia.
  - reflexivity.
Defined.

(* ================================================================== *)
(** * Further properties of the code *)

(* ------------------------------------------------------------------ *)
(** ** What Init does to the backend and to the machine *)

Section InitInvariants.
Context {H : Type}.
Implicit Types (b : Modern.PciModernBackend H) (w : World H).

(** The three ways MapBar can go. *)
Lemma MapBar_cases i b w :
  0 <= i ->
  (6 <= i /\ Modern.MapBar i b w = Some (ZX_ERR_INVALID_ARGS, b, w))
  \/ (i < 6 /\ mmio_handle (Modern.bar_at b i) <> ZX_HANDLE_INVALID
      /\ Modern.MapBar i b w = Some (ZX_OK, b, w))
  \/ (i < 6 /\ mmio_handle (Modern.bar_at b i) = ZX_HANDLE_INVALID
      /\ exists r h,
          ops_map_resource (Modern.pci_ b) i (u32 ZX_CACHE_POLICY_UNCACHED_DEVICE) (hw w)
          = (r, h)
          /\ ((mr_status r <> ZX_OK
               /\ Modern.MapBar i b w
                  = Some (mr_status r, b, mkWorld h (trace w ++ [EvMapResource i])))
              \/ (mr_status r = ZX_OK
                  /\ Modern.MapBar i b w
                     = Some (ZX_OK,
                             Modern.set_bar i (mkBar (mr_vaddr r) (mr_handle r)) b,
                             mkWorld h (trace w ++ [EvMapResource i]))))).
Proof.
  intros Hi. unfold Modern.MapBar.
  destruct (Z.leb_spec Modern.countof_bar_ i) as [Hout | Hin];
    unfold Modern.countof_bar_ in *; [left; by split |].
  right.
  destruct (Z.eqb_spec (mmio_handle (Modern.bar_at b i)) ZX_HANDLE_INVALID)
    as [Hunmapped | Hmapped]; cbn [negb]; [right | left; by repeat split].
  split; [exact Hin |]. split; [exact Hunmapped |].
  unfold bind, pci_map_resource.
  replace (u32 (PCI_RESOURCE_BAR_0 + i)) with i
    by (symmetry; apply wrap_small; unfold PCI_RESOURCE_BAR_0; lia).
  destruct (ops_map_resource _ _ _ _) as [r h]. exists r, h. split; [reflexivity |].
  destruct (Z.eqb_spec (mr_status r) ZX_OK) as [Hok | Hfail]; cbn [negb ret];
    [right | left]; by split.
Qed.

(** What one pass of Init's loop does: nothing, or one MapBar, on a backend
    that differs from the one before at most in notify_off_mul_, followed,
    only if MapBar returned ZX_OK, by the store of one address. *)
Lemma Init_body_cases off b w :
  exists b' w',
    Modern.Init_body off b w = Some (b', w')
    /\ ((b' = b /\ w' = w)
        \/ exists b0 s b1,
            Modern.bar_ b0 = Modern.bar_ b
            /\ Modern.pci_ b0 = Modern.pci_ b
            /\ addresses b0 = addresses b
            /\ Modern.MapBar (cap_bar (ReadVirtioCap (Modern.pci_ b) off)) b0 w
               = Some (s, b1, w')
            /\ Modern.bar_ b' = Modern.bar_ b1
            /\ Modern.pci_ b' = Modern.pci_ b1
            /\ (s <> ZX_OK -> addresses b' = addresses b1)).
Proof.
  unfold Modern.Init_body, Modern.CommonCfgCallback, Modern.NotifyCfgCallback,
    Modern.IsrCfgCallback, Modern.DeviceCfgCallback, Modern.PciCfgCallback.
  set (cap := ReadVirtioCap (Modern.pci_ b) off).
  destruct (cfg_type cap =? VIRTIO_PCI_CAP_COMMON_CFG);
    [| destruct (cfg_type cap =? VIRTIO_PCI_CAP_NOTIFY_CFG);
       [| destruct (cfg_type cap =? VIRTIO_PCI_CAP_ISR_CFG);
          [| destruct (cfg_type cap =? VIRTIO_PCI_CAP_DEVICE_CFG);
             [| destruct (cfg_type cap =? VIRTIO_PCI_CAP_PCI_CFG);
                eexists _, _; (split; [reflexivity | by left]) ]]]];
    unfold bind;
    match goal with
    | |- context [Modern.MapBar ?i ?b0 ?w0] =>
        destruct (MapBar_returns i b0 w0) as (s & b1 & w1 & Hmap & _);
        rewrite Hmap; cbn [fst snd];
        destruct (Z.eqb_spec s ZX_OK) as [Hok | Hfail]; cbn [negb ret];
        eexists _, _; (split; [reflexivity |]); right; exists b0, s, b1;
        (repeat split; try reflexivity; try exact Hmap; try (intros; contradiction))
    end.
Qed.

Lemma MapBar_keeps_mapped i b w s b' w' (k : nat) :
  0 <= i ->
  Modern.MapBar i b w = Some (s, b', w') ->
  mmio_handle (Modern.bar_ b !!! k) <> ZX_HANDLE_INVALID ->
  Modern.bar_ b' !!! k = Modern.bar_ b !!! k.
Proof.
  intros Hi Hmap Hk.
  destruct (MapBar_cases i b w Hi)
    as [[_ Hrun] | [(_ & _ & Hrun) | (_ & Hun & r & h & _ & [[_ Hrun] | [_ Hrun]])]];
    rewrite Hrun in Hmap; injection Hmap as <- <- <-; try reflexivity.
  unfold Modern.set_bar; cbn [Modern.bar_].
  apply list_lookup_total_insert_ne. intros <-. by apply Hk.
Qed.

Lemma MapBar_keeps_length i b w s b' w' :
  Modern.MapBar i b w = Some (s, b', w') ->
  length (Modern.bar_ b') = length (Modern.bar_ b).
Proof.
  unfold Modern.MapBar.
  destruct (_ <=? _); [by intros [= <- <- <-] |].
  destruct (negb _); [by intros [= <- <- <-] |].
  unfold bind, pci_map_resource. destruct (ops_map_resource _ _ _ _) as [r h].
  destruct (negb _); cbn [ret]; intros [= <- <- <-]; [reflexivity |].
  unfold Modern.set_bar; cbn [Modern.bar_]. apply length_insert.
Qed.

Lemma cap_bar_nonneg (pci : pci_protocol_t H) off : 0 <= cap_bar (ReadVirtioCap pci off).
Proof. cbn [ReadVirtioCap cap_bar]. unfold pci_config_read8. apply u8_range. Qed.

Lemma Init_loop_keeps_mapped fuel (k : nat) : forall off b w b' w',
  Modern.Init_loop fuel off b w = Some (b', w') ->
  mmio_handle (Modern.bar_ b !!! k) <> ZX_HANDLE_INVALID ->
  Modern.bar_ b' !!! k = Modern.bar_ b !!! k
  /\ length (Modern.bar_ b') = length (Modern.bar_ b).
Proof.
  induction fuel as [| fuel IH]; intros off b w b' w'; cbn [Modern.Init_loop].
  - destruct (off =? 0); [by intros [= <- <-] | discriminate].
  - destruct (off =? 0); [by intros [= <- <-] |].
    destruct (Init_body_cases off b w)
      as (b1 & w1 & -> & [[-> ->] | (b0 & s & b2 & Hbar0 & Hpci0 & _ & Hmap & Hbar1 & _)]).
    + apply IH.
    + intros Hloop Hk.
      assert (Hstep : Modern.bar_ b1 !!! k = Modern.bar_ b !!! k).
      { rewrite Hbar1, <- Hbar0.
        eapply MapBar_keeps_mapped; [apply cap_bar_nonneg | exact Hmap |].
        by rewrite Hbar0. }
      assert (Hlen : length (Modern.bar_ b1) = length (Modern.bar_ b)).
      { rewrite Hbar1, <- Hbar0. eapply MapBar_keeps_length. exact Hmap. }
      destruct (IH _ _ _ _ _ Hloop) as [Hk' Hlen']; [by rewrite Hstep |].
      split; [by rewrite Hk' | by rewrite Hlen'].
Qed.
End InitInvariants.

(** X1.  Init never reassigns a BAR that is mapped: a slot of bar_ that
    holds a valid handle when Init starts holds the same base and handle when
    Init returns, and bar_ keeps its number of slots. *)
Theorem Init_keeps_mapped_bars
  (H : Type) (fuel : nat) (b b' : Modern.PciModernBackend H) (w w' : World H)
  (status : Z) (k : nat) :
  Modern.Init fuel b w = Some (status, b', w') ->
  mmio_handle (Modern.bar_ b !!! k) <> ZX_HANDLE_INVALID ->
  Modern.bar_ b' !!! k = Modern.bar_ b !!! k
  /\ length (Modern.bar_ b') = length (Modern.bar_ b).
Proof.
  unfold Modern.Init. intros Hinit Hk.
  destruct (Modern.Init_loop _ _ _ _) as [[b1 w1] |] eqn:Hloop; [| discriminate].
  assert (b1 = b') as ->
    by (destruct (Modern.missing_capabilities b1); by injection Hinit as _ <- _).
  by apply (Init_loop_keeps_mapped fuel k _ _ _ _ _ Hloop).
Qed.

Lemma Init_keeps_mapped_bars_witness :
  match Modern.Init 4 (Sim.modern_backend 4) (Sim.start (Sim.filled 0)) with
  | Some (_, b', _) =>
      Modern.bar_ b' !!! 4%nat = mkBar 0x50000000 0x100
      /\ length (Modern.bar_ b') = 6%nat
  | None => False
  end.
Proof.
  destruct (Modern.Init 4 (Sim.modern_backend 4) (Sim.start (Sim.filled 0)))
    as [[[status b'] w'] |] eqn:Hinit;
    [| apply Init_runs in Hinit; vm_compute in Hinit; discriminate].
  apply (Init_keeps_mapped_bars Sim.state 4 (Sim.modern_backend 4) b'
           (Sim.start (Sim.filled 0)) w' status 4%nat Hinit).
  by vm_compute.
Defined.

Section InitEffects.
Context {H : Type}.
Implicit Types (b : Modern.PciModernBackend H) (w : World H).

Lemma missing_capabilities_addresses b b' :
  addresses b' = addresses b ->
  Modern.missing_capabilities b' = Modern.missing_capabilities b.
Proof.
  unfold addresses, Modern.missing_capabilities. by intros [= -> -> -> ->].
Qed.

Lemma map_calls_app (evs evs' : list event) :
  map_calls (evs ++ evs') = map_calls evs ++ map_calls evs'.
Proof. apply omap_app. Qed.

(** The mapping calls of one MapBar: none, or one, for a BAR inside bar_[6]
    whose slot holds no valid handle. *)
Lemma MapBar_calls i b w s b' w' :
  0 <= i ->
  Modern.MapBar i b w = Some (s, b', w') ->
  exists evs, trace w' = trace w ++ evs
              /\ (length (map_calls evs) <= 1)%nat
              /\ forall id, id ∈ map_calls evs ->
                   0 <= id <= 5
                   /\ mmio_handle (Modern.bar_ b !!! Z.to_nat id) = ZX_HANDLE_INVALID.
Proof.
  intros Hi Hmap.
  destruct (MapBar_cases i b w Hi)
    as [[_ Hrun] | [(_ & _ & Hrun) | (Hlt & Hun & r & h & _ & [[_ Hrun] | [_ Hrun]])]];
    rewrite Hrun in Hmap; injection Hmap as <- <- <-;
    try (exists []; rewrite app_nil_r; split; [reflexivity |]; split; [cbn; lia |];
         intros id Hin; by apply elem_of_nil in Hin);
    (exists [EvMapResource i]; split; [reflexivity |]; split; [cbn; lia |];
     intros id Hin; apply list_elem_of_singleton in Hin as ->;
     split; [lia | exact Hun]).
Qed.

Lemma Init_loop_calls fuel : forall off b w b' w',
  Modern.Init_loop fuel off b w = Some (b', w') ->
  exists evs n,
    capability_count (Modern.pci_ b) fuel off = Some n
    /\ trace w' = trace w ++ evs
    /\ (length (map_calls evs) <= n)%nat
    /\ forall id, id ∈ map_calls evs ->
         0 <= id <= 5
         /\ mmio_handle (Modern.bar_ b !!! Z.to_nat id) = ZX_HANDLE_INVALID.
Proof.
  induction fuel as [| fuel IH]; intros off b w b' w';
    cbn [Modern.Init_loop capability_count].
  - destruct (off =? 0); [| discriminate].
    intros [= <- <-]. exists [], 0%nat. rewrite app_nil_r.
    split; [reflexivity |]. split; [reflexivity |]. split; [cbn; lia |].
    intros id Hin. by apply elem_of_nil in Hin.
  - destruct (off =? 0).
    { intros [= <- <-]. exists [], 0%nat. rewrite app_nil_r.
      split; [reflexivity |]. split; [reflexivity |]. split; [cbn; lia |].
      intros id Hin. by apply elem_of_nil in Hin. }
    destruct (Init_body_returns off b w) as (b1 & w1 & Hbody & Hpci).
    destruct (Init_body_cases off b w) as (b1' & w1' & Hbody' & Hcases).
    rewrite Hbody in Hbody'. injection Hbody' as <- <-. rewrite Hbody.
    intros Hloop.
    destruct (IH _ _ _ _ _ Hloop) as (evs2 & n & Hcount & Htrace & Hlen & Hids).
    rewrite Hpci in Hcount. rewrite Hcount. cbn [option_map].
    assert (exists evs1,
               trace w1 = trace w ++ evs1
               /\ (length (map_calls evs1) <= 1)%nat
               /\ (forall id, id ∈ map_calls evs1 ->
                     0 <= id <= 5
                     /\ mmio_handle (Modern.bar_ b !!! Z.to_nat id) = ZX_HANDLE_INVALID)
               /\ forall k : nat,
                    mmio_handle (Modern.bar_ b !!! k) <> ZX_HANDLE_INVALID ->
                    Modern.bar_ b1 !!! k = Modern.bar_ b !!! k)
      as (evs1 & Htrace1 & Hlen1 & Hids1 & Hkept).
    { destruct Hcases as [[-> ->] | (b0 & s & b2 & Hbar0 & _ & _ & Hmap & Hbar1 & _)].
      - exists []. rewrite app_nil_r. split; [reflexivity |]. split; [cbn; lia |].
        split; [intros id Hin; by apply elem_of_nil in Hin | reflexivity].
      - destruct (MapBar_calls _ b0 w s b2 w1 (cap_bar_nonneg (Modern.pci_ b) off) Hmap)
          as (evs1 & Htrace1 & Hlen1 & Hids1).
        exists evs1. split; [exact Htrace1 |]. split; [exact Hlen1 |].
        split; [intros id Hin; rewrite <- Hbar0; by apply Hids1 |].
        intros k Hk. rewrite Hbar1, <- Hbar0.
        eapply MapBar_keeps_mapped; [| exact Hmap | by rewrite Hbar0].
        apply cap_bar_nonneg. }
    exists (evs1 ++ evs2), (S n). split; [reflexivity |].
    split; [by rewrite Htrace, Htrace1, app_assoc |].
    rewrite map_calls_app, length_app. split; [lia |].
    intros id Hin. apply elem_of_app in Hin as [Hin | Hin]; [by apply Hids1 |].
    destruct (Hids id Hin) as [Hrange Hun]. split; [exact Hrange |].
    destruct (Z.eq_dec (mmio_handle (Modern.bar_ b !!! Z.to_nat id)) ZX_HANDLE_INVALID)
      as [Hinvalid | Hvalid]; [exact Hinvalid |].
    exfalso. apply Hvalid. by rewrite <- (Hkept _ Hvalid).
Qed.

Lemma Init_loop_without_mappings fuel : forall off b w b' w',
  (forall k : nat, mmio_handle (Modern.bar_ b !!! k) = ZX_HANDLE_INVALID) ->
  (forall res_id cache_policy h,
      mr_status (fst (ops_map_resource (Modern.pci_ b) res_id cache_policy h)) <> ZX_OK) ->
  Modern.Init_loop fuel off b w = Some (b', w') ->
  addresses b' = addresses b /\ Modern.bar_ b' = Modern.bar_ b.
Proof.
  induction fuel as [| fuel IH]; intros off b w b' w' Hun Hfail;
    cbn [Modern.Init_loop].
  - destruct (off =? 0); [by intros [= <- <-] | discriminate].
  - destruct (off =? 0); [by intros [= <- <-] |].
    destruct (Init_body_returns off b w) as (b1 & w1 & Hbody & Hpci).
    destruct (Init_body_cases off b w) as (b1' & w1' & Hbody' & Hcases).
    rewrite Hbody in Hbody'. injection Hbody' as <- <-. rewrite Hbody.
    assert (addresses b1 = addresses b /\ Modern.bar_ b1 = Modern.bar_ b) as [Haddr Hbar].
    { destruct Hcases as [[-> _] | (b0 & s & b2 & Hbar0 & Hpci0 & Haddr0 & Hmap & Hbar1
                                    & _ & Hkeep)]; [by split |].
      destruct (MapBar_cases _ b0 w (cap_bar_nonneg (Modern.pci_ b) off))
        as [[_ Hrun] | [(_ & Hvalid & _) | (_ & _ & r & h & Hbus & [[Hr Hrun] | [Hr _]])]].
      - rewrite Hrun in Hmap. injection Hmap as <- <- <-.
        rewrite Hkeep by discriminate. by rewrite Hbar1.
      - exfalso. apply Hvalid. unfold Modern.bar_at. rewrite Hbar0. apply Hun.
      - rewrite Hrun in Hmap. injection Hmap as <- <- <-.
        rewrite Hkeep by exact Hr. by rewrite Hbar1.
      - exfalso. apply (Hfail (cap_bar (ReadVirtioCap (Modern.pci_ b) off))
                          (u32 ZX_CACHE_POLICY_UNCACHED_DEVICE) (hw w)).
        rewrite Hpci0 in Hbus. rewrite Hbus. exact Hr. }
    intros Hloop.
    destruct (IH _ _ _ _ _ (fun k => eq_trans (f_equal (fun l => mmio_handle (l !!! k)) Hbar)
                                      (Hun k))
                (fun id cp h => eq_ind_r (fun p => mr_status (fst (ops_map_resource p id cp h))
                                                   <> ZX_OK) (Hfail id cp h) Hpci)
                Hloop) as [Haddr' Hbar'].
    split; congruence.
Qed.
End InitEffects.

(** X2.  Init resolves an address only through a BAR that maps: on a
    backend with no BAR mapped and none of the four addresses resolved, over
    a bus whose mapping primitive fails every time, Init returns
    ZX_ERR_BAD_STATE once the capability list ends, with the four addresses
    and every slot of bar_ as they were. *)
Theorem Init_fails_when_no_bar_maps
  (H : Type) (fuel n : nat) (b : Modern.PciModernBackend H) (w : World H) :
  (forall k : nat, mmio_handle (Modern.bar_ b !!! k) = ZX_HANDLE_INVALID) ->
  addresses b = (0, 0, 0, 0) ->
  (forall res_id cache_policy h,
      mr_status (fst (ops_map_resource (Modern.pci_ b) res_id cache_policy h)) <> ZX_OK) ->
  capability_count (Modern.pci_ b) fuel
    (pci_get_first_capability (Modern.pci_ b) kPciCapIdVendor) = Some n ->
  exists b' w',
    Modern.Init fuel b w = Some (ZX_ERR_BAD_STATE, b', w')
    /\ addresses b' = (0, 0, 0, 0)
    /\ Modern.bar_ b' = Modern.bar_ b.
Proof.
  intros Hun Hnull Hfail Hcount.
  pose proof (Init_runs fuel b w) as Hruns. rewrite Hcount in Hruns.
  unfold Modern.Init in *.
  destruct (Modern.Init_loop _ _ _ _) as [[b' w'] |] eqn:Hloop;
    [| destruct Hruns as [Hruns _]; discriminate Hruns; reflexivity].
  destruct (Init_loop_without_mappings fuel _ b w b' w' Hun Hfail Hloop) as [Haddr Hbar].
  rewrite (missing_capabilities_addresses b b' Haddr).
  assert (Modern.missing_capabilities b = true) as ->.
  { unfold addresses in Hnull. injection Hnull as Hc _ _ _.
    unfold Modern.missing_capabilities. by rewrite Hc. }
  exists b', w'. split; [reflexivity |]. split; [congruence | exact Hbar].
Qed.

Lemma Init_fails_when_no_bar_maps_witness :
  exists b' w',
    Modern.Init 4 (Modern.fresh (Bench.failing_pci Sim.modern_cfg (-4)))
      (Sim.start (Sim.filled 0))
    = Some (ZX_ERR_BAD_STATE, b', w')
    /\ addresses b' = (0, 0, 0, 0)
    /\ Modern.bar_ b' = replicate 6 (mkBar 0 ZX_HANDLE_INVALID).
Proof.
  apply (Init_fails_when_no_bar_maps Sim.state 4 4
           (Modern.fresh (Bench.failing_pci Sim.modern_cfg (-4)))
           (Sim.start (Sim.filled 0))).
  - intros k. do 7 (destruct k as [| k]; [reflexivity |]). reflexivity.
  - reflexivity.
  - intros res_id cache_policy h. cbn. discriminate.
  - vm_compute. reflexivity.
Defined.

(** X3.  The mapping calls of Init.  Every call of the bus's mapping
    primitive that a run of Init makes is for one of BAR 0 to BAR 5, and for
    a BAR whose slot of bar_ held no valid handle when Init was entered: a
    record that names a BAR beyond the sixth, or a BAR that is mapped
    already, reaches no call.  There is at most one call for each record of
    the capability list. *)
Theorem Init_maps_only_unmapped_bars
  (H : Type) (fuel : nat) (b b' : Modern.PciModernBackend H) (w w' : World H)
  (status : Z) :
  Modern.Init fuel b w = Some (status, b', w') ->
  exists evs n,
    capability_count (Modern.pci_ b) fuel
      (pci_get_first_capability (Modern.pci_ b) kPciCapIdVendor) = Some n
    /\ trace w' = trace w ++ evs
    /\ (length (map_calls evs) <= n)%nat
    /\ forall id, id ∈ map_calls evs ->
         0 <= id <= 5
         /\ mmio_handle (Modern.bar_ b !!! Z.to_nat id) = ZX_HANDLE_INVALID.
Proof.
  unfold Modern.Init. intros Hinit.
  destruct (Modern.Init_loop _ _ _ _) as [[b1 w1] |] eqn:Hloop; [| discriminate].
  assert (w1 = w') as ->
    by (destruct (Modern.missing_capabilities b1); by injection Hinit as _ _ <-).
  by apply (Init_loop_calls fuel _ b w b1 w').
Qed.

Lemma Init_maps_only_unmapped_bars_witness :
  match Modern.Init 4 (Modern.fresh (Sim.pci Sim.modern_cfg)) (Sim.start (Sim.filled 0)) with
  | Some (_, _, w') =>
      exists evs n,
        capability_count (Sim.pci Sim.modern_cfg) 4
          (pci_get_first_capability (Sim.pci Sim.modern_cfg) kPciCapIdVendor) = Some n
        /\ trace w' = [] ++ evs
        /\ (length (map_calls evs) <= n)%nat
        /\ forall id, id ∈ map_calls evs ->
             0 <= id <= 5
             /\ mmio_handle
                  (Modern.bar_ (Modern.fresh (Sim.pci Sim.modern_cfg)) !!! Z.to_nat id)
                = ZX_HANDLE_INVALID
  | None => False
  end.
Proof.
  destruct (Modern.Init 4 (Modern.fresh (Sim.pci Sim.modern_cfg)) (Sim.start (Sim.filled 0)))
    as [[[status b'] w'] |] eqn:Hinit;
    [| apply Init_runs in Hinit; vm_compute in Hinit; discriminate].
  exact (Init_maps_only_unmapped_bars Sim.state 4 _ b' _ w' status Hinit).
Defined.

(* ------------------------------------------------------------------ *)
(** ** Registers that hold what was written *)

Lemma read_sim (sp : space) (bits addr : Z) (w : World Sim.state) :
  read Sim.platform sp bits addr w
  = Some (peek sp bits addr (hw w),
          mkWorld (hw w) (trace w ++ [EvRead sp bits addr (peek sp bits addr (hw w))])).
Proof. reflexivity. Qed.

Lemma write_sim (sp : space) (bits addr val : Z) (w : World Sim.state) :
  write Sim.platform sp bits addr val w
  = Some (tt, mkWorld (Sim.sim_write sp bits addr (wrap bits val) (hw w))
                      (trace w ++ [EvWrite sp bits addr (wrap bits val)])).
Proof. reflexivity. Qed.

Lemma space_eqb_refl (sp : space) : Sim.space_eqb sp sp = true.
Proof. by destruct sp. Qed.

Lemma bytes_of_width (bits : Z) :
  register_width bits -> 8 * Z.of_nat (Sim.bytes_of bits) = bits.
Proof. by intros [-> | [-> | ->]]. Qed.

Lemma peek_write_same (sp : space) (bits addr val : Z) (h : Sim.state) :
  register_width bits ->
  peek sp bits addr (Sim.sim_write sp bits addr val h) = wrap bits val.
Proof.
  intros Hbits. unfold peek, Sim.sim_write. cbn [Sim.cells].
  rewrite space_eqb_refl, load_store_same, (bytes_of_width bits Hbits).
  apply wrap_idem.
Qed.

Lemma peek_write_apart (sp sp' : space) (bits bits' addr addr' val : Z) (h : Sim.state) :
  sp <> sp'
  \/ addr + Z.of_nat (Sim.bytes_of bits) <= addr'
  \/ addr' + Z.of_nat (Sim.bytes_of bits') <= addr ->
  peek sp bits addr (Sim.sim_write sp' bits' addr' val h) = peek sp bits addr h.
Proof.
  intros Hapart. unfold peek, Sim.sim_write. cbn [Sim.cells].
  destruct sp, sp'; cbn [Sim.space_eqb]; try reflexivity;
    (destruct Hapart as [Hsp | Haddr]; [contradiction |]);
    by rewrite load_store_apart.
Qed.

Lemma u16_add_cases (x k : Z) :
  0 <= k < 65536 -> u16 (x + k) = u16 x + k \/ u16 (x + k) = u16 x + k - 65536.
Proof.
  intros Hk. unfold u16, wrap. change (2 ^ 16) with 65536.
  pose proof (Z.mod_pos_bound x 65536 ltac:(lia)) as Hx.
  rewrite <- (Zplus_mod_idemp_l x k).
  destruct (Z_lt_ge_dec (x mod 65536 + k) 65536) as [Hlt | Hge].
  - left. apply Z.mod_small. lia.
  - right. symmetry. apply Z.mod_unique with (q := 1); lia.
Qed.

(** X4.  On registers that hold what was written, a device-config write of
    the modern backend followed by a read of the same width at the same
    offset returns the value written, cut to that width; the 64-bit pair of
    accesses returns the whole value. *)
Theorem Modern_DeviceConfig_write_then_read
  (b : Modern.PciModernBackend Sim.state) (offset value : Z) (w : World Sim.state) :
  (forall bits, register_width bits ->
     exists w',
       (Modern.DeviceConfigWrite Sim.platform bits offset value b ;;;
        Modern.DeviceConfigRead Sim.platform bits offset b) w
       = Some (value mod 2 ^ bits, w'))
  /\ (0 <= value < 2 ^ 64 ->
      exists w',
        (Modern.DeviceConfigWrite64 Sim.platform offset value b ;;;
         Modern.DeviceConfigRead64 Sim.platform offset b) w
        = Some (value, w')).
Proof.
  split.
  - intros bits Hbits.
    unfold Modern.DeviceConfigWrite, Modern.DeviceConfigRead, MmioWrite, MmioRead, bind.
    rewrite write_sim, read_sim. cbn [hw trace].
    rewrite (peek_write_same _ _ _ _ _ Hbits), wrap_idem.
    eexists. reflexivity.
  - intros Hv.
    unfold Modern.DeviceConfigWrite64, Modern.DeviceConfigRead64, bind.
    rewrite MmioWrite64_run. unfold MmioRead64, bind.
    rewrite !read_sim. cbn [hw trace ret].
    rewrite peek_write_apart
      by (right; left; change (Z.of_nat (Sim.bytes_of 32)) with 4; lia).
    rewrite !peek_write_same by (right; by right).
    rewrite !wrap_idem, low_half, high_half by exact Hv.
    rewrite halves_combine by lia.
    eexists. reflexivity.
Qed.

Lemma Modern_DeviceConfig_write_then_read_witness :
  (exists w',
      (Modern.DeviceConfigWrite Sim.platform 16 6 0x1BEEF (Sim.modern_backend 4) ;;;
       Modern.DeviceConfigRead Sim.platform 16 6 (Sim.modern_backend 4))
        (Sim.start (Sim.filled 0xFF))
      = Some (0x1BEEF mod 2 ^ 16, w'))
  /\ (exists w',
         (Modern.DeviceConfigWrite64 Sim.platform 8 0x0123456789ABCDEF (Sim.modern_backend 4) ;;;
          Modern.DeviceConfigRead64 Sim.platform 8 (Sim.modern_backend 4))
           (Sim.start (Sim.filled 0xFF))
         = Some (0x0123456789ABCDEF, w')).
Proof.
  split.
  - apply (proj1 (Modern_DeviceConfig_write_then_read (Sim.modern_backend 4) 6 0x1BEEF
                    (Sim.start (Sim.filled 0xFF))) 16).
    right. by left.
  - apply (proj2 (Modern_DeviceConfig_write_then_read (Sim.modern_backend 4) 8
                    0x0123456789ABCDEF (Sim.start (Sim.filled 0xFF)))).
    lia.
Defined.

(** X5.  The same for the legacy backend through port I/O: an 8-, 16- or
    32-bit device-config write followed by the read of the same width at the
    same offset returns the value written, cut to that width, and both go to
    port (device_cfg_offset_ + offset) mod 2^16. *)
Theorem Legacy_DeviceConfig_write_then_read
  (b : Legacy.PciLegacyBackend) (offset value : Z) (w : World Sim.state) :
  let port := u16 (Legacy.device_cfg_offset_ b + u16 offset) in
  (exists w',
      (Legacy.DeviceConfigWrite8 Sim.platform offset value b ;;;
       Legacy.DeviceConfigRead8 Sim.platform offset b) w = Some (value mod 2 ^ 8, w')
      /\ added w w' [EvWrite Pio 8 port (value mod 2 ^ 8);
                     EvRead Pio 8 port (value mod 2 ^ 8)])
  /\ (exists w',
         (Legacy.DeviceConfigWrite16 Sim.platform offset value b ;;;
          Legacy.DeviceConfigRead16 Sim.platform offset b) w = Some (value mod 2 ^ 16, w')
         /\ added w w' [EvWrite Pio 16 port (value mod 2 ^ 16);
                        EvRead Pio 16 port (value mod 2 ^ 16)])
  /\ (exists w',
         (Legacy.DeviceConfigWrite32 Sim.platform offset value b ;;;
          Legacy.DeviceConfigRead32 Sim.platform offset b) w = Some (value mod 2 ^ 32, w')
         /\ added w w' [EvWrite Pio 32 port (value mod 2 ^ 32);
                        EvRead Pio 32 port (value mod 2 ^ 32)]).
Proof.
  intros port.
  unfold Legacy.DeviceConfigWrite8, Legacy.DeviceConfigRead8,
    Legacy.DeviceConfigWrite16, Legacy.DeviceConfigRead16,
    Legacy.DeviceConfigWrite32, Legacy.DeviceConfigRead32,
    inp, inpw, inpd, outp, outpw, outpd, bind.
  rewrite !u16_idem. fold port.
  rewrite !write_sim, !read_sim. cbn [hw trace].
  rewrite !peek_write_same by (unfold register_width; tauto).
  rewrite !wrap_idem. unfold wrap.
  repeat split; eexists; (split; [reflexivity |]);
    unfold added; cbn [trace]; by rewrite <- app_assoc.
Qed.

Lemma peek_byte (sp : space) (addr : Z) (h : Sim.state) : 0 <= peek sp 8 addr h < 2 ^ 8.
Proof. apply wrap_range. lia. Qed.

Lemma lor_keeps_bits (old bit : Z) (n : Z) :
  Z.testbit old n = true -> Z.testbit (Z.lor old bit) n = true.
Proof. intros Hn. by rewrite Z.lor_spec, Hn. Qed.

(** X6.  On registers that hold what was written, DriverStatusOk of either
    backend leaves in the device-status register the status it found with
    DRIVER_OK added: the bit is set and no bit that was set is cleared.
    DeviceReset leaves 0 there. *)
Theorem DriverStatusOk_adds_DRIVER_OK (w : World Sim.state) :
  (forall (b : Modern.PciModernBackend Sim.state),
      let reg := Modern.common_cfg_ b + offsetof_device_status in
      let old := peek Mmio 8 reg (hw w) in
      (exists w',
          (Modern.DriverStatusOk Sim.platform b ;;; MmioRead Sim.platform 8 reg) w
          = Some (Z.lor old VIRTIO_STATUS_DRIVER_OK, w'))
      /\ (exists w',
             (Modern.DeviceReset Sim.platform b ;;; MmioRead Sim.platform 8 reg) w
             = Some (0, w')))
  /\ (forall (b : Legacy.PciLegacyBackend),
         let port := u16 (Legacy.bar0_base_ b + VIRTIO_PCI_DEVICE_STATUS) in
         let old := peek Pio 8 port (hw w) in
         (exists w',
             (Legacy.DriverStatusOk Sim.platform b ;;; inp Sim.platform port) w
             = Some (Z.lor old VIRTIO_STATUS_DRIVER_OK, w'))
         /\ (exists w',
                (Legacy.DeviceReset Sim.platform b ;;; inp Sim.platform port) w
                = Some (0, w')))
  /\ (forall old n : Z,
         Z.testbit (Z.lor old VIRTIO_STATUS_DRIVER_OK) 2 = true
         /\ (Z.testbit old n = true ->
             Z.testbit (Z.lor old VIRTIO_STATUS_DRIVER_OK) n = true)).
Proof.
  split; [| split].
  - intros b reg old. split.
    + unfold Modern.DriverStatusOk, MmioRead, MmioWrite, bind.
      rewrite read_sim, write_sim, read_sim. cbn [hw trace]. fold reg old.
      rewrite peek_write_same by by left.
      rewrite wrap_idem, lor_fits by (apply peek_byte || by vm_compute || lia).
      eexists. reflexivity.
    + unfold Modern.DeviceReset, MmioRead, MmioWrite, bind.
      rewrite write_sim, read_sim. cbn [hw trace]. fold reg.
      rewrite peek_write_same by by left.
      eexists. reflexivity.
  - intros b port old.
    assert (Hport : u16 port = port) by apply u16_idem.
    split.
    + unfold Legacy.DriverStatusOk, inp, outp, bind. cbv zeta.
      rewrite !u16_idem. fold port. rewrite Hport.
      rewrite read_sim, write_sim, read_sim. cbn [hw trace]. fold old.
      rewrite peek_write_same by by left.
      rewrite wrap_idem, lor_fits by (apply peek_byte || by vm_compute || lia).
      eexists. reflexivity.
    + unfold Legacy.DeviceReset, inp, outp, bind. rewrite !u16_idem. fold port.
      rewrite Hport.
      rewrite write_sim, read_sim. cbn [hw trace].
      rewrite peek_write_same by by left.
      eexists. reflexivity.
  - intros old n. split.
    + rewrite Z.lor_spec. change (Z.testbit VIRTIO_STATUS_DRIVER_OK 2) with true.
      apply orb_true_r.
    + apply lor_keeps_bits.
Qed.

Ltac apart :=
  right;
  change (Z.of_nat (Sim.bytes_of 32)) with 4;
  change (Z.of_nat (Sim.bytes_of 16)) with 2;
  change (Z.of_nat (Sim.bytes_of 8)) with 1;
  unfold offsetof_queue_select, offsetof_queue_size, offsetof_queue_enable,
    offsetof_queue_desc, offsetof_queue_avail, offsetof_queue_used;
  lia.

Ltac peeks :=
  repeat first
    [ rewrite peek_write_same by (unfold register_width; tauto)
    | rewrite peek_write_apart by apart ].

(** X7.  On registers that hold what was written, after
    PciModernBackend::SetRing the queue-select, queue-size and queue-enable
    registers read the index, the count and 1, the three ring address
    registers read back, through the split 64-bit read, the three physical
    addresses, and GetRingSize for that index returns the count. *)
Theorem Modern_SetRing_then_registers
  (b : Modern.PciModernBackend Sim.state)
  (index count pa_desc pa_avail pa_used : Z) (w : World Sim.state) :
  0 <= pa_desc < 2 ^ 64 -> 0 <= pa_avail < 2 ^ 64 -> 0 <= pa_used < 2 ^ 64 ->
  let cc := Modern.common_cfg_ b in
  exists w1,
    Modern.SetRing Sim.platform index count pa_desc pa_avail pa_used b w = Some (tt, w1)
    /\ peek Mmio 16 (cc + offsetof_queue_select) (hw w1) = u16 index
    /\ peek Mmio 16 (cc + offsetof_queue_size) (hw w1) = u16 count
    /\ peek Mmio 16 (cc + offsetof_queue_enable) (hw w1) = 1
    /\ (exists w2, MmioRead64 Sim.platform (cc + offsetof_queue_desc) w1
                   = Some (pa_desc, w2))
    /\ (exists w2, MmioRead64 Sim.platform (cc + offsetof_queue_avail) w1
                   = Some (pa_avail, w2))
    /\ (exists w2, MmioRead64 Sim.platform (cc + offsetof_queue_used) w1
                   = Some (pa_used, w2))
    /\ (exists w2, Modern.GetRingSize Sim.platform index b w1 = Some (u16 count, w2)).
Proof.
  intros Hdesc Havail Hused cc.
  unfold Modern.SetRing, MmioWrite, bind. fold cc.
  rewrite !write_sim, !MmioWrite64_run. cbn [hw trace].
  eexists. split; [reflexivity |]. cbn [hw].
  split; [| split; [| split; [| split; [| split; [| split]]]]].
  - peeks. apply wrap_idem.
  - peeks. apply wrap_idem.
  - peeks. reflexivity.
  - unfold MmioRead64, bind. rewrite !read_sim. cbn [hw trace ret]. peeks.
    rewrite !wrap_idem, low_half, high_half, halves_combine by lia.
    eexists. reflexivity.
  - unfold MmioRead64, bind. rewrite !read_sim. cbn [hw trace ret]. peeks.
    rewrite !wrap_idem, low_half, high_half, halves_combine by lia.
    eexists. reflexivity.
  - unfold MmioRead64, bind. rewrite !read_sim. cbn [hw trace ret]. peeks.
    rewrite !wrap_idem, low_half, high_half, halves_combine by lia.
    eexists. reflexivity.
  - unfold Modern.GetRingSize, MmioWrite, MmioRead, bind.
    rewrite write_sim, read_sim. cbn [hw trace]. fold cc. peeks.
    rewrite wrap_idem.
    eexists. reflexivity.
Qed.

Lemma Modern_SetRing_then_registers_witness :
  exists w1,
    Modern.SetRing Sim.platform 3 256 0x10000 0x2000000020000 0x30000
      (Sim.modern_backend 4) (Sim.start (Sim.filled 0xFF)) = Some (tt, w1)
    /\ peek Mmio 16 (0x50000000 + offsetof_queue_select) (hw w1) = u16 3
    /\ peek Mmio 16 (0x50000000 + offsetof_queue_size) (hw w1) = u16 256
    /\ peek Mmio 16 (0x50000000 + offsetof_queue_enable) (hw w1) = 1
    /\ (exists w2, MmioRead64 Sim.platform (0x50000000 + offsetof_queue_desc) w1
                   = Some (0x10000, w2))
    /\ (exists w2, MmioRead64 Sim.platform (0x50000000 + offsetof_queue_avail) w1
                   = Some (0x2000000020000, w2))
    /\ (exists w2, MmioRead64 Sim.platform (0x50000000 + offsetof_queue_used) w1
                   = Some (0x30000, w2))
    /\ (exists w2, Modern.GetRingSize Sim.platform 3 (Sim.modern_backend 4) w1
                   = Some (u16 256, w2)).
Proof.
  apply (Modern_SetRing_then_registers (Sim.modern_backend 4) 3 256 0x10000
           0x2000000020000 0x30000 (Sim.start (Sim.filled 0xFF))); lia.
Defined.

Lemma u16_port_range (x : Z) : 0 <= u16 x < 65536.
Proof. apply u16_range. Qed.

(** X8.  PciLegacyBackend::SetRing issues exactly three port writes: the
    index to QUEUE_SELECT, the count to QUEUE_SIZE, and to QUEUE_PFN the page
    number of the descriptor table, pa_desc / 4096 cut to 32 bits; pa_avail
    and pa_used are not sent.  On registers that hold what was written,
    GetRingSize then returns the count, whatever index it is given. *)
Theorem Legacy_SetRing_then_GetRingSize
  (b : Legacy.PciLegacyBackend)
  (index count pa_desc pa_avail pa_used other : Z) (w : World Sim.state) :
  let base := Legacy.bar0_base_ b in
  exists w1 w2,
    Legacy.SetRing Sim.platform index count pa_desc pa_avail pa_used b w = Some (tt, w1)
    /\ added w w1
         [EvWrite Pio 16 (u16 (base + VIRTIO_PCI_QUEUE_SELECT)) (index mod 2 ^ 16);
          EvWrite Pio 16 (u16 (base + VIRTIO_PCI_QUEUE_SIZE)) (count mod 2 ^ 16);
          EvWrite Pio 32 (u16 (base + VIRTIO_PCI_QUEUE_PFN))
                  ((pa_desc mod 2 ^ 64 / 4096) mod 2 ^ 32)]
    /\ Legacy.GetRingSize Sim.platform other b w1 = Some (count mod 2 ^ 16, w2).
Proof.
  intros base.
  unfold Legacy.SetRing, Legacy.GetRingSize, outpw, outpd, inpw, bind. fold base.
  rewrite !u16_idem, !write_sim. cbn [hw trace].
  eexists. eexists. split; [reflexivity |]. split.
  - unfold added. cbn [trace]. rewrite <- !app_assoc. cbn [app].
    rewrite !wrap_idem. reflexivity.
  - rewrite read_sim. cbn [hw trace].
    assert (Hpfn : u16 (base + VIRTIO_PCI_QUEUE_SIZE)
                   = u16 (base + VIRTIO_PCI_QUEUE_PFN) + 4
                   \/ u16 (base + VIRTIO_PCI_QUEUE_SIZE)
                      = u16 (base + VIRTIO_PCI_QUEUE_PFN) + 4 - 65536).
    { replace (base + VIRTIO_PCI_QUEUE_SIZE) with (base + VIRTIO_PCI_QUEUE_PFN + 4)
        by (unfold VIRTIO_PCI_QUEUE_SIZE, VIRTIO_PCI_QUEUE_PFN; lia).
      apply u16_add_cases. lia. }
    pose proof (u16_port_range (base + VIRTIO_PCI_QUEUE_PFN)) as Hrange.
    rewrite peek_write_apart.
    + rewrite peek_write_same by (unfold register_width; tauto).
      rewrite wrap_idem. reflexivity.
    + right.
      change (Z.of_nat (Sim.bytes_of 32)) with 4.
      change (Z.of_nat (Sim.bytes_of 16)) with 2.
      lia.
Qed.

(* ------------------------------------------------------------------ *)
(** ** The later Device: CopyDeviceConfig *)

Section CopyFacts.
Context {H B : Type} (ops : Backend H B).

(** At a length of 65536 or more the test i < len holds for every value of
    the 16-bit counter: the loop is never left. *)
Lemma CopyDeviceConfig_loop_wraps (len : Z) (backend_ : B) :
  65536 <= len ->
  forall (fuel : nat) (i : Z) (buf : list Z) (w : World H) (buf' : list Z) (w' : World H),
    0 <= i < 65536 ->
    DeviceCopy.CopyDeviceConfig_loop ops fuel i len buf backend_ w
    <> DeviceCopy.CopyDone buf' w'.
Proof.
  intros Hlen. induction fuel as [| fuel IH]; intros i buf w buf' w' Hi;
    cbn [DeviceCopy.CopyDeviceConfig_loop];
    (destruct (Z.ltb_spec i len) as [_ | Hge]; [| lia]); [discriminate |].
  destruct (buf !! Z.to_nat i); [| discriminate].
  destruct (backend_DeviceConfigRead8 i backend_ w) as [[v w1] |]; [| discriminate].
  apply IH. apply u16_range.
Qed.

(** With room for 65536 bytes and reads that return, the loop is still
    running after any number of passes, its counter at their number mod
    2^16. *)
Lemma CopyDeviceConfig_loop_keeps_running (len : Z) (backend_ : B) :
  65536 <= len ->
  (forall i w, exists v w', backend_DeviceConfigRead8 i backend_ w = Some (v, w')) ->
  forall (fuel : nat) (i : Z) (buf : list Z) (w : World H),
    0 <= i < 65536 -> 65536 <= Z.of_nat (length buf) ->
    exists buf' w',
      DeviceCopy.CopyDeviceConfig_loop ops fuel i len buf backend_ w
      = DeviceCopy.CopyRunning ((i + Z.of_nat fuel) mod 65536) buf' w'
      /\ length buf' = length buf.
Proof.
  intros Hlen Hreads. induction fuel as [| fuel IH]; intros i buf w Hi Hbuf;
    cbn [DeviceCopy.CopyDeviceConfig_loop];
    (destruct (Z.ltb_spec i len) as [_ | Hge]; [| lia]).
  - exists buf, w. split; [| reflexivity].
    by rewrite Z.add_0_r, Z.mod_small.
  - destruct (lookup_lt_is_Some_2 buf (Z.to_nat i) ltac:(lia)) as [old ->].
    destruct (Hreads i w) as (v & w1 & ->).
    destruct (IH (u16 (i + 1)) (<[Z.to_nat i := v]> buf) w1)
      as (buf' & w' & -> & Hlength);
      [apply u16_range | by rewrite length_insert |].
    exists buf', w'. split; [| by rewrite Hlength, length_insert].
    f_equal. unfold u16, wrap. change (2 ^ 16) with 65536.
    rewrite Zplus_mod_idemp_l. f_equal. lia.
Qed.

Lemma CopyDeviceConfig_loop_reads (len : Z) (backend_ : B) :
  len < 65536 ->
  forall (n : nat) (i : Z) (buf : list Z) (w : World H) (fuel : nat),
    0 <= i -> i + Z.of_nat n = len ->
    (Z.to_nat len <= length buf)%nat -> (n <= fuel)%nat ->
    DeviceCopy.CopyDeviceConfig_loop ops fuel i len buf backend_ w
    = match read_bytes ops n i backend_ w with
      | Some (bytes, w') =>
          DeviceCopy.CopyDone (take (Z.to_nat i) buf ++ bytes ++ drop (Z.to_nat len) buf) w'
      | None => DeviceCopy.CopyReadAbort
      end.
Proof.
  intros Hlen. induction n as [| n IH]; intros i buf w fuel Hi Hsum Hbuf Hfuel.
  - assert (i = len) as -> by lia.
    cbn [read_bytes]. unfold ret.
    destruct fuel; cbn [DeviceCopy.CopyDeviceConfig_loop];
      rewrite Z.ltb_irrefl; cbn [app]; by rewrite take_drop.
  - destruct fuel as [| fuel]; [lia |].
    cbn [DeviceCopy.CopyDeviceConfig_loop read_bytes]. unfold bind at 1.
    destruct (Z.ltb_spec i len) as [Hlt | Hge]; [| lia].
    destruct (lookup_lt_is_Some_2 buf (Z.to_nat i) ltac:(lia)) as [old Hold].
    rewrite Hold.
    destruct (backend_DeviceConfigRead8 i backend_ w) as [[v w1] |]; [| reflexivity].
    assert (Hnext : u16 (i + 1) = i + 1) by (apply wrap_small; lia).
    rewrite Hnext, (IH (i + 1)) by (rewrite ?length_insert; lia).
    unfold bind, ret.
    destruct (read_bytes ops n (i + 1) backend_ w1) as [[rest w2] |]; [| reflexivity].
    f_equal.
    replace (Z.to_nat (i + 1)) with (S (Z.to_nat i)) by lia.
    rewrite (take_S_r _ _ v) by (apply list_lookup_insert_eq; lia).
    rewrite take_insert_ge by lia.
    rewrite drop_insert_lt by lia.
    by rewrite <- app_assoc.
Qed.
End CopyFacts.

(** X9.  The later Device's CopyDeviceConfig counts in a uint16_t against a
    size_t length.  For a length of 65536 or more the test i < len holds for
    every value of the counter, so the loop is never left and the call
    returns on no backend, for no buffer, after no number of passes.  It
    does keep running: with a buffer of 65536 bytes or more and a backend
    whose reads return, after any number n of passes the loop is still in
    progress, no store has gone past the buffer, and the counter stands at
    n mod 2^16, so it has wrapped to 0 after 65536 passes. *)
Theorem CopyDeviceConfig_long_never_returns {H B : Type} (ops : Backend H B)
  (buf : list Z) (len : Z) (backend_ : B) (w : World H) :
  65536 <= u64 len ->
  (forall fuel : nat, DeviceCopy.CopyDeviceConfig ops fuel (Some buf) len backend_ w = None)
  /\ (65536 <= Z.of_nat (length buf) ->
      (forall i w, exists v w', backend_DeviceConfigRead8 i backend_ w = Some (v, w')) ->
      forall fuel : nat,
        exists buf' w',
          DeviceCopy.CopyDeviceConfig_loop ops fuel 0 (u64 len) buf backend_ w
          = DeviceCopy.CopyRunning (Z.of_nat fuel mod 65536) buf' w'
          /\ length buf' = length buf).
Proof.
  intros Hlen. split.
  - intros fuel. unfold DeviceCopy.CopyDeviceConfig.
    pose proof (CopyDeviceConfig_loop_wraps ops (u64 len) backend_ Hlen fuel 0 buf w)
      as Hnever.
    destruct (DeviceCopy.CopyDeviceConfig_loop ops fuel 0 (u64 len) buf backend_ w)
      as [buf' w' | | |]; try reflexivity.
    destruct (Hnever buf' w' ltac:(lia) eq_refl).
  - intros Hbuf Hreads fuel.
    apply (CopyDeviceConfig_loop_keeps_running ops (u64 len) backend_ Hlen Hreads
             fuel 0 buf w); [lia | exact Hbuf].
Qed.

Lemma CopyDeviceConfig_long_never_returns_witness :
  65536 <= u64 65536
  /\ 65536 <= Z.of_nat (length (replicate (Z.to_nat 65536) 0))
  /\ (forall fuel : nat,
         DeviceCopy.CopyDeviceConfig (PciLegacy_Backend Sim.platform) fuel
           (Some (replicate (Z.to_nat 65536) 0)) 65536 Sim.legacy_backend
           (Sim.start (Sim.filled 7)) = None)
  /\ (forall fuel : nat,
         exists buf' w',
           DeviceCopy.CopyDeviceConfig_loop (PciLegacy_Backend Sim.platform) fuel 0
             (u64 65536) (replicate (Z.to_nat 65536) 0) Sim.legacy_backend
             (Sim.start (Sim.filled 7))
           = DeviceCopy.CopyRunning (Z.of_nat fuel mod 65536) buf' w'
           /\ length buf' = length (replicate (Z.to_nat 65536) 0)).
Proof.
  assert (Hlen : 65536 <= u64 65536) by by vm_compute.
  assert (Hbuf : 65536 <= Z.of_nat (length (replicate (Z.to_nat 65536) 0)))
    by by vm_compute.
  split; [exact Hlen |]. split; [exact Hbuf |].
  destruct (CopyDeviceConfig_long_never_returns (PciLegacy_Backend Sim.platform)
              (replicate (Z.to_nat 65536) 0) 65536 Sim.legacy_backend
              (Sim.start (Sim.filled 7)) Hlen) as [Hnever Hrunning].
  split; [exact Hnever |].
  apply Hrunning; [exact Hbuf |].
  intros i w. eexists _, _. reflexivity.
Defined.

(** X10.  For a length below 65536 that fits the buffer, the later Device's
    CopyDeviceConfig is the sequence of 8-bit DeviceConfigRead calls of its
    backend at offsets 0, 1, ... in order: it returns ZX_OK once they all
    have returned, the buffer then holds the bytes read followed by what it
    held beyond the length, and it does not return when one of them does
    not. *)
Theorem CopyDeviceConfig_reads_in_order {H B : Type} (ops : Backend H B)
  (fuel : nat) (buf : list Z) (len : Z) (backend_ : B) (w : World H) :
  0 <= len < 65536 ->
  (Z.to_nat len <= length buf)%nat -> (Z.to_nat len <= fuel)%nat ->
  DeviceCopy.CopyDeviceConfig ops fuel (Some buf) len backend_ w
  = match read_bytes ops (Z.to_nat len) 0 backend_ w with
    | Some (bytes, w') => Some (ZX_OK, bytes ++ drop (Z.to_nat len) buf, w')
    | None => None
    end.
Proof.
  intros Hlen Hbuf Hfuel. unfold DeviceCopy.CopyDeviceConfig.
  assert (Hu : u64 len = len) by (apply wrap_small; lia).
  rewrite Hu, (CopyDeviceConfig_loop_reads ops len backend_ ltac:(lia) (Z.to_nat len))
    by lia.
  by destruct (read_bytes ops (Z.to_nat len) 0 backend_ w) as [[bytes w'] |].
Qed.

Lemma CopyDeviceConfig_reads_in_order_witness :
  DeviceCopy.CopyDeviceConfig (PciModern_Backend Sim.platform) 3 (Some [0; 0; 0; 9]) 3
    (Sim.modern_backend 4) (Sim.start (Sim.filled 7))
  = match read_bytes (PciModern_Backend Sim.platform) (Z.to_nat 3) 0
            (Sim.modern_backend 4) (Sim.start (Sim.filled 7)) with
    | Some (bytes, w') => Some (ZX_OK, bytes ++ drop (Z.to_nat 3) [0; 0; 0; 9], w')
    | None => None
    end.
Proof.
  apply (CopyDeviceConfig_reads_in_order (PciModern_Backend Sim.platform) 3
           [0; 0; 0; 9] 3 (Sim.modern_backend 4) (Sim.start (Sim.filled 7)));
    cbn; lia.
Defined.

(* ------------------------------------------------------------------ *)
(** ** The two generations side by side *)

Lemma masked_bit (v mask bit : Z) :
  Z.land mask bit = bit -> Z.land (Z.land v mask) bit = Z.land v bit.
Proof. intros Hbit. by rewrite <- Z.land_assoc, Hbit. Qed.

Lemma masked_zero_no_bits (v : Z) :
  Z.land v (Z.lor VIRTIO_ISR_QUEUE_INT VIRTIO_ISR_DEV_CFG_INT) = 0 ->
  Z.land v 1 = 0 /\ Z.land v 2 = 0.
Proof.
  intros Hzero.
  rewrite <- (masked_bit v (Z.lor VIRTIO_ISR_QUEUE_INT VIRTIO_ISR_DEV_CFG_INT) 1),
    <- (masked_bit v (Z.lor VIRTIO_ISR_QUEUE_INT VIRTIO_ISR_DEV_CFG_INT) 2)
    by reflexivity.
  by rewrite Hzero.
Qed.

(** X11.  On the memory-mapped transport the interrupt loop is the same in
    both generations.  When the earlier Device's isr_status pointer and the
    modern backend's isr_status_ are the same non-null address and the two
    kernel calls return ZX_OK or an error (a status that is not positive),
    one pass of the earlier IrqWorker and one pass of the later IrqWorker
    over the modern backend make the same register read and the same
    callbacks, on any hardware: masking the status to its two defined bits
    changes no decision. *)
Theorem IrqWorker_generations_agree_on_mmio {H : Type} (P : Platform H)
  (wait_rc complete_rc : Z) (d : EarlierDevice.Device H)
  (b : Modern.PciModernBackend H) (w : World H) :
  wait_rc <= 0 -> complete_rc <= 0 ->
  EarlierDevice.isr_status (EarlierDevice.mmio_regs_ d) = Modern.isr_status_ b ->
  Modern.isr_status_ b <> 0 ->
  EarlierRest.IrqWorker_iteration P wait_rc complete_rc d w
  = Device.IrqWorker_iteration (PciModern_Backend P) wait_rc complete_rc b w.
Proof.
  intros Hwait Hcomplete Hsame Hisr.
  unfold EarlierRest.IrqWorker_iteration, Device.IrqWorker_iteration, Device.IsrStatus.
  cbn [backend_IsrStatus PciModern_Backend]. unfold Modern.IsrStatus.
  rewrite Hsame. unfold bind, emit, ret.
  destruct (Z.eqb_spec (Modern.isr_status_ b) 0) as [Hnull | _]; [contradiction |].
  cbn [negb].
  destruct (Z.ltb_spec wait_rc 0) as [Hneg | Hzero];
    destruct (Z.eqb_spec wait_rc ZX_OK) as [Hok | Hfail];
    unfold ZX_OK in *; try lia; cbn [negb]; [reflexivity |].
  destruct (read P Mmio 32 (Modern.isr_status_ b) _) as [[v w1] |]; [| reflexivity].
  destruct (Z.ltb_spec complete_rc 0) as [Hneg' | Hzero'];
    destruct (Z.eqb_spec complete_rc 0) as [Hok' | Hfail'];
    try lia; cbn [negb]; [reflexivity |].
  change VIRTIO_ISR_QUEUE_INT with 1. change VIRTIO_ISR_DEV_CFG_INT with 2.
  rewrite !masked_bit by reflexivity.
  destruct (Z.eqb_spec v 0) as [-> | Hv].
  - reflexivity.
  - destruct (Z.eqb_spec (Z.land v (Z.lor 1 2)) 0) as [Hmasked | _]; [| reflexivity].
    destruct (masked_zero_no_bits v Hmasked) as [-> ->]. reflexivity.
Qed.

Lemma IrqWorker_generations_agree_on_mmio_witness :
  EarlierRest.IrqWorker_iteration Sim.platform 0 0 Sim.mmio_device
    (Sim.start (Sim.filled 0xFF))
  = Device.IrqWorker_iteration (PciModern_Backend Sim.platform) 0 0
      (Sim.modern_backend 4) (Sim.start (Sim.filled 0xFF)).
Proof.
  apply (IrqWorker_generations_agree_on_mmio Sim.platform 0 0 Sim.mmio_device
           (Sim.modern_backend 4) (Sim.start (Sim.filled 0xFF)));
    [lia | lia | reflexivity | by vm_compute].
Defined.

Lemma land_ffff (x : Z) : Z.land x 0xffff = u16 x.
Proof. change 0xffff with (Z.ones 16). by rewrite Z.land_ones by lia. Qed.

Lemma u16_add_l (x k : Z) : u16 (u16 x + k) = u16 (x + k).
Proof. unfold u16, wrap. apply Zplus_mod_idemp_l. Qed.

Lemma u16_add_r (x k : Z) : u16 (x + u16 k) = u16 (x + k).
Proof. unfold u16, wrap. apply Zplus_mod_idemp_r. Qed.

Ltac ports Hbase :=
  rewrite ?land_ffff, ?Hbase, ?u16_idem, ?u16_add_l, ?u16_add_r, ?u16_idem.

(** X12.  The legacy backend keeps the port traffic of the earlier Device.
    For an earlier Device on its port I/O path (no common configuration
    block, bar0_pio_base_ set) and a legacy backend whose bar0_base_ is
    that base cut to 16 bits, SetRing, GetRingSize, RingKick, the
    ACKNOWLEDGE+DRIVER step and the DRIVER_OK step behave alike on any
    hardware and for all arguments. *)
Theorem Legacy_backend_keeps_port_traffic {H : Type} (P : Platform H)
  (d : EarlierDevice.Device H) (b : Legacy.PciLegacyBackend) (w : World H) :
  EarlierDevice.common_config (EarlierDevice.mmio_regs_ d) = 0 ->
  EarlierDevice.notify_base (EarlierDevice.mmio_regs_ d) = 0 ->
  EarlierDevice.bar0_pio_base_ d <> 0 ->
  Legacy.bar0_base_ b = u16 (EarlierDevice.bar0_pio_base_ d) ->
  (forall index count pa_desc pa_avail pa_used,
      EarlierDevice.SetRing P index count pa_desc pa_avail pa_used d w
      = Legacy.SetRing P index count pa_desc pa_avail pa_used b w)
  /\ (forall index, EarlierRest.GetRingSize P index d w = Legacy.GetRingSize P index b w)
  /\ (forall ring_index,
         EarlierRest.RingKick P ring_index d w = Legacy.RingKick P ring_index b w)
  /\ EarlierDevice.StatusAcknowledgeDriver P d w = Legacy.DriverStatusAck P b w
  /\ EarlierDevice.StatusDriverOK P d w = Legacy.DriverStatusOk P b w.
Proof.
  intros Hcc Hnb Hpio Hbase.
  assert (Htest : negb (EarlierDevice.bar0_pio_base_ d =? 0) = true).
  { by destruct (Z.eqb_spec (EarlierDevice.bar0_pio_base_ d) 0). }
  split; [| split; [| split; [| split]]].
  - intros index count pa_desc pa_avail pa_used.
    unfold EarlierDevice.SetRing, Legacy.SetRing. cbv zeta.
    rewrite Hcc, Htest. cbn [Z.eqb]. unfold outpw, outpd. ports Hbase. reflexivity.
  - intros index. unfold EarlierRest.GetRingSize, Legacy.GetRingSize. cbv zeta.
    rewrite Hcc, Htest. cbn [Z.eqb]. unfold inpw. ports Hbase. reflexivity.
  - intros ring_index. unfold EarlierRest.RingKick, Legacy.RingKick. cbv zeta.
    rewrite Hnb, Htest. cbn [Z.eqb]. unfold outpw. ports Hbase. reflexivity.
  - unfold EarlierDevice.StatusAcknowledgeDriver, Legacy.DriverStatusAck,
      EarlierDevice.ReadConfigBar, EarlierDevice.WriteConfigBar. cbv zeta.
    rewrite Hcc, Htest. cbn [Z.eqb]. unfold inp, outp. ports Hbase.
    unfold bind. destruct (read P Pio 8 _ w) as [[v w1] |]; [| reflexivity].
    by rewrite Z.lor_assoc.
  - unfold EarlierDevice.StatusDriverOK, Legacy.DriverStatusOk,
      EarlierDevice.ReadConfigBar, EarlierDevice.WriteConfigBar. cbv zeta.
    rewrite Hcc, Htest. cbn [Z.eqb]. unfold inp, outp. ports Hbase. reflexivity.
Qed.

Lemma Legacy_backend_keeps_port_traffic_witness :
  (forall index count pa_desc pa_avail pa_used,
      EarlierDevice.SetRing Sim.platform index count pa_desc pa_avail pa_used
        Sim.pio_device (Sim.start (Sim.filled 0))
      = Legacy.SetRing Sim.platform index count pa_desc pa_avail pa_used
          Sim.legacy_backend (Sim.start (Sim.filled 0)))
  /\ (forall index,
         EarlierRest.GetRingSize Sim.platform index Sim.pio_device
           (Sim.start (Sim.filled 0))
         = Legacy.GetRingSize Sim.platform index Sim.legacy_backend
             (Sim.start (Sim.filled 0)))
  /\ (forall ring_index,
         EarlierRest.RingKick Sim.platform ring_index Sim.pio_device
           (Sim.start (Sim.filled 0))
         = Legacy.RingKick Sim.platform ring_index Sim.legacy_backend
             (Sim.start (Sim.filled 0)))
  /\ EarlierDevice.StatusAcknowledgeDriver Sim.platform Sim.pio_device
       (Sim.start (Sim.filled 0))
     = Legacy.DriverStatusAck Sim.platform Sim.legacy_backend (Sim.start (Sim.filled 0))
  /\ EarlierDevice.StatusDriverOK Sim.platform Sim.pio_device (Sim.start (Sim.filled 0))
     = Legacy.DriverStatusOk Sim.platform Sim.legacy_backend (Sim.start (Sim.filled 0)).
Proof.
  apply (Legacy_backend_keeps_port_traffic Sim.platform Sim.pio_device
           Sim.legacy_backend (Sim.start (Sim.filled 0)));
    [reflexivity | reflexivity | by vm_compute | reflexivity].
Defined.

Section CopyGenerations.
Context {H : Type} (P : Platform H).

Lemma Earlier_copy_is_legacy_reads (d : EarlierDevice.Device H)
  (b : Legacy.PciLegacyBackend) :
  EarlierDevice.device_config (EarlierDevice.mmio_regs_ d) = 0 ->
  EarlierDevice.bar0_pio_base_ d <> 0 ->
  Legacy.device_cfg_offset_ b
  = u16 (EarlierDevice.bar0_pio_base_ d + VIRTIO_PCI_CONFIG_OFFSET_NOMSI) ->
  forall (n : nat) (i : Z) (w : World H),
    EarlierRest.CopyDeviceConfig_loop P n i d w
    = read_bytes (PciLegacy_Backend P) n i b w.
Proof.
  intros Hdc Hpio Hcfg.
  assert (Htest : negb (EarlierDevice.bar0_pio_base_ d =? 0) = true).
  { by destruct (Z.eqb_spec (EarlierDevice.bar0_pio_base_ d) 0). }
  induction n as [| n IH]; intros i w; [reflexivity |].
  cbn [EarlierRest.CopyDeviceConfig_loop read_bytes backend_DeviceConfigRead8
         PciLegacy_Backend].
  unfold Legacy.DeviceConfigRead8, EarlierDevice.ReadConfigBar, inp.
  rewrite Hdc, Htest. cbn [Z.eqb negb]. ports Hcfg.
  rewrite Z.add_assoc. unfold bind.
  destruct (read P Pio 8 _ w) as [[v w1] |]; [| reflexivity].
  by rewrite IH.
Qed.

Lemma Earlier_copy_is_modern_reads (d : EarlierDevice.Device H)
  (b : Modern.PciModernBackend H) :
  EarlierDevice.device_config (EarlierDevice.mmio_regs_ d) = Modern.device_cfg_ b ->
  0 < Modern.device_cfg_ b -> Modern.device_cfg_ b + 65536 <= 2 ^ 64 ->
  forall (n : nat) (i : Z) (w : World H),
    0 <= i -> i + Z.of_nat n <= 65536 ->
    EarlierRest.CopyDeviceConfig_loop P n i d w
    = read_bytes (PciModern_Backend P) n i b w.
Proof.
  intros Hdc Hpos Htop.
  induction n as [| n IH]; intros i w Hi Hn; [reflexivity |].
  cbn [EarlierRest.CopyDeviceConfig_loop read_bytes backend_DeviceConfigRead8
         PciModern_Backend].
  unfold Modern.DeviceConfigRead, MmioRead. rewrite Hdc.
  destruct (Z.eqb_spec (Modern.device_cfg_ b) 0) as [Hnull | _]; [lia |].
  cbn [negb].
  assert (Hoff : u16 i = i) by (apply wrap_small; lia).
  assert (Haddr : u64 (Modern.device_cfg_ b + i) = Modern.device_cfg_ b + i)
    by (apply wrap_small; lia).
  rewrite Hoff, Haddr. unfold bind.
  destruct (read P Mmio 8 _ w) as [[v w1] |]; [| reflexivity].
  by rewrite IH by lia.
Qed.
End CopyGenerations.

(** X13.  CopyDeviceConfig is the same in both generations.  For a length
    below 65536 that fits the buffer, the later Device over the legacy
    backend reads the same ports, and over the modern backend the same
    addresses, in the same order as the earlier Device's CopyDeviceConfig on
    its port I/O path and on its memory-mapped path, and leaves the same
    bytes at the front of the buffer. *)
Theorem CopyDeviceConfig_generations_agree {H : Type} (P : Platform H)
  (d : EarlierDevice.Device H) (fuel : nat) (buf : list Z) (len : Z) (w : World H) :
  0 <= len < 65536 ->
  (Z.to_nat len <= length buf)%nat -> (Z.to_nat len <= fuel)%nat ->
  let earlier :=
    match EarlierRest.CopyDeviceConfig P len d w with
    | Some (status, bytes, w') => Some (status, bytes ++ drop (Z.to_nat len) buf, w')
    | None => None
    end in
  (forall b : Legacy.PciLegacyBackend,
      EarlierDevice.device_config (EarlierDevice.mmio_regs_ d) = 0 ->
      EarlierDevice.bar0_pio_base_ d <> 0 ->
      Legacy.device_cfg_offset_ b
      = u16 (EarlierDevice.bar0_pio_base_ d + VIRTIO_PCI_CONFIG_OFFSET_NOMSI) ->
      DeviceCopy.CopyDeviceConfig (PciLegacy_Backend P) fuel (Some buf) len b w = earlier)
  /\ (forall b : Modern.PciModernBackend H,
         EarlierDevice.device_config (EarlierDevice.mmio_regs_ d) = Modern.device_cfg_ b ->
         0 < Modern.device_cfg_ b -> Modern.device_cfg_ b + 65536 <= 2 ^ 64 ->
         DeviceCopy.CopyDeviceConfig (PciModern_Backend P) fuel (Some buf) len b w
         = earlier).
Proof.
  intros Hlen Hbuf Hfuel earlier. subst earlier.
  assert (Hu : u64 len = len) by (apply wrap_small; lia).
  unfold EarlierRest.CopyDeviceConfig, DeviceCopy.CopyDeviceConfig, bind, ret.
  rewrite Hu. split.
  - intros b Hdc Hpio Hcfg.
    rewrite (CopyDeviceConfig_loop_reads (PciLegacy_Backend P) len b ltac:(lia)
               (Z.to_nat len)) by lia.
    rewrite (Earlier_copy_is_legacy_reads P d b Hdc Hpio Hcfg).
    by destruct (read_bytes _ _ _ _ _) as [[bytes w'] |].
  - intros b Hdc Hpos Htop.
    rewrite (CopyDeviceConfig_loop_reads (PciModern_Backend P) len b ltac:(lia)
               (Z.to_nat len)) by lia.
    rewrite (Earlier_copy_is_modern_reads P d b Hdc Hpos Htop) by lia.
    by destruct (read_bytes _ _ _ _ _) as [[bytes w'] |].
Qed.

Lemma CopyDeviceConfig_generations_agree_witness :
  DeviceCopy.CopyDeviceConfig (PciLegacy_Backend Sim.platform) 3 (Some [0; 0; 0; 9]) 3
    Sim.legacy_backend (Sim.start (Sim.filled 7))
  = match EarlierRest.CopyDeviceConfig Sim.platform 3 Sim.pio_device
            (Sim.start (Sim.filled 7)) with
    | Some (status, bytes, w') =>
        Some (status, bytes ++ drop (Z.to_nat 3) [0; 0; 0; 9], w')
    | None => None
    end
  /\ DeviceCopy.CopyDeviceConfig (PciModern_Backend Sim.platform) 3 (Some [0; 0; 0; 9]) 3
       (Sim.modern_backend 4) (Sim.start (Sim.filled 7))
     = match EarlierRest.CopyDeviceConfig Sim.platform 3 Sim.mmio_device
               (Sim.start (Sim.filled 7)) with
       | Some (status, bytes, w') =>
           Some (status, bytes ++ drop (Z.to_nat 3) [0; 0; 0; 9], w')
       | None => None
       end.
Proof.
  split.
  - refine (proj1 (CopyDeviceConfig_generations_agree Sim.platform Sim.pio_device 3
                     [0; 0; 0; 9] 3 (Sim.start (Sim.filled 7)) _ _ _)
              Sim.legacy_backend _ _ _);
      try reflexivity; try (cbn; lia); by vm_compute.
  - refine (proj2 (CopyDeviceConfig_generations_agree Sim.platform Sim.mmio_device 3
                     [0; 0; 0; 9] 3 (Sim.start (Sim.filled 7)) _ _ _)
              (Sim.modern_backend 4) _ _ _);
      try reflexivity; try (cbn; lia); by vm_compute.
Defined.

(* ------------------------------------------------------------------ *)
(** ** The earlier Device: reset, notification, device configuration, features *)

Section ResetFacts.
Context {H : Type} (P : Platform H).


End ResetFacts.



(** X15.  On registers that hold what was written, the earlier Device's
    Reset returns after one poll on either path: it writes 0 to the device
    status and reads it once.  The later backends' DeviceReset issue the same
    write and never read the status back. *)
Theorem Reset_on_registers (w : World Sim.state) (fuel : nat) :
  (forall d : EarlierDevice.Device Sim.state,
      let cc := EarlierDevice.common_config (EarlierDevice.mmio_regs_ d) in
      cc <> 0 ->
      exists w',
        EarlierDevice.Reset Sim.platform (S fuel) d w = Some (tt, w')
        /\ added w w' [EvWrite Mmio 8 (cc + offsetof_device_status) 0;
                       EvRead Mmio 8 (cc + offsetof_device_status) 0])
  /\ (forall d : EarlierDevice.Device Sim.state,
         let port := u16 (EarlierDevice.bar0_pio_base_ d + VIRTIO_PCI_DEVICE_STATUS) in
         EarlierDevice.common_config (EarlierDevice.mmio_regs_ d) = 0 ->
         EarlierDevice.bar0_pio_base_ d <> 0 ->
         exists w',
           EarlierDevice.Reset Sim.platform (S fuel) d w = Some (tt, w')
           /\ added w w' [EvWrite Pio 8 port 0; EvRead Pio 8 port 0])
  /\ (forall b : Modern.PciModernBackend Sim.state,
         exists w',
           Modern.DeviceReset Sim.platform b w = Some (tt, w')
           /\ added w w'
                [EvWrite Mmio 8 (Modern.common_cfg_ b + offsetof_device_status) 0])
  /\ (forall b : Legacy.PciLegacyBackend,
         exists w',
           Legacy.DeviceReset Sim.platform b w = Some (tt, w')
           /\ added w w'
                [EvWrite Pio 8 (u16 (Legacy.bar0_base_ b + VIRTIO_PCI_DEVICE_STATUS)) 0]).
Proof.
  split; [| split; [| split]].
  - intros d cc Hcc. unfold EarlierDevice.Reset. cbv zeta. fold cc.
    destruct (Z.eqb_spec cc 0) as [Hnull | _]; [contradiction |].
    cbn [EarlierDevice.Reset_poll]. unfold bind.
    rewrite write_sim, read_sim. cbn [hw trace].
    rewrite peek_write_same by by left.
    change (wrap 8 (wrap 8 0) =? 0) with true. cbv iota. unfold ret.
    eexists. split; [reflexivity |].
    unfold added. cbn [trace]. by rewrite <- app_assoc.
  - intros d port Hcc Hpio.
    unfold EarlierDevice.Reset, EarlierDevice.WriteConfigBar,
      EarlierDevice.ReadConfigBar. cbv zeta. rewrite Hcc.
    destruct (Z.eqb_spec (EarlierDevice.bar0_pio_base_ d) 0) as [Hnull | _];
      [contradiction |].
    cbn [Z.eqb negb EarlierDevice.Reset_poll]. unfold bind.
    rewrite land_ffff, u16_add_r. fold port.
    rewrite write_sim, read_sim. cbn [hw trace].
    rewrite peek_write_same by by left.
    change (wrap 8 (wrap 8 0) =? 0) with true. cbv iota. unfold ret.
    eexists. split; [reflexivity |].
    unfold added. cbn [trace]. by rewrite <- app_assoc.
  - intros b. unfold Modern.DeviceReset, MmioWrite. rewrite write_sim.
    eexists. split; reflexivity.
  - intros b. unfold Legacy.DeviceReset, outp. rewrite u16_idem, write_sim.
    eexists. split; reflexivity.
Qed.

Lemma even_offset_stays (x : Z) : x mod 2 = 0 -> 2 * (u32 x / 2) = u32 x.
Proof.
  intros Heven. unfold u32, wrap.
  assert (Hmod : (x mod 2 ^ 32) mod 2 = 0).
  { rewrite Z.mod_mod_divide; [exact Heven |]. exists (2 ^ 31). reflexivity. }
  pose proof (Z.div_mod (x mod 2 ^ 32) 2 ltac:(lia)). lia.
Qed.

(** X16.  RingKick across the generations.  The earlier Device notifies at
    notify_base + ring_index * notify_mul, taken as an index into 16-bit
    elements; the modern backend reads queue_notify_off and notifies at
    notify_base_ + queue_notify_off * notify_off_mul_.  With the same base
    and an even multiplier, on a device that reports the ring's own index as
    its queue_notify_off, the modern RingKick is that one register read
    followed by exactly the earlier Device's RingKick, on any hardware. *)
Theorem RingKick_generations_agree {H : Type} (P : Platform H)
  (d : EarlierDevice.Device H) (b : Modern.PciModernBackend H)
  (ring_index : Z) (w : World H) :
  EarlierDevice.notify_base (EarlierDevice.mmio_regs_ d) = Modern.notify_base_ b ->
  0 < Modern.notify_base_ b -> Modern.notify_base_ b + 2 ^ 32 <= 2 ^ 64 ->
  EarlierDevice.notify_mul (EarlierDevice.mmio_regs_ d) = Modern.notify_off_mul_ b ->
  Modern.notify_off_mul_ b mod 2 = 0 ->
  wrap 16 (fst (hw_read P Mmio 16 (Modern.common_cfg_ b + offsetof_queue_notify_off)
                  (hw w)))
  = u16 ring_index ->
  Modern.RingKick P ring_index b w
  = (MmioRead P 16 (Modern.common_cfg_ b + offsetof_queue_notify_off) ;;;
     EarlierRest.RingKick P ring_index d) w.
Proof.
  intros Hbase Hpos Htop Hmul Heven Hoff.
  unfold Modern.RingKick, EarlierRest.RingKick, MmioRead, bind, read. cbv zeta.
  destruct (hw_read P Mmio 16 _ (hw w)) as [raw h1]. cbn [fst] in Hoff.
  rewrite Hoff, Hbase, Hmul.
  destruct (Z.eqb_spec (Modern.notify_base_ b) 0) as [Hnull | _]; [lia |].
  unfold Modern.notify_address.
  rewrite even_offset_stays.
  - pose proof (wrap_range 32 (u16 ring_index * Modern.notify_off_mul_ b) ltac:(lia)).
    by rewrite (wrap_small 64) by (unfold u32; lia).
  - by rewrite <- Zmult_mod_idemp_r, Heven, Z.mul_0_r.
Qed.

Lemma RingKick_generations_agree_witness :
  Modern.RingKick Sim.platform 257 (Sim.modern_backend 4) (Sim.start (Sim.filled 1))
  = (MmioRead Sim.platform 16
       (Modern.common_cfg_ (Sim.modern_backend 4) + offsetof_queue_notify_off) ;;;
     EarlierRest.RingKick Sim.platform 257 Sim.mmio_device) (Sim.start (Sim.filled 1)).
Proof.
  apply (RingKick_generations_agree Sim.platform Sim.mmio_device (Sim.modern_backend 4)
           257 (Sim.start (Sim.filled 1)));
    try reflexivity; by vm_compute.
Defined.

Lemma Reset_on_registers_witness :
  (exists w',
      EarlierDevice.Reset Sim.platform 1 Sim.mmio_device (Sim.start (Sim.filled 0xFF))
      = Some (tt, w')
      /\ added (Sim.start (Sim.filled 0xFF)) w'
           [EvWrite Mmio 8 (0x50000000 + offsetof_device_status) 0;
            EvRead Mmio 8 (0x50000000 + offsetof_device_status) 0])
  /\ (exists w',
         EarlierDevice.Reset Sim.platform 1 Sim.pio_device (Sim.start (Sim.filled 0xFF))
         = Some (tt, w')
         /\ added (Sim.start (Sim.filled 0xFF)) w'
              [EvWrite Pio 8 (u16 (0xC000 + VIRTIO_PCI_DEVICE_STATUS)) 0;
               EvRead Pio 8 (u16 (0xC000 + VIRTIO_PCI_DEVICE_STATUS)) 0]).
Proof.
  split.
  - apply (proj1 (Reset_on_registers (Sim.start (Sim.filled 0xFF)) 0) Sim.mmio_device).
    by vm_compute.
  - apply (proj1 (proj2 (Reset_on_registers (Sim.start (Sim.filled 0xFF)) 0))
             Sim.pio_device); [reflexivity | by vm_compute].
Defined.

(** X17.  WriteDeviceConfig<T> across the generations.  On its memory-mapped
    path the earlier Device indexes the device configuration as an array of
    T: the write goes to device_config + offset * sizeof(T).  The modern
    backend's DeviceConfigWrite goes to device_cfg_ + offset, in bytes.  The
    two coincide exactly for 8-bit writes and for offset 0.  On the port I/O
    path the earlier Device and the legacy backend both use the byte offset,
    for every width. *)
Theorem WriteDeviceConfig_generations {H : Type} (P : Platform H)
  (d : EarlierDevice.Device H) (bits offset val : Z) (w : World H) :
  register_width bits -> 0 <= offset < 65536 ->
  (forall b : Modern.PciModernBackend H,
      let dc := Modern.device_cfg_ b in
      EarlierDevice.device_config (EarlierDevice.mmio_regs_ d) = dc ->
      0 < dc -> dc + 4 * 65536 <= 2 ^ 64 ->
      (exists w1,
          EarlierRest.WriteDeviceConfig P bits offset val d w = Some (tt, w1)
          /\ added w w1 [EvWrite Mmio bits (dc + offset * (bits / 8)) (wrap bits val)])
      /\ (exists w2,
             Modern.DeviceConfigWrite P bits offset val b w = Some (tt, w2)
             /\ added w w2 [EvWrite Mmio bits (dc + offset) (wrap bits val)])
      /\ (dc + offset * (bits / 8) = dc + offset <-> bits = 8 \/ offset = 0))
  /\ (forall b : Legacy.PciLegacyBackend,
         EarlierDevice.device_config (EarlierDevice.mmio_regs_ d) = 0 ->
         EarlierDevice.bar0_pio_base_ d <> 0 ->
         Legacy.device_cfg_offset_ b
         = u16 (EarlierDevice.bar0_pio_base_ d + VIRTIO_PCI_CONFIG_OFFSET_NOMSI) ->
         EarlierRest.WriteDeviceConfig P bits offset val d w
         = (if bits =? 8 then Legacy.DeviceConfigWrite8 P offset val b
            else if bits =? 16 then Legacy.DeviceConfigWrite16 P offset val b
            else Legacy.DeviceConfigWrite32 P offset val b) w).
Proof.
  intros Hbits Hoffset.
  assert (Hoff : u16 offset = offset) by (apply wrap_small; lia).
  split.
  - intros b dc Hdc Hpos Htop.
    unfold EarlierRest.WriteDeviceConfig, Modern.DeviceConfigWrite, MmioWrite.
    cbv zeta. rewrite Hdc, Hoff. fold dc.
    destruct (Z.eqb_spec dc 0) as [Hnull | _]; [lia |]. cbn [negb].
    rewrite (wrap_small 64) by lia.
    split; [| split].
    + eexists. split; reflexivity.
    + eexists. split; reflexivity.
    + destruct Hbits as [-> | [-> | ->]];
        [change (8 / 8) with 1 | change (16 / 8) with 2 | change (32 / 8) with 4]; lia.
  - intros b Hdc Hpio Hcfg.
    unfold EarlierRest.WriteDeviceConfig, EarlierDevice.WriteConfigBar,
      Legacy.DeviceConfigWrite8, Legacy.DeviceConfigWrite16, Legacy.DeviceConfigWrite32,
      outp, outpw, outpd.
    cbv zeta. rewrite Hdc.
    destruct (Z.eqb_spec (EarlierDevice.bar0_pio_base_ d) 0) as [Hnull | _];
      [contradiction |].
    cbn [Z.eqb negb]. ports Hcfg.
    rewrite (Z.add_comm offset), Z.add_assoc.
    by destruct Hbits as [-> | [-> | ->]].
Qed.

Lemma WriteDeviceConfig_generations_witness :
  ((exists w1,
       EarlierRest.WriteDeviceConfig Sim.platform 32 3 0xAABBCCDD Sim.mmio_device
         (Sim.start (Sim.filled 0)) = Some (tt, w1)
       /\ added (Sim.start (Sim.filled 0)) w1
            [EvWrite Mmio 32 (0x50000200 + 3 * (32 / 8)) (wrap 32 0xAABBCCDD)])
   /\ (exists w2,
          Modern.DeviceConfigWrite Sim.platform 32 3 0xAABBCCDD (Sim.modern_backend 4)
            (Sim.start (Sim.filled 0)) = Some (tt, w2)
          /\ added (Sim.start (Sim.filled 0)) w2
               [EvWrite Mmio 32 (0x50000200 + 3) (wrap 32 0xAABBCCDD)])
   /\ (0x50000200 + 3 * (32 / 8) = 0x50000200 + 3 <-> 32 = 8 \/ 3 = 0))
  /\ EarlierRest.WriteDeviceConfig Sim.platform 32 3 0xAABBCCDD Sim.pio_device
       (Sim.start (Sim.filled 0))
     = Legacy.DeviceConfigWrite32 Sim.platform 3 0xAABBCCDD Sim.legacy_backend
         (Sim.start (Sim.filled 0)).
Proof.
  assert (Hwidth : register_width 32) by (right; by right).
  split.
  - apply (proj1 (WriteDeviceConfig_generations Sim.platform Sim.mmio_device 32 3
                    0xAABBCCDD (Sim.start (Sim.filled 0)) Hwidth ltac:(lia))
             (Sim.modern_backend 4)); [reflexivity | by vm_compute | by vm_compute].
  - apply (proj2 (WriteDeviceConfig_generations Sim.platform Sim.pio_device 32 3
                    0xAABBCCDD (Sim.start (Sim.filled 0)) Hwidth ltac:(lia))
             Sim.legacy_backend); [reflexivity | by vm_compute | reflexivity].
Defined.

Lemma land_shiftr_bit (v k : Z) :
  0 <= k -> negb (Z.land (Z.shiftr v k) 1 =? 0) = Z.testbit v k.
Proof.
  intros Hk. change 1 with (Z.ones 1). rewrite Z.land_ones by lia.
  rewrite Z.shiftr_div_pow2 by lia. change (2 ^ 1) with 2.
  rewrite <- Z.testbit_spec' by lia.
  by destruct (Z.testbit v k).
Qed.

Lemma feature_bit_fits (k : Z) : 0 <= k < 32 -> u32 (Z.shiftl 1 k) = 2 ^ k.
Proof.
  intros Hk. rewrite Z.shiftl_1_l. apply wrap_small. split.
  - apply Z.pow_nonneg. lia.
  - apply Z.pow_lt_mono_r; lia.
Qed.

(** X18.  Feature bits of the earlier Device.  With a common configuration
    block, on registers that hold what was written and for a bit number that
    fits a size_t: IsFeatureSupported writes bit / 32 to
    device_feature_select and returns bit (bit mod 32) of device_feature;
    AcknowledgeFeature writes bit / 32 to driver_feature_select and leaves
    driver_feature with bit (bit mod 32) set and every other bit as it was.
    Without a common configuration block both stop at their assert. *)
Theorem Earlier_feature_bits (d : EarlierDevice.Device Sim.state) (bit : Z)
  (w : World Sim.state) :
  let cc := EarlierDevice.common_config (EarlierDevice.mmio_regs_ d) in
  0 <= bit < 2 ^ 64 ->
  (cc <> 0 ->
   (exists w',
       EarlierRest.IsFeatureSupported Sim.platform bit d w
       = Some (Z.testbit (peek Mmio 32 (cc + EarlierRest.offsetof_device_feature) (hw w))
                 (bit mod 32), w')
       /\ peek Mmio 32 (cc + EarlierRest.offsetof_device_feature_select) (hw w')
          = (bit / 32) mod 2 ^ 32)
   /\ (exists w',
          EarlierRest.AcknowledgeFeature Sim.platform bit d w = Some (tt, w')
          /\ peek Mmio 32 (cc + EarlierRest.offsetof_driver_feature_select) (hw w')
             = (bit / 32) mod 2 ^ 32
          /\ forall n,
               Z.testbit (peek Mmio 32 (cc + EarlierRest.offsetof_driver_feature) (hw w')) n
               = if n =? bit mod 32 then true
                 else Z.testbit
                        (peek Mmio 32 (cc + EarlierRest.offsetof_driver_feature) (hw w)) n))
  /\ (cc = 0 ->
      EarlierRest.IsFeatureSupported Sim.platform bit d w = None
      /\ EarlierRest.AcknowledgeFeature Sim.platform bit d w = None).
Proof.
  intros cc Hbit.
  assert (Hu : u64 bit = bit) by (apply wrap_small; lia).
  pose proof (Z.mod_pos_bound bit 32 ltac:(lia)) as Hk.
  assert (Hwide : register_width 32) by (right; by right).
  split.
  - intros Hcc. split.
    + unfold EarlierRest.IsFeatureSupported. cbv zeta. fold cc.
      destruct (Z.eqb_spec cc 0) as [Hnull | _]; [contradiction |].
      unfold bind, ret. rewrite write_sim, read_sim. cbn [hw trace].
      rewrite Hu, land_shiftr_bit by lia.
      rewrite (peek_write_apart _ _ 32 32).
      * eexists. split; [reflexivity |]. cbn [hw].
        rewrite peek_write_same by exact Hwide. unfold u32. by rewrite !wrap_idem.
      * right. change (Z.of_nat (Sim.bytes_of 32)) with 4.
        unfold EarlierRest.offsetof_device_feature,
          EarlierRest.offsetof_device_feature_select. lia.
    + unfold EarlierRest.AcknowledgeFeature. cbv zeta. fold cc.
      destruct (Z.eqb_spec cc 0) as [Hnull | _]; [contradiction |].
      unfold bind. rewrite write_sim, read_sim, write_sim. cbn [hw trace].
      rewrite Hu, feature_bit_fits by lia.
      assert (Hapart : forall v h,
                 peek Mmio 32 (cc + EarlierRest.offsetof_driver_feature)
                   (Sim.sim_write Mmio 32 (cc + EarlierRest.offsetof_driver_feature_select)
                      v h)
                 = peek Mmio 32 (cc + EarlierRest.offsetof_driver_feature) h).
      { intros v h. apply peek_write_apart. right.
        change (Z.of_nat (Sim.bytes_of 32)) with 4.
        unfold EarlierRest.offsetof_driver_feature,
          EarlierRest.offsetof_driver_feature_select. lia. }
      rewrite Hapart.
      eexists. split; [reflexivity |]. cbn [hw]. split.
      * rewrite (peek_write_apart _ _ 32 32).
        -- rewrite peek_write_same by exact Hwide. unfold u32. by rewrite !wrap_idem.
        -- right. change (Z.of_nat (Sim.bytes_of 32)) with 4.
           unfold EarlierRest.offsetof_driver_feature,
             EarlierRest.offsetof_driver_feature_select. lia.
      * intros n. rewrite peek_write_same by exact Hwide.
        set (old := peek Mmio 32 (cc + EarlierRest.offsetof_driver_feature) (hw w)).
        assert (Hold : 0 <= old < 2 ^ 32) by (apply wrap_range; lia).
        rewrite wrap_idem, lor_fits; [| lia | exact Hold |].
        -- rewrite Z.lor_spec. destruct (Z.eqb_spec n (bit mod 32)) as [-> | Hother].
           ++ rewrite Z.pow2_bits_true by lia. apply orb_true_r.
           ++ destruct (Z.le_gt_cases 0 n) as [Hn | Hn].
              ** rewrite (Z.pow2_bits_false (bit mod 32) n) by lia. apply orb_false_r.
              ** by rewrite !Z.testbit_neg_r by lia.
        -- split; [apply Z.pow_nonneg; lia | apply Z.pow_lt_mono_r; lia].
  - intros Hcc. unfold EarlierRest.IsFeatureSupported, EarlierRest.AcknowledgeFeature.
    cbv zeta. fold cc. by rewrite Hcc.
Qed.

Lemma Earlier_feature_bits_witness :
  0 <= 37 < 2 ^ 64
  /\ (exists w',
         EarlierRest.IsFeatureSupported Sim.platform 37 Sim.mmio_device
           (Sim.start (Sim.filled 0x20))
         = Some (Z.testbit
                   (peek Mmio 32 (0x50000000 + EarlierRest.offsetof_device_feature)
                      (hw (Sim.start (Sim.filled 0x20)))) (37 mod 32), w')
         /\ peek Mmio 32 (0x50000000 + EarlierRest.offsetof_device_feature_select) (hw w')
            = (37 / 32) mod 2 ^ 32)
  /\ EarlierRest.AcknowledgeFeature Sim.platform 37 Sim.pio_device
       (Sim.start (Sim.filled 0x20)) = None.
Proof.
  split; [lia |]. split.
  - apply (proj1 (proj1 (Earlier_feature_bits Sim.mmio_device 37
                           (Sim.start (Sim.filled 0x20)) ltac:(lia))
                    ltac:(by vm_compute))).
  - apply (proj2 (proj2 (Earlier_feature_bits Sim.pio_device 37
                           (Sim.start (Sim.filled 0x20)) ltac:(lia))
                    ltac:(reflexivity))).
Defined.

(* ------------------------------------------------------------------ *)
(** ** Binding a backend *)

Ltac not_among Hin :=
  repeat (apply elem_of_cons in Hin as [Hin | Hin];
          [first [discriminate Hin | injection Hin; congruence] |]);
  by apply elem_of_nil in Hin.

(** X19.  PciBackend::Bind, in terms of what the bus answers during the
    run: bus mastering on the machine as Bind finds it, MSI mode on the
    machine after that, line-interrupt mode after a refused MSI, and the
    interrupt mapping after the mode was set.  Bind reaches the backend's
    Init exactly when bus mastering succeeded, one of the two interrupt modes
    was accepted and the interrupt was mapped; Init is then its last call,
    runs on the machine the mapping left, gives Bind its status, and
    irq_handle_ holds the mapped handle.  Bind returns ZX_OK only as the
    status of Init.  When both interrupt modes are refused Bind returns -1
    without mapping the interrupt or calling Init.  When it stops before
    Init the status is not ZX_OK, the backend is as it was and irq_handle_
    holds no handle.  Line interrupts are asked for only after this run's
    MSI request was refused. *)
Theorem Bind_returns_ok_only_through_Init {H B : Type}
  (ZX_PCIE_IRQ_MODE_MSI ZX_PCIE_IRQ_MODE_LEGACY : Z) (bus : PciBind.pci_bind_ops H)
  (Init : B -> World H -> option (Z * B * World H))
  (backend : B) (w : World H) (r : PciBind.bound B) (w' : World H) :
  PciBind.Bind ZX_PCIE_IRQ_MODE_MSI ZX_PCIE_IRQ_MODE_LEGACY bus Init backend w
  = Some (r, w') ->
  let master := PciBind.ops_enable_bus_master bus true (hw w) in
  let msi := PciBind.ops_set_irq_mode bus ZX_PCIE_IRQ_MODE_MSI 1 (snd master) in
  let legacy := PciBind.ops_set_irq_mode bus ZX_PCIE_IRQ_MODE_LEGACY 1 (snd msi) in
  let irq := PciBind.ops_map_interrupt bus 0
               (if fst msi =? 0 then snd msi else snd legacy) in
  let calls := PciBind.bind_calls r in
  head calls = Some (PciBind.CallEnableBusMaster true)
  /\ (last calls = Some PciBind.CallInit
      <-> fst master = ZX_OK /\ (fst msi = 0 \/ fst legacy = 0)
          /\ fst (fst irq) = ZX_OK)
  /\ (last calls = Some PciBind.CallInit ->
      Init backend (mkWorld (snd irq) (trace w))
      = Some (PciBind.bind_status r, PciBind.bound_backend r, w')
      /\ PciBind.irq_handle_ r = snd (fst irq))
  /\ (PciBind.bind_status r = ZX_OK -> last calls = Some PciBind.CallInit)
  /\ (fst master = ZX_OK -> fst msi <> 0 -> fst legacy <> 0 ->
      PciBind.bind_status r = -1
      /\ calls = [PciBind.CallEnableBusMaster true;
                  PciBind.CallSetIrqMode ZX_PCIE_IRQ_MODE_MSI 1;
                  PciBind.CallSetIrqMode ZX_PCIE_IRQ_MODE_LEGACY 1])
  /\ (last calls <> Some PciBind.CallInit ->
      PciBind.bind_status r <> ZX_OK
      /\ PciBind.bound_backend r = backend
      /\ PciBind.irq_handle_ r = ZX_HANDLE_INVALID
      /\ trace w' = trace w)
  /\ (PciBind.CallSetIrqMode ZX_PCIE_IRQ_MODE_LEGACY 1 ∈ calls ->
      ZX_PCIE_IRQ_MODE_LEGACY <> ZX_PCIE_IRQ_MODE_MSI ->
      fst master = ZX_OK /\ fst msi <> 0).
Proof.
  unfold PciBind.Bind. intros HB. cbv zeta.
  destruct (PciBind.ops_enable_bus_master bus true (hw w)) as [r0 h1].
  cbn [fst snd].
  destruct (Z.eqb_spec r0 ZX_OK) as [Hr0 | Hr0]; cbn [negb] in HB.
  2: { injection HB as <- <-. cbn [PciBind.bind_calls PciBind.bind_status
                                 PciBind.bound_backend PciBind.irq_handle_ trace].
       split; [reflexivity |]. split; [split; [discriminate | tauto] |].
       split; [discriminate |]. split; [intros Hok; contradiction |].
       split; [tauto |]. split; [by repeat split |].
       intros Hin Hne. not_among Hin. }
  destruct (PciBind.ops_set_irq_mode bus ZX_PCIE_IRQ_MODE_MSI 1 h1) as [msi h2].
  cbn [fst snd].
  destruct (Z.eqb_spec msi 0) as [Hmsi0 | Hmsi0]; cbn [negb] in HB.
  - cbn [Z.eqb negb] in HB.
    destruct (PciBind.ops_map_interrupt bus 0 h2) as [[rc handle] h4].
    cbn [fst snd] in HB |- *.
    destruct (Z.eqb_spec rc ZX_OK) as [Hrc | Hrc]; cbn [negb] in HB.
    + destruct (Init backend _) as [[[status backend'] w2] |] eqn:HInit; [| discriminate].
      injection HB as <- <-.
      cbn [PciBind.bind_calls PciBind.bind_status PciBind.bound_backend
             PciBind.irq_handle_ trace app].
      split; [reflexivity |]. split; [split; [tauto | reflexivity] |].
      split; [by split |]. split; [reflexivity |].
      split; [intros _ Hne; contradiction |]. split; [intros Hlast; by destruct Hlast |].
      intros Hin Hne. not_among Hin.
    + injection HB as <- <-.
      cbn [PciBind.bind_calls PciBind.bind_status PciBind.bound_backend
             PciBind.irq_handle_ trace app].
      split; [reflexivity |]. split; [split; [discriminate | tauto] |].
      split; [discriminate |]. split; [intros Hok; contradiction |].
      split; [intros _ Hne; contradiction |]. split; [by repeat split |].
      intros Hin Hne. not_among Hin.
  - destruct (PciBind.ops_set_irq_mode bus ZX_PCIE_IRQ_MODE_LEGACY 1 h2) as [l h3].
    cbn [fst snd].
    destruct (Z.eqb_spec l 0) as [Hl | Hl]; cbn [negb] in HB.
    + destruct (PciBind.ops_map_interrupt bus 0 h3) as [[rc handle] h4].
      cbn [fst snd] in HB |- *.
      destruct (Z.eqb_spec rc ZX_OK) as [Hrc | Hrc]; cbn [negb] in HB.
      * destruct (Init backend _) as [[[status backend'] w2] |] eqn:HInit; [| discriminate].
        injection HB as <- <-.
        cbn [PciBind.bind_calls PciBind.bind_status PciBind.bound_backend
               PciBind.irq_handle_ trace app].
        split; [reflexivity |]. split; [split; [tauto | reflexivity] |].
        split; [by split |]. split; [reflexivity |].
        split; [intros _ _ Hne; contradiction |].
        split; [intros Hlast; by destruct Hlast |].
        by intros _ _.
      * injection HB as <- <-.
        cbn [PciBind.bind_calls PciBind.bind_status PciBind.bound_backend
               PciBind.irq_handle_ trace app].
        split; [reflexivity |]. split; [split; [discriminate | tauto] |].
        split; [discriminate |]. split; [intros Hok; contradiction |].
        split; [intros _ _ Hne; contradiction |]. split; [by repeat split |].
        by intros _ _.
    + injection HB as <- <-.
      cbn [PciBind.bind_calls PciBind.bind_status PciBind.bound_backend
             PciBind.irq_handle_ trace app].
      split; [reflexivity |]. split; [split; [discriminate | tauto] |].
      split; [discriminate |]. split; [discriminate |].
      split; [by intros _ _ _ |]. split; [by repeat split |].
      by intros _ _.
Qed.

Lemma Bind_returns_ok_only_through_Init_witness :
  match PciBind.Bind 2 1 (Bench.bind_bus (-2) 0 0x1C000)
          (fun b w => Some (PciBind.LegacyInit 1 (Bench.bind_bus (-2) 0 0x1C000) b w))
          (Legacy.mkBackend 0 0) (Sim.start (Sim.filled 0)) with
  | Some (r, w') =>
      last (PciBind.bind_calls r) = Some PciBind.CallInit
      /\ Some (PciBind.LegacyInit 1 (Bench.bind_bus (-2) 0 0x1C000) (Legacy.mkBackend 0 0)
                 (Sim.start (Sim.filled 0)))
         = Some (PciBind.bind_status r, PciBind.bound_backend r, w')
      /\ PciBind.irq_handle_ r = 0x77
  | None => False
  end
  /\ match PciBind.Bind 2 1 (Bench.bind_bus (-2) (-3) 0x1C000)
             (fun b w => Some (PciBind.LegacyInit 1 (Bench.bind_bus (-2) (-3) 0x1C000) b w))
             (Legacy.mkBackend 0 0) (Sim.start (Sim.filled 0)) with
     | Some (r, w') =>
         PciBind.bind_status r = -1
         /\ PciBind.bind_calls r
            = [PciBind.CallEnableBusMaster true; PciBind.CallSetIrqMode 2 1;
               PciBind.CallSetIrqMode 1 1]
     | None => False
     end.
Proof.
  split.
  - destruct (PciBind.Bind 2 1 (Bench.bind_bus (-2) 0 0x1C000)
                (fun b w => Some (PciBind.LegacyInit 1 (Bench.bind_bus (-2) 0 0x1C000) b w))
                (Legacy.mkBackend 0 0) (Sim.start (Sim.filled 0)))
      as [[r w'] |] eqn:HB; [| vm_compute in HB; discriminate HB].
    destruct (Bind_returns_ok_only_through_Init 2 1 _ _ _ _ _ _ HB)
      as (_ & Hreached & Hinit & _).
    assert (Hlast : last (PciBind.bind_calls r) = Some PciBind.CallInit).
    { apply Hreached. split; [reflexivity |]. split; [by right | reflexivity]. }
    split; [exact Hlast |]. exact (Hinit Hlast).
  - destruct (PciBind.Bind 2 1 (Bench.bind_bus (-2) (-3) 0x1C000)
                (fun b w =>
                   Some (PciBind.LegacyInit 1 (Bench.bind_bus (-2) (-3) 0x1C000) b w))
                (Legacy.mkBackend 0 0) (Sim.start (Sim.filled 0)))
      as [[r w'] |] eqn:HB; [| vm_compute in HB; discriminate HB].
    destruct (Bind_returns_ok_only_through_Init 2 1 _ _ _ _ _ _ HB)
      as (_ & _ & _ & _ & Hrefused & _).
    apply Hrefused; [reflexivity | by vm_compute | by vm_compute].
Defined.

(** X20.  PciLegacyBackend::Init returns ZX_OK exactly when BAR 0 could be
    queried and is a port I/O window.  It then holds the window's address
    cut to 16 bits as bar0_base_, and the device configuration is reached at
    port (pio_addr + 20 + offset) mod 2^16.  On either failure the status is
    not ZX_OK and the backend is as it was.  Init touches no register. *)
Theorem LegacyInit_result {H : Type} (PCI_RESOURCE_TYPE_PIO : Z)
  (bus : PciBind.pci_bind_ops H) (b : Legacy.PciLegacyBackend) (w : World H) :
  let query := fst (PciBind.ops_get_resource bus PCI_RESOURCE_BAR_0 (hw w)) in
  let status := fst (fst (PciBind.LegacyInit PCI_RESOURCE_TYPE_PIO bus b w)) in
  let b' := snd (fst (PciBind.LegacyInit PCI_RESOURCE_TYPE_PIO bus b w)) in
  let w' := snd (PciBind.LegacyInit PCI_RESOURCE_TYPE_PIO bus b w) in
  (status = ZX_OK
   <-> fst query = ZX_OK /\ PciBind.res_type (snd query) = PCI_RESOURCE_TYPE_PIO)
  /\ (status = ZX_OK ->
      Legacy.bar0_base_ b' = PciBind.pio_addr (snd query) mod 65536
      /\ forall (P : Platform H) (offset : Z) (w2 : World H),
           Legacy.DeviceConfigRead8 P offset b' w2
           = inp P (PciBind.pio_addr (snd query) + VIRTIO_PCI_CONFIG_OFFSET_NOMSIX + offset)
               w2)
  /\ (status <> ZX_OK -> b' = b)
  /\ trace w' = trace w.
Proof.
  cbv zeta. unfold PciBind.LegacyInit.
  destruct (PciBind.ops_get_resource bus PCI_RESOURCE_BAR_0 (hw w)) as [[rc res] h1].
  cbn [fst snd].
  destruct (Z.eqb_spec rc ZX_OK) as [Hrc | Hrc]; cbn [negb fst snd].
  - destruct (Z.eqb_spec (PciBind.res_type res) PCI_RESOURCE_TYPE_PIO) as [Hty | Hty];
      cbn [negb fst snd Legacy.bar0_base_].
    + split; [tauto |]. split; [| split; [tauto | reflexivity]].
      intros _. rewrite land_ffff, u16_idem. split; [reflexivity |].
      intros P offset w2. unfold Legacy.DeviceConfigRead8, inp.
      cbn [Legacy.device_cfg_offset_].
      by rewrite !u16_idem, u16_add_r, u16_add_l, <- Z.add_assoc, u16_add_l, Z.add_assoc.
    + split; [| split; [| split; [reflexivity | reflexivity]]].
      * split; [discriminate | tauto].
      * discriminate.
  - split; [tauto |]. split; [tauto |]. split; reflexivity.
Qed.

Lemma LegacyInit_result_witness :
  Legacy.bar0_base_
    (snd (fst (PciBind.LegacyInit 1 (Bench.bind_bus (-2) 0 0x1C000) (Legacy.mkBackend 0 0)
                 (Sim.start (Sim.filled 0)))))
  = 0x1C000 mod 65536
  /\ forall (P : Platform Sim.state) (offset : Z) (w2 : World Sim.state),
       Legacy.DeviceConfigRead8 P offset
         (snd (fst (PciBind.LegacyInit 1 (Bench.bind_bus (-2) 0 0x1C000)
                      (Legacy.mkBackend 0 0) (Sim.start (Sim.filled 0))))) w2
       = inp P (0x1C000 + VIRTIO_PCI_CONFIG_OFFSET_NOMSIX + offset) w2.
Proof.
  apply (proj1 (proj2 (LegacyInit_result 1 (Bench.bind_bus (-2) 0 0x1C000)
                         (Legacy.mkBackend 0 0) (Sim.start (Sim.filled 0))))).
  reflexivity.
Defined.

(* ------------------------------------------------------------------ *)
(** ** The PL061 GPIO driver *)

Lemma bit_of_power (pin : Z) : Pl061.bit_of pin = 2 ^ (pin mod 8).
Proof.
  unfold Pl061.bit_of, Pl061.GPIOS_PER_PAGE.
  pose proof (Z.mod_pos_bound pin 8 ltac:(lia)) as Hk.
  rewrite Z.shiftl_1_l. apply wrap_small. split.
  - apply Z.pow_nonneg. lia.
  - apply Z.pow_lt_mono_r; lia.
Qed.

Lemma testbit_wrap8 (x n : Z) :
  Z.testbit (wrap 8 x) n = (n <? 8) && Z.testbit x n.
Proof.
  destruct (Z.le_gt_cases 0 n) as [Hn | Hn].
  - unfold wrap. rewrite Z.testbit_mod_pow2 by lia. reflexivity.
  - rewrite !Z.testbit_neg_r by lia. apply eq_sym, andb_false_r.
Qed.

(** A read-modify-write of one bit of an 8-bit register: bit [k] becomes
    [on], every other bit stays. *)
Lemma set_or_clear_bit (old k : Z) (on : bool) (n : Z) :
  0 <= k < 8 ->
  Z.testbit (wrap 8 (if on then Z.lor (wrap 8 old) (2 ^ k)
                     else Z.land (wrap 8 old) (Z.lnot (2 ^ k)))) n
  = if n =? k then on else Z.testbit (wrap 8 old) n.
Proof.
  intros Hk. rewrite testbit_wrap8.
  destruct (Z.le_gt_cases 0 n) as [Hn | Hn].
  2: { rewrite !Z.testbit_neg_r by lia.
       destruct (Z.eqb_spec n k); [lia | apply andb_false_r]. }
  assert (Hbit : Z.testbit (2 ^ k) n = (n =? k)).
  { destruct (Z.eqb_spec n k) as [-> | Hother].
    - apply Z.pow2_bits_true. lia.
    - apply Z.pow2_bits_false. lia. }
  destruct on.
  - rewrite Z.lor_spec, Hbit, testbit_wrap8.
    destruct (Z.ltb_spec n 8); destruct (Z.eqb_spec n k); try lia;
      by rewrite ?orb_true_r, ?orb_false_r, ?andb_true_l, ?andb_false_l.
  - rewrite Z.land_spec, Z.lnot_spec, Hbit, testbit_wrap8 by lia.
    destruct (Z.ltb_spec n 8); destruct (Z.eqb_spec n k); try lia;
      by rewrite ?andb_true_r, ?andb_false_r, ?andb_true_l, ?andb_false_l.
Qed.

Lemma peek8_wrapped (sp : space) (addr : Z) (h : Sim.state) :
  wrap 8 (peek sp 8 addr h) = peek sp 8 addr h.
Proof. apply wrap_idem. Qed.

(** X21.  On registers that hold what was written, pl061_gpio_write followed
    by pl061_gpio_read of the same pin returns ZX_OK and 1 when the value
    written was not 0, 0 when it was: both address the data register through
    the pin's own mask, and the read tests only the pin's bit. *)
Theorem pl061_write_then_read (gpios : Pl061.pl061_gpios_t) (pin value : Z)
  (w : World Sim.state) :
  exists w',
    (Pl061.pl061_gpio_write Sim.platform gpios pin value ;;;
     Pl061.pl061_gpio_read Sim.platform gpios pin) w
    = Some ((ZX_OK, if u32 value =? 0 then 0 else 1), w').
Proof.
  unfold Pl061.pl061_gpio_write, Pl061.pl061_gpio_read, Pl061.writeb, Pl061.readb.
  cbv zeta. unfold bind, ret. rewrite write_sim. cbn [hw trace].
  rewrite read_sim. cbn [hw trace].
  rewrite peek_write_same by by left.
  set (bit := Pl061.bit_of (Pl061.local_pin gpios pin)).
  assert (Hbit : wrap 8 bit = bit) by apply wrap_idem.
  assert (Hpos : 0 < bit).
  { unfold bit. rewrite bit_of_power. apply Z.pow_pos_nonneg; [lia |].
    apply Z.mod_pos_bound. lia. }
  eexists. f_equal. f_equal. f_equal.
  destruct (u32 value =? 0).
  - reflexivity.
  - rewrite wrap_idem, Hbit, Z.land_diag.
    destruct (Z.eqb_spec bit 0); [lia | reflexivity].
Qed.

(** X22.  On registers that hold what was written,
    pl061_gpio_int_enable_locked changes one bit of the interrupt mask
    register GPIOIE: bit (pin mod 8) is set when enabling and cleared when
    disabling, and every other bit is as it was. *)
Theorem pl061_int_enable_changes_one_bit (regs pin : Z) (enable : bool)
  (w : World Sim.state) :
  exists w',
    Pl061.pl061_gpio_int_enable_locked Sim.platform regs pin enable w = Some (tt, w')
    /\ forall n,
         Z.testbit (peek Mmio 8 (regs + Pl061.GPIOIE) (hw w')) n
         = if n =? pin mod 8 then enable
           else Z.testbit (peek Mmio 8 (regs + Pl061.GPIOIE) (hw w)) n.
Proof.
  unfold Pl061.pl061_gpio_int_enable_locked, Pl061.writeb, Pl061.readb.
  cbv zeta. unfold bind. rewrite read_sim, write_sim. cbn [hw trace].
  eexists. split; [reflexivity |]. cbn [hw]. intros n.
  rewrite peek_write_same by by left.
  rewrite wrap_idem, bit_of_power, <- (peek8_wrapped Mmio (regs + Pl061.GPIOIE) (hw w)).
  apply set_or_clear_bit. apply Z.mod_pos_bound. lia.
Qed.

Ltac gpio_peeks :=
  repeat first
    [ rewrite peek_write_same by (by left)
    | rewrite peek_write_apart
        by (right; change (Z.of_nat (Sim.bytes_of 8)) with 1;
            unfold Pl061.GPIODIR, Pl061.GPIOIS, Pl061.GPIOIBE, Pl061.GPIOIEV; lia) ].

(** X23.  On registers that hold what was written, pl061_gpio_config returns
    ZX_OK and changes, in each of the direction, interrupt-sense, both-edges
    and interrupt-event registers, only the pin's bit: direction is set
    exactly for an output, sense exactly for a level trigger, both-edges
    exactly for an edge trigger on rising and falling, event exactly for an
    edge trigger on rising alone.  So the pin's both-edges and event bits are
    never set together. *)
Theorem pl061_config_changes_the_pin_bits (F : Pl061.gpio_flags)
  (gpios : Pl061.pl061_gpios_t) (pin flags : Z) (w : World Sim.state) :
  let regs := Pl061.regs_of gpios (Pl061.local_pin gpios pin) in
  let k := Pl061.local_pin gpios pin mod 8 in
  let edge := Z.land flags (Pl061.GPIO_TRIGGER_MASK F) =? Pl061.GPIO_TRIGGER_EDGE F in
  let rising := negb (Z.land flags (Pl061.GPIO_TRIGGER_RISING F) =? 0) in
  let falling := negb (Z.land flags (Pl061.GPIO_TRIGGER_FALLING F) =? 0) in
  let changed (reg : Z) (on : bool) (w' : World Sim.state) :=
    forall n, Z.testbit (peek Mmio 8 (regs + reg) (hw w')) n
              = if n =? k then on else Z.testbit (peek Mmio 8 (regs + reg) (hw w)) n in
  exists w',
    Pl061.pl061_gpio_config Sim.platform F gpios pin flags w = Some (ZX_OK, w')
    /\ changed Pl061.GPIODIR
         (Z.land flags (Pl061.GPIO_DIR_MASK F) =? Pl061.GPIO_DIR_OUT F) w'
    /\ changed Pl061.GPIOIS
         (Z.land flags (Pl061.GPIO_TRIGGER_MASK F) =? Pl061.GPIO_TRIGGER_LEVEL F) w'
    /\ changed Pl061.GPIOIBE (edge && rising && falling) w'
    /\ changed Pl061.GPIOIEV (edge && rising && negb falling) w'
    /\ Z.testbit (peek Mmio 8 (regs + Pl061.GPIOIBE) (hw w')) k
       && Z.testbit (peek Mmio 8 (regs + Pl061.GPIOIEV) (hw w')) k = false.
Proof.
  intros regs k edge rising falling changed.
  assert (Hk : 0 <= k < 8) by (apply Z.mod_pos_bound; lia).
  unfold Pl061.pl061_gpio_config, Pl061.writeb, Pl061.readb. cbv zeta.
  fold regs edge rising falling. unfold bind, ret.
  rewrite read_sim, write_sim. cbn [hw trace].
  rewrite read_sim, write_sim. cbn [hw trace].
  rewrite read_sim. cbn [hw trace]. rewrite read_sim, write_sim. cbn [hw trace].
  rewrite write_sim. cbn [hw trace].
  rewrite bit_of_power. fold k.
  eexists. split; [reflexivity |]. cbn [hw]. gpio_peeks.
  assert (Hone : forall (reg : Z) (on : bool) (n : Z),
             Z.testbit (wrap 8 (wrap 8 (if on then Z.lor (peek Mmio 8 (regs + reg) (hw w))
                                                         (2 ^ k)
                                        else Z.land (peek Mmio 8 (regs + reg) (hw w))
                                                    (Z.lnot (2 ^ k))))) n
             = if n =? k then on else Z.testbit (peek Mmio 8 (regs + reg) (hw w)) n).
  { intros reg on n.
    rewrite wrap_idem, <- (peek8_wrapped Mmio (regs + reg) (hw w)).
    by apply set_or_clear_bit. }
  subst changed. cbn beta. cbn [hw].
  split; [| split; [| split; [| split]]].
  - intros n. gpio_peeks. apply Hone.
  - intros n. gpio_peeks. apply Hone.
  - intros n. gpio_peeks. apply Hone.
  - intros n. gpio_peeks. apply Hone.
  - gpio_peeks. rewrite !Hone, Z.eqb_refl.
    by destruct edge, rising, falling.
Qed.

(* ------------------------------------------------------------------ *)
(** ** The later Device: the interrupt loop as a whole *)

Section IrqLoop.
Context {H B : Type} (ops : Backend H B).
Hypothesis IsrStatus_reads_once :
  forall (b : B) (w : World H),
    exists v w' e, backend_IsrStatus b w = Some (v, w')
                   /\ trace w' = trace w ++ [e] /\ is_read e = true.

Lemma IrqWorker_iteration_events (wait_rc complete_rc : Z) (b : B) (w : World H) :
  exists w' evs,
    Device.IrqWorker_iteration ops wait_rc complete_rc b w = Some (tt, w')
    /\ added w w' evs
    /\ Forall (fun e => is_write e = false) evs
    /\ (count_event is_callback evs <= 2)%nat
    /\ (count_event is_read evs <= 1)%nat.
Proof.
  unfold Device.IrqWorker_iteration, Device.IsrStatus, bind, emit, ret, added.
  destruct (negb (wait_rc =? ZX_OK)).
  { eexists _, [_]. split; [reflexivity |]. split; [reflexivity |].
    split; [by repeat constructor |]. split; vm_compute; lia. }
  destruct (IsrStatus_reads_once b (mkWorld (hw w) (trace w ++ [EvInterruptWait])))
    as (v & w1 & e & -> & Htrace & Hread).
  cbn [trace hw] in Htrace |- *.
  destruct e; try discriminate Hread.
  destruct (negb (complete_rc =? ZX_OK)).
  { eexists _, [_; _; _]. split; [reflexivity |]. cbn [trace]. rewrite Htrace.
    split; [by rewrite <- !app_assoc |].
    split; [by repeat constructor |]. split; vm_compute; lia. }
  destruct (v =? 0).
  { eexists _, [_; _; _]. split; [reflexivity |]. cbn [trace]. rewrite Htrace.
    split; [by rewrite <- !app_assoc |].
    split; [by repeat constructor |]. split; vm_compute; lia. }
  destruct (negb (Z.land v VIRTIO_ISR_QUEUE_INT =? 0));
    destruct (negb (Z.land v VIRTIO_ISR_DEV_CFG_INT =? 0)).
  - eexists _, [_; _; _; _; _]. split; [reflexivity |]. cbn [trace]. rewrite Htrace.
    split; [by rewrite <- !app_assoc |].
    split; [by repeat constructor |]. split; vm_compute; lia.
  - eexists _, [_; _; _; _]. split; [reflexivity |]. cbn [trace]. rewrite Htrace.
    split; [by rewrite <- !app_assoc |].
    split; [by repeat constructor |]. split; vm_compute; lia.
  - eexists _, [_; _; _; _]. split; [reflexivity |]. cbn [trace]. rewrite Htrace.
    split; [by rewrite <- !app_assoc |].
    split; [by repeat constructor |]. split; vm_compute; lia.
  - eexists _, [_; _; _]. split; [reflexivity |]. cbn [trace]. rewrite Htrace.
    split; [by rewrite <- !app_assoc |].
    split; [by repeat constructor |]. split; vm_compute; lia.
Qed.

Lemma count_event_app (p : event -> bool) (evs evs' : list event) :
  count_event p (evs ++ evs') = (count_event p evs + count_event p evs')%nat.
Proof. unfold count_event. by rewrite filter_app, length_app. Qed.

Lemma IrqWorker_events (script : list (Z * Z)) (b : B) :
  forall w : World H,
    exists w' evs,
      Device.IrqWorker ops script b w = Some (tt, w')
      /\ added w w' evs
      /\ Forall (fun e => is_write e = false) evs
      /\ (count_event is_callback evs <= 2 * length script)%nat
      /\ (count_event is_read evs <= length script)%nat.
Proof.
  induction script as [| [wait_rc complete_rc] script IH]; intros w.
  - exists w, []. split; [reflexivity |]. split; [unfold added; by rewrite app_nil_r |].
    split; [constructor |]. split; cbn; lia.
  - destruct (IrqWorker_iteration_events wait_rc complete_rc b w)
      as (w1 & evs1 & Hrun1 & Hadd1 & Hw1 & Hc1 & Hr1).
    destruct (IH w1) as (w2 & evs2 & Hrun2 & Hadd2 & Hw2 & Hc2 & Hr2).
    exists w2, (evs1 ++ evs2).
    cbn [Device.IrqWorker]. unfold bind. rewrite Hrun1.
    split; [exact Hrun2 |].
    split; [unfold added in *; by rewrite Hadd2, Hadd1, app_assoc |].
    split; [by apply Forall_app |].
    rewrite !count_event_app. cbn [length]. split; lia.
Qed.
End IrqLoop.

(** X24.  The later Device's interrupt loop over either PCI backend: for
    every sequence of answers of the kernel's wait and complete calls it runs
    through all passes, writes no register, reads at most one register per
    pass, and makes at most two callbacks per pass. *)
Theorem IrqWorker_never_writes {H : Type} (P : Platform H) (script : list (Z * Z))
  (w : World H) :
  (forall b : Modern.PciModernBackend H,
      exists w' evs,
        Device.IrqWorker (PciModern_Backend P) script b w = Some (tt, w')
        /\ added w w' evs
        /\ Forall (fun e => is_write e = false) evs
        /\ (count_event is_callback evs <= 2 * length script)%nat
        /\ (count_event is_read evs <= length script)%nat)
  /\ (forall b : Legacy.PciLegacyBackend,
         exists w' evs,
           Device.IrqWorker (PciLegacy_Backend P) script b w = Some (tt, w')
           /\ added w w' evs
           /\ Forall (fun e => is_write e = false) evs
           /\ (count_event is_callback evs <= 2 * length script)%nat
           /\ (count_event is_read evs <= length script)%nat).
Proof.
  split; intros b; apply IrqWorker_events; clear; intros b w.
  - cbn [backend_IsrStatus PciModern_Backend]. unfold Modern.IsrStatus, bind, ret, read.
    destruct (hw_read P Mmio 32 (Modern.isr_status_ b) (hw w)) as [raw h1].
    eexists _, _, _. split; [reflexivity |]. split; reflexivity.
  - cbn [backend_IsrStatus PciLegacy_Backend]. unfold Legacy.IsrStatus, inp, read.
    destruct (hw_read P Pio 8 _ (hw w)) as [raw h1].
    eexists _, _, _. split; [reflexivity |]. split; reflexivity.
Qed.

(* ------------------------------------------------------------------ *)
(** ** PciModernBackend::Init: one capability record *)

Ltac by_config_type type :=
  destruct (Z.eqb_spec type VIRTIO_PCI_CAP_COMMON_CFG),
    (Z.eqb_spec type VIRTIO_PCI_CAP_NOTIFY_CFG),
    (Z.eqb_spec type VIRTIO_PCI_CAP_ISR_CFG),
    (Z.eqb_spec type VIRTIO_PCI_CAP_DEVICE_CFG),
    (Z.eqb_spec type VIRTIO_PCI_CAP_PCI_CFG);
  try (exfalso;
       unfold VIRTIO_PCI_CAP_COMMON_CFG, VIRTIO_PCI_CAP_NOTIFY_CFG, VIRTIO_PCI_CAP_ISR_CFG,
         VIRTIO_PCI_CAP_DEVICE_CFG, VIRTIO_PCI_CAP_PCI_CFG in *; lia).

(** X25.  One pass of Init's loop over a capability record.  When the
    record's BAR is already mapped, the pass calls nothing on the bus, leaves
    bar_ alone and stores bar base + offset (as a uintptr_t) in exactly the
    address that the record's configuration type selects: none for the PCI
    configuration type and for unknown types.  When the record names a BAR
    beyond the sixth, no address changes.  In both cases a notification
    record overwrites notify_off_mul_ with the word that follows it, also
    when its BAR is refused. *)
Theorem Init_body_on_one_record {H : Type} (off : Z) (b : Modern.PciModernBackend H)
  (w : World H) :
  let cap := ReadVirtioCap (Modern.pci_ b) off in
  let type := cfg_type cap in
  let a := u64 (mmio_base (Modern.bar_at b (cap_bar cap)) + cap_offset cap) in
  let multiplier :=
    if type =? VIRTIO_PCI_CAP_NOTIFY_CFG
    then pci_config_read32 (Modern.pci_ b) (u8 (off + sizeof_virtio_pci_cap_t))
    else Modern.notify_off_mul_ b in
  (cap_bar cap < 6 -> mmio_handle (Modern.bar_at b (cap_bar cap)) <> ZX_HANDLE_INVALID ->
   exists b',
     Modern.Init_body off b w = Some (b', w)
     /\ Modern.bar_ b' = Modern.bar_ b
     /\ addresses b'
        = (if type =? VIRTIO_PCI_CAP_COMMON_CFG then a else Modern.common_cfg_ b,
           if type =? VIRTIO_PCI_CAP_ISR_CFG then a else Modern.isr_status_ b,
           if type =? VIRTIO_PCI_CAP_DEVICE_CFG then a else Modern.device_cfg_ b,
           if type =? VIRTIO_PCI_CAP_NOTIFY_CFG then a else Modern.notify_base_ b)
     /\ Modern.notify_off_mul_ b' = multiplier)
  /\ (6 <= cap_bar cap ->
      exists b',
        Modern.Init_body off b w = Some (b', w)
        /\ Modern.bar_ b' = Modern.bar_ b
        /\ addresses b' = addresses b
        /\ Modern.notify_off_mul_ b' = multiplier).
Proof.
  intros cap type a multiplier. subst type a multiplier.
  unfold Modern.Init_body, Modern.CommonCfgCallback, Modern.NotifyCfgCallback,
    Modern.IsrCfgCallback, Modern.DeviceCfgCallback, Modern.PciCfgCallback,
    Modern.MapBar, Modern.cap_address, Modern.bar_at, Modern.countof_bar_, addresses, bind.
  cbv zeta. fold cap.
  cbn [Modern.bar_ Modern.set_notify_off_mul].
  split.
  - intros Hbar Hmapped.
    destruct (Z.leb_spec 6 (cap_bar cap)) as [Hout | _]; [lia |].
    destruct (Z.eqb_spec (mmio_handle (Modern.bar_ b !!! Z.to_nat (cap_bar cap)))
                ZX_HANDLE_INVALID) as [Hnot | _]; [contradiction |].
    cbn [negb ret fst snd Z.eqb].
    by_config_type (cfg_type cap); cbn [negb ret fst snd];
      eexists; (split; [reflexivity |]); by cbn.
  - intros Hbar.
    destruct (Z.leb_spec 6 (cap_bar cap)) as [_ | Hin]; [| lia].
    cbn [negb ret fst snd Z.eqb].
    by_config_type (cfg_type cap); cbn [negb ret fst snd];
      eexists; (split; [reflexivity |]); by cbn.
Qed.

Lemma Init_body_on_one_record_witness :
  exists b',
    Modern.Init_body 0x70
      (Modern.mkBackend (Sim.pci Sim.modern_cfg)
         [Sim.unmapped; Sim.unmapped; Sim.unmapped; Sim.unmapped;
          mkBar 0x50000000 0x100; Sim.unmapped] 0 0 0 0 9)
      (Sim.start (Sim.filled 0))
    = Some (b', Sim.start (Sim.filled 0))
    /\ Modern.bar_ b'
       = [Sim.unmapped; Sim.unmapped; Sim.unmapped; Sim.unmapped;
          mkBar 0x50000000 0x100; Sim.unmapped]
    /\ addresses b' = (0, 0, 0, 0x50000300)
    /\ Modern.notify_off_mul_ b' = 4.
Proof.
  apply (proj1 (Init_body_on_one_record 0x70
                  (Modern.mkBackend (Sim.pci Sim.modern_cfg)
                     [Sim.unmapped; Sim.unmapped; Sim.unmapped; Sim.unmapped;
                      mkBar 0x50000000 0x100; Sim.unmapped] 0 0 0 0 9)
                  (Sim.start (Sim.filled 0)))); by vm_compute.
Defined.

(* ------------------------------------------------------------------ *)
(** ** The earlier Device: one capability record of Bind *)

(** X26.  The earlier Device's Bind does not look at what MapBar returns.
    For a vendor capability of one of the four register-block types, the
    address bar base + offset is stored in the block's pointer whatever
    status MapBar came back with, so also when the BAR could not be mapped;
    a notification capability also stores its multiplier.  (The modern
    backend's callbacks store nothing when MapBar fails.) *)
Theorem Earlier_Bind_cap_ignores_MapBar_status {H : Type} (pci_config : Z -> Z)
  (off : Z) (d : EarlierDevice.Device H) (w : World H)
  (s : Z) (d1 : EarlierDevice.Device H) (w1 : World H) :
  let type := EarlierDevice.config_byte pci_config (off + offsetof_cfg_type) in
  let a := EarlierDevice.cap_target pci_config off d1 in
  let old := EarlierDevice.mmio_regs_ d1 in
  VIRTIO_PCI_CAP_COMMON_CFG <= type <= VIRTIO_PCI_CAP_DEVICE_CFG ->
  EarlierDevice.MapBar (EarlierDevice.config_byte pci_config (off + offsetof_bar)) d w
  = Some (s, d1, w1) ->
  exists d',
    EarlierDevice.Bind_cap pci_config off d w = Some (d', w1)
    /\ EarlierDevice.bar_ d' = EarlierDevice.bar_ d1
    /\ EarlierDevice.mmio_regs_ d'
       = EarlierDevice.mkRegs
           (if type =? VIRTIO_PCI_CAP_COMMON_CFG then a
            else EarlierDevice.common_config old)
           (if type =? VIRTIO_PCI_CAP_NOTIFY_CFG then a
            else EarlierDevice.notify_base old)
           (if type =? VIRTIO_PCI_CAP_ISR_CFG then a else EarlierDevice.isr_status old)
           (if type =? VIRTIO_PCI_CAP_DEVICE_CFG then a
            else EarlierDevice.device_config old)
           (if type =? VIRTIO_PCI_CAP_NOTIFY_CFG
            then EarlierDevice.config_word pci_config
                   (off + EarlierDevice.offsetof_notify_off_multiplier)
            else EarlierDevice.notify_mul old).
Proof.
  intros type a old Htype Hmap. unfold EarlierDevice.Bind_cap. cbv zeta.
  fold type.
  by_config_type type;
    try (exfalso;
         unfold VIRTIO_PCI_CAP_COMMON_CFG, VIRTIO_PCI_CAP_NOTIFY_CFG,
           VIRTIO_PCI_CAP_ISR_CFG, VIRTIO_PCI_CAP_DEVICE_CFG, VIRTIO_PCI_CAP_PCI_CFG in *;
         lia);
    unfold bind; rewrite Hmap; cbn [snd ret];
    eexists; (split; [reflexivity |]); by cbn.
Qed.

Lemma Earlier_Bind_cap_ignores_MapBar_status_witness :
  match EarlierDevice.MapBar 4
          (EarlierDevice.mkDevice (Bench.failing_pci Sim.modern_cfg (-4))
             (replicate 6 Sim.unmapped) (EarlierDevice.mkRegs 0 0 0 0 0) 0)
          (Sim.start (Sim.filled 0)) with
  | Some (s, d1, w1) =>
      s = -4
      /\ exists d',
          EarlierDevice.Bind_cap Sim.modern_cfg 0x50
            (EarlierDevice.mkDevice (Bench.failing_pci Sim.modern_cfg (-4))
               (replicate 6 Sim.unmapped) (EarlierDevice.mkRegs 0 0 0 0 0) 0)
            (Sim.start (Sim.filled 0)) = Some (d', w1)
          /\ EarlierDevice.bar_ d' = replicate 6 Sim.unmapped
          /\ EarlierDevice.isr_status (EarlierDevice.mmio_regs_ d') = 0x100
  | None => False
  end.
Proof.
  assert (Hmap :
            EarlierDevice.MapBar 4
              (EarlierDevice.mkDevice (Bench.failing_pci Sim.modern_cfg (-4))
                 (replicate 6 Sim.unmapped) (EarlierDevice.mkRegs 0 0 0 0 0) 0)
              (Sim.start (Sim.filled 0))
            = Some (-4,
                    EarlierDevice.mkDevice (Bench.failing_pci Sim.modern_cfg (-4))
                      (replicate 6 Sim.unmapped) (EarlierDevice.mkRegs 0 0 0 0 0) 0,
                    mkWorld (Sim.filled 0) [EvMapResource 4]))
    by reflexivity.
  destruct (Earlier_Bind_cap_ignores_MapBar_status Sim.modern_cfg 0x50 _ _ _ _ _
              ltac:(by vm_compute) Hmap) as (d' & Hrun & Hbars & Hregs).
  rewrite Hmap. split; [reflexivity |]. exists d'. split; [exact Hrun |].
  split; [exact Hbars |]. rewrite Hregs. reflexivity.
Defined.

(** X27.  The modern backend keeps the register traffic of the earlier
    Device's memory-mapped path for the queue size and for DRIVER_OK: with
    the same non-null common configuration block, GetRingSize and the
    DRIVER_OK step behave alike on any hardware, and DeviceReset is the
    earlier Reset without its polling. *)
Theorem Modern_backend_keeps_mmio_traffic {H : Type} (P : Platform H)
  (d : EarlierDevice.Device H) (b : Modern.PciModernBackend H) (w : World H) :
  EarlierDevice.common_config (EarlierDevice.mmio_regs_ d) = Modern.common_cfg_ b ->
  Modern.common_cfg_ b <> 0 ->
  (forall index, EarlierRest.GetRingSize P index d w = Modern.GetRingSize P index b w)
  /\ EarlierDevice.StatusDriverOK P d w = Modern.DriverStatusOk P b w
  /\ (forall fuel,
         EarlierDevice.Reset P fuel d w
         = (Modern.DeviceReset P b ;;;
            EarlierDevice.Reset_poll fuel
              (MmioRead P 8 (Modern.common_cfg_ b + offsetof_device_status))) w).
Proof.
  intros Hcc Hset.
  assert (Htest : (Modern.common_cfg_ b =? 0) = false) by by apply Z.eqb_neq.
  split; [| split].
  - intros index. unfold EarlierRest.GetRingSize, Modern.GetRingSize. cbv zeta.
    by rewrite Hcc, Htest.
  - unfold EarlierDevice.StatusDriverOK, Modern.DriverStatusOk. cbv zeta.
    by rewrite Hcc, Htest.
  - intros fuel. unfold EarlierDevice.Reset, Modern.DeviceReset. cbv zeta.
    by rewrite Hcc, Htest.
Qed.

Lemma Modern_backend_keeps_mmio_traffic_witness :
  (forall index,
      EarlierRest.GetRingSize Sim.platform index Sim.mmio_device (Sim.start (Sim.filled 1))
      = Modern.GetRingSize Sim.platform index (Sim.modern_backend 4)
          (Sim.start (Sim.filled 1)))
  /\ EarlierDevice.StatusDriverOK Sim.platform Sim.mmio_device (Sim.start (Sim.filled 1))
     = Modern.DriverStatusOk Sim.platform (Sim.modern_backend 4) (Sim.start (Sim.filled 1))
  /\ (forall fuel,
         EarlierDevice.Reset Sim.platform fuel Sim.mmio_device (Sim.start (Sim.filled 1))
         = (Modern.DeviceReset Sim.platform (Sim.modern_backend 4) ;;;
            EarlierDevice.Reset_poll fuel
              (MmioRead Sim.platform 8
                 (Modern.common_cfg_ (Sim.modern_backend 4) + offsetof_device_status)))
             (Sim.start (Sim.filled 1))).
Proof.
  apply (Modern_backend_keeps_mmio_traffic Sim.platform Sim.mmio_device
           (Sim.modern_backend 4) (Sim.start (Sim.filled 1)));
    [reflexivity | by vm_compute].
Defined.

(* ------------------------------------------------------------------ *)
(** ** The PL061 interrupt thread *)

Lemma land_pow2 (v i : Z) :
  0 <= i -> Z.land v (2 ^ i) = if Z.testbit v i then 2 ^ i else 0.
Proof.
  intros Hi. apply Z.bits_inj'. intros n Hn.
  rewrite Z.land_spec, Z.pow2_bits_eqb by lia.
  destruct (Z.eqb_spec i n) as [<- | Hne].
  - destruct (Z.testbit v i) eqn:Hbit; cbn [andb].
    + by rewrite Z.pow2_bits_true.
    + by rewrite Z.bits_0.
  - rewrite andb_false_r. destruct (Z.testbit v i).
    + by rewrite Z.pow2_bits_false by lia.
    + by rewrite Z.bits_0.
Qed.

Lemma mask_step (mis i : Z) :
  0 <= i ->
  (if Z.testbit mis i then Z.lor (Z.land mis (Z.ones i)) (2 ^ i)
   else Z.land mis (Z.ones i))
  = Z.land mis (Z.ones (i + 1)).
Proof.
  intros Hi. apply Z.bits_inj'. intros n Hn.
  rewrite (Z.land_spec mis (Z.ones (i + 1))), (Z.testbit_ones_nonneg (i + 1)) by lia.
  destruct (Z.testbit mis i) eqn:Hbit.
  - rewrite Z.lor_spec, Z.land_spec, Z.testbit_ones_nonneg, Z.pow2_bits_eqb by lia.
    destruct (Z.ltb_spec n i), (Z.ltb_spec n (i + 1)), (Z.eqb_spec i n); try lia;
      subst; rewrite ?Hbit; by rewrite ?andb_true_r, ?andb_false_r, ?orb_false_r.
  - rewrite Z.land_spec, Z.testbit_ones_nonneg by lia.
    destruct (Z.ltb_spec n i), (Z.ltb_spec n (i + 1)); try lia; try reflexivity.
    assert (n = i) as -> by lia. by rewrite Hbit.
Qed.

Lemma masked_status_fits (mis k : Z) :
  0 <= mis < 256 -> 0 <= k -> 0 <= Z.land mis (Z.ones k) < 256.
Proof.
  intros Hmis Hk. rewrite Z.land_ones by lia.
  pose proof (Z.mod_pos_bound mis (2 ^ k) ltac:(by apply Z.pow_pos_nonneg)).
  pose proof (Z.mod_le mis (2 ^ k) ltac:(lia) ltac:(by apply Z.pow_pos_nonneg)). lia.
Qed.

Lemma writes_of_write (sp : space) (bits addr val : Z) (evs : list event) :
  writes_of (EvWrite sp bits addr val :: evs) = (addr, val) :: writes_of evs.
Proof. reflexivity. Qed.

Lemma writes_of_read (sp : space) (bits addr val : Z) (evs : list event) :
  writes_of (EvRead sp bits addr val :: evs) = writes_of evs.
Proof. reflexivity. Qed.

Lemma count_reads_read (sp : space) (bits addr val : Z) (evs : list event) :
  count_event is_read (EvRead sp bits addr val :: evs) = S (count_event is_read evs).
Proof. exact (count_event_app is_read [EvRead sp bits addr val] evs). Qed.

Lemma count_reads_write (sp : space) (bits addr val : Z) (evs : list event) :
  count_event is_read (EvWrite sp bits addr val :: evs) = count_event is_read evs.
Proof. exact (count_event_app is_read [EvWrite sp bits addr val] evs). Qed.

Section IrqThread.
Context {H : Type} (P : Platform H).

Lemma pl061_irq_scan_run (regs mis : Z) :
  0 <= mis < 256 ->
  forall (n j : nat) (w : World H),
    (j + n = 8)%nat ->
    exists sigs w' evs,
      Pl061.pl061_irq_scan P n (Z.of_nat j) regs mis (Z.land mis (Z.ones (Z.of_nat j))) w
      = Some ((mis, sigs), w')
      /\ added w w' evs
      /\ writes_of evs
         = map (fun k : nat => (regs + Pl061.GPIOIC, Z.land mis (Z.ones (Z.of_nat k + 1))))
             (seq j n)
      /\ count_event is_read evs = length sigs.
Proof.
  intros Hmis. induction n as [| n IH]; intros j w Hsum.
  - exists [], w, []. cbn [Pl061.pl061_irq_scan]. unfold ret.
    assert (j = 8%nat) as -> by lia.
    change (Z.of_nat 8) with 8. rewrite Z.land_ones, Z.mod_small by lia.
    split; [reflexivity |]. split; [unfold added; by rewrite app_nil_r |].
    split; reflexivity.
  - cbn [Pl061.pl061_irq_scan]. cbv zeta.
    set (i := Z.of_nat j). assert (Hi : 0 <= i < 8) by lia.
    assert (Hbit : Pl061.bit_of i = 2 ^ i).
    { rewrite bit_of_power. by rewrite Z.mod_small. }
    rewrite Hbit, land_pow2 by lia.
    pose proof (mask_step mis i ltac:(lia)) as Hstep.
    pose proof (masked_status_fits mis (i + 1) Hmis ltac:(lia)) as Hfits.
    assert (Hpow : (2 ^ i =? 0) = false).
    { apply Z.eqb_neq. pose proof (Z.pow_pos_nonneg 2 i). lia. }
    assert (Hnext : i + 1 = Z.of_nat (S j)) by lia.
    rewrite Hnext in *.
    assert (Hu : u8 (Z.land mis (Z.ones (Z.of_nat (S j))))
                 = Z.land mis (Z.ones (Z.of_nat (S j)))) by (apply wrap_small; lia).
    assert (Hlast : Z.land mis (Z.ones (Z.of_nat (S j)))
                    = Z.land mis (Z.ones (Z.of_nat j + 1))) by (f_equal; f_equal; lia).
    unfold bind at 1.
    destruct (Z.testbit mis i) eqn:Htest.
    + rewrite Hpow. cbn [negb]. unfold bind at 1, Pl061.readb.
      destruct (read_returns P Mmio 8 (regs + Pl061.GPIODATA (2 ^ i)) w)
        as (v & w1 & -> & _ & Hadd1).
      unfold ret at 1. cbn [fst snd]. rewrite Hstep, Hu.
      unfold bind at 1, Pl061.writeb.
      destruct (write_returns P Mmio 8 (regs + Pl061.GPIOIC)
                  (Z.land mis (Z.ones (Z.of_nat (S j)))) w1) as (w2 & -> & Hadd2).
      unfold bind at 1.
      destruct (IH (S j) w2 ltac:(lia)) as (sigs & w' & evs & -> & Hadd3 & Hwrites & Hreads).
      unfold ret. cbn [fst snd].
      eexists _, w', (_ :: _ :: evs). split; [reflexivity |].
      split; [unfold added in *; rewrite Hadd3, Hadd2, Hadd1, <- !app_assoc; reflexivity |].
      split.
      * rewrite ?writes_of_read, writes_of_write, Hwrites. cbn [seq map].
        change (wrap 8 ?x) with (u8 x). by rewrite Hu, Hlast.
      * by rewrite count_reads_read, count_reads_write, Hreads.
    + rewrite Z.eqb_refl. cbn [negb]. unfold ret at 1. cbn [fst snd].
      rewrite Hstep.
      unfold bind at 1, Pl061.writeb.
      destruct (write_returns P Mmio 8 (regs + Pl061.GPIOIC)
                  (Z.land mis (Z.ones (Z.of_nat (S j)))) w) as (w2 & -> & Hadd2).
      unfold bind at 1.
      destruct (IH (S j) w2 ltac:(lia)) as (sigs & w' & evs & -> & Hadd3 & Hwrites & Hreads).
      unfold ret. cbn [fst snd app].
      eexists _, w', (_ :: evs). split; [reflexivity |].
      split; [unfold added in *; rewrite Hadd3, Hadd2, <- !app_assoc; reflexivity |].
      split.
      * rewrite ?writes_of_read, writes_of_write, Hwrites. cbn [seq map].
        change (wrap 8 ?x) with (u8 x). by rewrite Hu, Hlast.
      * by rewrite count_reads_write, Hreads.
Qed.
End IrqThread.

(** X28.  One wake of pl061_irq_thread, on any hardware.  It reads the
    masked interrupt status once and writes the interrupt-clear register
    GPIOIC eight times, once per pin of the page, each time with the pending
    bits seen so far: the k-th write carries the status cut to its low k
    bits, so the last one clears exactly the interrupts that were read.  It
    reads the data register once for each signal it raises, and writes
    nothing else. *)
Theorem pl061_irq_wake_clears_what_it_read {H : Type} (P : Platform H) (regs : Z)
  (w : World H) :
  let mis := wrap 8 (fst (hw_read P Mmio 8 (regs + Pl061.GPIOMIS) (hw w))) in
  exists sigs w' evs,
    Pl061.pl061_irq_wake P regs w = Some ((mis, sigs), w')
    /\ added w w' evs
    /\ writes_of evs
       = map (fun k : nat => (regs + Pl061.GPIOIC, Z.land mis (Z.ones (Z.of_nat k + 1))))
           (seq 0 8)
    /\ count_event is_read evs = S (length sigs).
Proof.
  intros mis. unfold Pl061.pl061_irq_wake, Pl061.readb, bind.
  destruct (read_returns P Mmio 8 (regs + Pl061.GPIOMIS) w) as (v & w1 & -> & Hv & Hadd1).
  fold mis in Hv. subst v.
  assert (Hmis : 0 <= mis < 256) by (apply wrap_range; lia).
  destruct (pl061_irq_scan_run P regs mis Hmis 8 0 w1 ltac:(lia))
    as (sigs & w' & evs & Hrun & Hadd2 & Hwrites & Hreads).
  change (Z.of_nat 0) with 0 in Hrun. change (Z.ones 0) with 0 in Hrun.
  rewrite Z.land_0_r in Hrun.
  change (Z.to_nat Pl061.GPIOS_PER_PAGE) with 8%nat. rewrite Hrun.
  exists sigs, w', (EvRead Mmio 8 (regs + Pl061.GPIOMIS) mis :: evs).
  split; [reflexivity |].
  split; [unfold added in *; by rewrite Hadd2, Hadd1, <- app_assoc |].
  split; [exact Hwrites |].
  by rewrite count_reads_read, Hreads.
Qed.

(** X29.  PciLegacyBackend::DeviceConfigRead for a 64-bit field reads two
    32-bit ports, the one at the field's offset and the one four above it,
    and returns the first as the low and the second as the high word: on
    registers that hold what was written, after the two words have been
    written with the 32-bit DeviceConfigWrite at offset and offset + 4, the
    64-bit read returns low + 2^32 * high. *)
Theorem Legacy_DeviceConfigRead64_halves (b : Legacy.PciLegacyBackend)
  (offset low high : Z) (w : World Sim.state) :
  exists w',
    (Legacy.DeviceConfigWrite32 Sim.platform offset low b ;;;
     Legacy.DeviceConfigWrite32 Sim.platform (offset + 4) high b ;;;
     Legacy.DeviceConfigRead64 Sim.platform offset b) w
    = Some (Z.lor (low mod 2 ^ 32) (Z.shiftl (high mod 2 ^ 32) 32), w').
Proof.
  unfold Legacy.DeviceConfigWrite32, Legacy.DeviceConfigRead64, outpd, inpd, bind, ret.
  rewrite !u16_idem, !write_sim. cbn [hw trace].
  rewrite !read_sim. cbn [hw trace].
  set (port := u16 (Legacy.device_cfg_offset_ b + u16 offset)).
  assert (Hhigh : u16 (Legacy.device_cfg_offset_ b + u16 (offset + 4))
                  = u16 (Legacy.device_cfg_offset_ b + u16 offset + 4)).
  { unfold u16, wrap. rewrite Zplus_mod_idemp_r.
    replace (Legacy.device_cfg_offset_ b + offset mod 2 ^ 16 + 4)
      with (offset mod 2 ^ 16 + (Legacy.device_cfg_offset_ b + 4)) by lia.
    rewrite Zplus_mod_idemp_l. f_equal. lia. }
  rewrite Hhigh.
  set (port' := u16 (Legacy.device_cfg_offset_ b + u16 offset + 4)).
  assert (Hports : port' = port + 4 \/ port' = port + 4 - 65536).
  { unfold port', port. apply u16_add_cases. lia. }
  pose proof (u16_port_range (Legacy.device_cfg_offset_ b + u16 offset)) as Hrange.
  fold port in Hrange.
  assert (Hwide : register_width 32) by (right; by right).
  rewrite (peek_write_apart _ _ 32 32 port port')
    by (right; change (Z.of_nat (Sim.bytes_of 32)) with 4; lia).
  rewrite !peek_write_same by exact Hwide.
  eexists. rewrite !wrap_idem. reflexivity.
Qed.
